(** * Speech emotion recognition: the training loop, its learning-rate
      schedule, the feature extractor and the validation workflow

    A shallow embedding of [docs/notebooks/05_Enhanced_Model.ipynb]
    ([CosineAnnealingWarmRestarts], [train_enhanced_model],
    [evaluate_model], [EmotionFeatureExtractor]) and of the
    "Basic Code Validation" workflow.

    Python objects that are mutated in place (the optimizer's parameter
    groups, the scheduler, the tensors behind the model's parameters) live
    in an explicit world that every operation threads; a Python exception
    is a [Raise] result. *)

From Stdlib Require Import ZArith List Bool Lia PrimFloat Uint63.
From Stdlib Require Import SpecFloat FloatOps.
From Stdlib Require Import ZifyNat ArithRing.
From stdpp Require Import gmap strings list fin_maps.

Local Open Scope Z_scope.

(** Linear arithmetic with division by constants. *)
Ltac div_lia := zify; Z.to_euclidean_division_equations; lia.

(** ** Python results and the state-and-exception monad *)

Module Py.

(** [TorchError] stands for whatever a call into the framework raises
    (torch's RuntimeError, ValueError, IndexError): the notebook catches
    nothing, so the class of such an exception makes no difference to
    it. *)
Inductive exn : Type :=
| ZeroDivisionError
| OverflowError
| KeyError
| TorchError.

Inductive result (A : Type) : Type :=
| Ok (a : A)
| Raise (e : exn).
Arguments Ok {A} a.
Arguments Raise {A} e.

Definition is_ok {A} (r : result A) : bool :=
  match r with Ok _ => true | Raise _ => false end.

Definition value_or {A} (d : A) (r : result A) : A :=
  match r with Ok a => a | Raise _ => d end.

(** A computation over a mutable world [W]. *)
Definition M (W A : Type) : Type := W -> result (A * W).

Definition ret {W A} (a : A) : M W A := fun w => Ok (a, w).

Definition bind {W A B} (c : M W A) (k : A -> M W B) : M W B :=
  fun w => match c w with
           | Ok (a, w') => k a w'
           | Raise e => Raise e
           end.

Definition raise {W A} (e : exn) : M W A := fun _ => Raise e.
Definition get {W} : M W W := fun w => Ok (w, w).
Definition modify {W} (f : W -> W) : M W unit := fun w => Ok (tt, f w).
Definition lift {W A} (r : result A) : M W A :=
  fun w => match r with Ok a => Ok (a, w) | Raise e => Raise e end.

(** The result of a framework call that may have raised. *)
Definition torch {W A} (r : option A) : M W A :=
  fun w => match r with Some a => Ok (a, w) | None => Raise TorchError end.

(** [for x in xs: body x] with a loop-carried accumulator. *)
Fixpoint for_each {W A B} (xs : list A) (body : A -> B -> M W B) (acc : B)
  : M W B :=
  match xs with
  | [] => ret acc
  | x :: xs' => bind (body x acc) (for_each xs' body)
  end.

(** A list comprehension whose element expression may raise. *)
Fixpoint comprehension {A B} (f : A -> result B) (xs : list A)
  : result (list B) :=
  match xs with
  | [] => Ok []
  | x :: xs' =>
      match f x with
      | Raise e => Raise e
      | Ok y => match comprehension f xs' with
                | Raise e => Raise e
                | Ok ys => Ok (y :: ys)
                end
      end
  end.

End Py.

Import Py.

Declare Scope py_scope.
Delimit Scope py_scope with py.
Notation "x <- c ;; k" := (Py.bind c (fun x => k))
  (at level 100, c at next level, right associativity) : py_scope.
Notation "c ;;; k" := (Py.bind c (fun _ => k))
  (at level 100, right associativity) : py_scope.

(** ** Python floats

    The arithmetic the notebook performs on floats, as an interface: the
    code is verified for every implementation of it.  Integer operands are
    converted with [of_int], as Python does in mixed arithmetic. *)

Class PyFloat (F : Type) : Type := {
  of_int : Z -> F;
  fadd : F -> F -> F;
  fsub : F -> F -> F;
  fmul : F -> F -> F;
  fdiv : F -> F -> F;          (* only called with a non-zero divisor *)
  flt : F -> F -> bool;        (* [<] *)
  finf : F;                    (* [float('inf')] *)
  np_pi : F;
  np_cos : F -> F;
}.

(** [x / n] for a float [x] and an int [n] that is a length or a count
    (so within the range of a float): Python raises on [n == 0]. *)
Definition truediv {F} `{PyFloat F} (x : F) (n : Z) : result F :=
  if n =? 0 then Raise ZeroDivisionError else Ok (fdiv x (of_int n)).

(** Mixed arithmetic converts the int operand first, and an int of
    arbitrary size need not have a float: the conversion rounds to
    nearest, and from [2^1024 - 2^970] on the result would be [2^1024],
    which Python refuses with [OverflowError]. *)
Definition float_limit : Z := 2 ^ 1024 - 2 ^ 970.

Definition fits_float (n : Z) : bool := Z.abs n <? float_limit.

(** [x * n] and [x / n] for a float [x] and an arbitrary int [n]. *)
Definition mul_int {F} `{PyFloat F} (x : F) (n : Z) : result F :=
  if fits_float n then Ok (fmul x (of_int n)) else Raise OverflowError.

Definition truediv_int {F} `{PyFloat F} (x : F) (n : Z) : result F :=
  if fits_float n then truediv x n else Raise OverflowError.

(** ** The optimizer object, as far as the notebook touches it *)

Module Optim.
Section Defs.
Context {F : Type} {OS : Type}.

(** [param_groups] is a list of dicts; [state] is whatever the
    optimizer keeps between steps (Adam's moments). *)
Record t : Type := {
  param_groups : list (gmap string F);
  state : OS;
}.

Definition set_param_groups (o : t) (gs : list (gmap string F)) : t :=
  {| param_groups := gs; state := state o |}.

(** [for param_group, lr in zip(param_groups, lrs): param_group['lr'] = lr] *)
Fixpoint assign_lrs (gs : list (gmap string F)) (lrs : list F)
  : list (gmap string F) :=
  match gs, lrs with
  | g :: gs', lr :: lrs' => <["lr" := lr]> g :: assign_lrs gs' lrs'
  | _, _ => gs
  end.

Definition lrs (o : t) : list (option F) :=
  map (fun g : gmap string F => g !! "lr") (param_groups o).
End Defs.
Arguments t : clear implicits.
End Optim.

(** ** [class CosineAnnealingWarmRestarts] *)

Module Scheduler.
Section Defs.
Context {F : Type} `{PyFloat F} {OS : Type}.

(** The counters are Python ints, as in every use in the notebook;
    [eta_min] and the base learning rates are floats (the default
    [eta_min=0] converts exactly). *)
Record t : Type := {
  T_0 : Z;
  T_mult : Z;
  eta_min : F;
  T_cur : Z;
  last_epoch : Z;
  base_lrs : list F;
}.

(** The fields [__init__] assigns before it hands over to the base
    class. *)
Definition init_fields (T0 Tmult : Z) (etamin : F) (last : Z) : t :=
  {| T_0 := T0; T_mult := Tmult; eta_min := etamin; T_cur := last;
     last_epoch := last; base_lrs := [] |}.

(** The learning rate of one group:
    [eta_min + (base_lr - eta_min) * (1 + cos(pi * T_cur / T_0)) / 2]. *)
Definition annealed (s : t) (base_lr : F) (x : F) : F :=
  fadd (eta_min s)
       (fdiv (fmul (fsub base_lr (eta_min s))
                   (fadd (of_int 1) (np_cos x)))
             (of_int 2)).

Definition get_lr (s : t) : result (list F) :=
  comprehension
    (fun base_lr =>
       match mul_int np_pi (T_cur s) with
       | Raise e => Raise e
       | Ok y =>
           match truediv_int y (T_0 s) with
           | Raise e => Raise e
           | Ok x => Ok (annealed s base_lr x)
           end
       end)
    (base_lrs s).

(** The counter update of [step], before the learning rates are
    recomputed. *)
Definition advance (epoch : option Z) (s : t) : t :=
  let epoch := match epoch with
               | None => last_epoch s + 1
               | Some e => e
               end in
  if T_cur s + 1 =? T_0 s
  then {| T_0 := T_0 s * T_mult s; T_mult := T_mult s;
          eta_min := eta_min s; T_cur := 0; last_epoch := epoch;
          base_lrs := base_lrs s |}
  else {| T_0 := T_0 s; T_mult := T_mult s;
          eta_min := eta_min s; T_cur := T_cur s + 1; last_epoch := epoch;
          base_lrs := base_lrs s |}.

(** [step(epoch)]: the scheduler and the optimizer it points to are both
    mutated. *)
Definition step (epoch : option Z) : M (t * Optim.t F OS) unit :=
  fun '(s, o) =>
    let s' := advance epoch s in
    match get_lr s' with
    | Raise e => Raise e
    | Ok lrs =>
        Ok (tt, (s', Optim.set_param_groups o
                       (Optim.assign_lrs (Optim.param_groups o) lrs)))
    end.

(** What [_LRScheduler.__init__] of the framework does with the
    optimizer: with [last_epoch == -1] every group gets an
    ['initial_lr'] (its current ['lr']) unless it has one, otherwise
    every group must have one already; [base_lrs] collects them, and
    one [step()] is taken. *)
Definition setdefault_initial_lr (g : gmap string F)
  : result (gmap string F) :=
  match g !! "initial_lr" with
  | Some _ => Ok g
  | None => match g !! "lr" with
            | Some lr => Ok (<["initial_lr" := lr]> g)
            | None => Raise KeyError
            end
  end.

Definition initial_lr_of (g : gmap string F) : result F :=
  match g !! "initial_lr" with
  | Some x => Ok x
  | None => Raise KeyError
  end.

Definition base_init (s : t) : M (Optim.t F OS) t :=
  fun o =>
    match comprehension
            (if last_epoch s =? -1 then setdefault_initial_lr
             else fun g => match initial_lr_of g with
                           | Ok _ => Ok g
                           | Raise e => Raise e
                           end)
            (Optim.param_groups o) with
    | Raise e => Raise e
    | Ok gs =>
        match comprehension initial_lr_of gs with
        | Raise e => Raise e
        | Ok bases =>
            let s0 := {| T_0 := T_0 s; T_mult := T_mult s;
                         eta_min := eta_min s; T_cur := T_cur s;
                         last_epoch := last_epoch s; base_lrs := bases |} in
            match step None (s0, Optim.set_param_groups o gs) with
            | Raise e => Raise e
            | Ok (_, (s1, o1)) => Ok (s1, o1)
            end
        end
    end.

(** [CosineAnnealingWarmRestarts(optimizer, T_0, T_mult, eta_min, last_epoch)] *)
Definition create (T0 Tmult : Z) (etamin : F) (last : Z)
  : M (Optim.t F OS) t :=
  base_init (init_fields T0 Tmult etamin last).

(** [n] further calls of [step()], counters only. *)
Fixpoint advances (n : nat) (s : t) : t :=
  match n with
  | O => s
  | S n' => advances n' (advance None s)
  end.

(** A sequence of calls [step(epoch)], one per element of [es], each
    with its own argument ([None] for [step()]). *)
Fixpoint step_each (es : list (option Z)) : M (t * Optim.t F OS) unit :=
  match es with
  | [] => ret tt
  | e :: es' => bind (step e) (fun _ => step_each es')
  end.

(** The counters after such a sequence: [step] updates them before it
    computes any learning rate, so they are these whether or not a call
    then raises. *)
Fixpoint advance_each (es : list (option Z)) (s : t) : t :=
  match es with
  | [] => s
  | e :: es' => advance_each es' (advance e s)
  end.
End Defs.
Arguments t : clear implicits.
End Scheduler.

(** ** The framework operations the notebook calls

    Tensors, batches and the numerics of a forward or backward pass are
    the framework's; the notebook only orchestrates them.  [tensor] is the
    content of a module's parameters and buffers, i.e. what a
    [state_dict] holds.  A framework call may raise (a model rejects the
    shape of its input, batch normalisation rejects a training batch of
    one sample, the loss rejects a label): its result is then [None].  The
    targets of a batch are a 1-dimensional tensor of labels, as a
    [DataLoader] over [EmotionDataset] collates them. *)

Class Torch (F : Type) : Type := {
  tensor : Type;
  tensor_inhabited :: Inhabited tensor;
  batch : Type;                 (* one [(features, targets)] of a loader *)
  outputs : Type;               (* the first component of [model(features)] *)
  adam_state : Type;
  targets : batch -> list Z;    (* the labels of a batch *)
  forward : bool -> tensor -> batch -> option outputs;
                                (* [model(features)], flag: training mode *)
  update_buffers : tensor -> batch -> tensor;
                                (* running statistics touched by a
                                   training-mode forward pass *)
  criterion_item : outputs -> batch -> option F;
                                (* [criterion(outputs, targets)], read
                                   with [.item()] *)
  predict : outputs -> option (list Z);
                                (* [outputs.max(1)], the indices *)
  num_correct : list Z -> batch -> option nat;
                                (* [predicted.eq(targets).sum().item()] *)
  adam_defaults : gmap string F;
  adam_new : adam_state;
  adam_step : list (gmap string F) -> adam_state -> tensor -> outputs ->
              batch -> option (adam_state * tensor);
                                (* [loss.backward(); optimizer.step()] *)
}.

(** [targets.size(0)] *)
Definition targets_size {F} `{Torch F} (b : batch) : Z :=
  Z.of_nat (length (targets b)).

(** ** Modules, their storage and [state_dict] *)

Module Nn.
Section Defs.
Context {F : Type} `{PyFloat F} `{Torch F}.

Definition loc : Type := positive.

(** The mutable world: tensor storages, the [training] flag of each
    module, and the optimizer and scheduler objects. *)
Record world : Type := {
  tensors : gmap loc tensor;
  training : gmap loc bool;
  optimizer : Optim.t F adam_state;
  scheduler : Scheduler.t F;
}.

Definition set_tensors (f : gmap loc tensor -> gmap loc tensor)
  (w : world) : world :=
  {| tensors := f (tensors w); training := training w;
     optimizer := optimizer w; scheduler := scheduler w |}.
Definition set_training (f : gmap loc bool -> gmap loc bool)
  (w : world) : world :=
  {| tensors := tensors w; training := f (training w);
     optimizer := optimizer w; scheduler := scheduler w |}.
Definition set_optimizer (o : Optim.t F adam_state) (w : world) : world :=
  {| tensors := tensors w; training := training w;
     optimizer := o; scheduler := scheduler w |}.
Definition set_scheduler (s : Scheduler.t F) (w : world) : world :=
  {| tensors := tensors w; training := training w;
     optimizer := optimizer w; scheduler := s |}.

(** The values of the parameters of module [m]. *)
Definition parameters (w : world) (m : loc) : tensor := tensors w !!! m.

(** A freshly built module is in training mode. *)
Definition is_training (w : world) (m : loc) : bool :=
  default true (training w !! m).

Definition train (m : loc) : M world unit :=
  modify (set_training <[m := true]>).
Definition eval (m : loc) : M world unit :=
  modify (set_training <[m := false]>).

(** [model(features)]: in training mode the buffers are updated. *)
Definition call (m : loc) (b : batch) : M world outputs :=
  fun w =>
    match forward (is_training w m) (parameters w m) b with
    | None => Raise TorchError
    | Some out =>
        if is_training w m
        then Ok (out,
                 set_tensors <[m := update_buffers (parameters w m) b]> w)
        else Ok (out, w)
    end.

(** A state dict maps names to tensors; [sd_storage] is the storage
    those tensors live in. *)
Record state_dict_t : Type := { sd_storage : loc }.

(** [model.state_dict()]: the returned dict refers to the module's own
    tensors, nothing is copied. *)
Definition state_dict (m : loc) : M world state_dict_t :=
  ret {| sd_storage := m |}.

(** [copy.deepcopy(sd)]: new storage with the current values. *)
Definition deepcopy (sd : state_dict_t) : M world state_dict_t :=
  fun w =>
    let l := fresh (dom (tensors w)) in
    Ok ({| sd_storage := l |},
        set_tensors <[l := tensors w !!! sd_storage sd]> w).

(** [model.load_state_dict(sd)]: the values are copied into the
    module's tensors in place. *)
Definition load_state_dict (m : loc) (sd : state_dict_t) : M world unit :=
  modify (fun w => set_tensors <[m := tensors w !!! sd_storage sd]> w).

(** [loss.backward(); optimizer.step()] on module [m]. *)
Definition backward_and_step (m : loc) (out : outputs) (b : batch)
  : M world unit :=
  fun w =>
    let o := optimizer w in
    match adam_step (Optim.param_groups o) (Optim.state o)
                    (parameters w m) out b with
    | None => Raise TorchError
    | Some (st, p) =>
        Ok (tt, set_optimizer {| Optim.param_groups := Optim.param_groups o;
                                 Optim.state := st |}
                  (set_tensors <[m := p]> w))
    end.

(** [torch.optim.Adam(model.parameters(), lr=learning_rate)], for a
    learning rate and a parameter list that Adam accepts. *)
Definition Adam (learning_rate : F) : M world unit :=
  modify (set_optimizer
            {| Optim.param_groups := [<["lr" := learning_rate]> adam_defaults];
               Optim.state := adam_new |}).

(** [CosineAnnealingWarmRestarts(optimizer, T_0, T_mult)] *)
Definition new_scheduler (T0 Tmult : Z) : M world unit :=
  fun w =>
    match Scheduler.create T0 Tmult (of_int 0) (-1) (optimizer w) with
    | Raise e => Raise e
    | Ok (s, o) => Ok (tt, set_scheduler s (set_optimizer o w))
    end.

(** [scheduler.step()] *)
Definition scheduler_step : M world unit :=
  fun w =>
    match Scheduler.step None (scheduler w, optimizer w) with
    | Raise e => Raise e
    | Ok (_, (s, o)) => Ok (tt, set_scheduler s (set_optimizer o w))
    end.
End Defs.
End Nn.

(** ** [train_enhanced_model] and [evaluate_model]

    [.to(device)] moves data without changing it and [print] does not
    affect the result; neither is modelled.  Gradients are not part of the
    state: [optimizer.zero_grad()] and [torch.no_grad()] leave the modelled
    world as it is. *)

Module Training.
Section Defs.
Context {F : Type} `{PyFloat F} `{Torch F}.

Import Nn.
Local Open Scope py_scope.

(** The running statistics of one pass over a loader:
    accumulated loss, correct predictions, samples seen. *)
Record stats : Type := {
  loss_sum : F;
  correct : Z;
  total : Z;
}.

Definition stats0 : stats :=
  {| loss_sum := of_int 0; correct := 0; total := 0 |}.

(** The "update stats" lines of a batch, for its loss and its number
    of correct predictions. *)
Definition update_stats (loss : F) (c : nat) (b : batch) (a : stats)
  : stats :=
  {| loss_sum := fadd (loss_sum a) loss;
     correct := correct a + Z.of_nat c;
     total := total a + targets_size b |}.

(** The body of the loop over [train_loader]. *)
Definition train_batch (m : loc) (b : batch) (a : stats) : M world stats :=
  out <- call m b ;;
  loss <- torch (criterion_item out b) ;;
  backward_and_step m out b ;;;
  predicted <- torch (predict out) ;;
  c <- torch (num_correct predicted b) ;;
  ret (update_stats loss c b a).

(** The body of the loop over [val_loader], under [torch.no_grad()]. *)
Definition val_batch (m : loc) (b : batch) (a : stats) : M world stats :=
  out <- call m b ;;
  loss <- torch (criterion_item out b) ;;
  predicted <- torch (predict out) ;;
  c <- torch (num_correct predicted b) ;;
  ret (update_stats loss c b a).

(** [loss = loss_sum / len(loader)] and
    [accuracy = 100. * correct / total], in this order. *)
Definition summarize (n_batches : Z) (a : stats) : result (F * F) :=
  match truediv (loss_sum a) n_batches with
  | Raise e => Raise e
  | Ok loss =>
      match truediv (fmul (of_int 100) (of_int (correct a))) (total a) with
      | Raise e => Raise e
      | Ok acc => Ok (loss, acc)
      end
  end.

Definition len {A} (l : list A) : Z := Z.of_nat (length l).

(** The training phase of one epoch: returns (train_loss, train_accuracy). *)
Definition train_phase (m : loc) (train_loader : list batch)
  : M world (F * F) :=
  train m ;;;
  a <- for_each train_loader (train_batch m) stats0 ;;
  lift (summarize (len train_loader) a).

(** The validation phase of one epoch: returns (val_loss, val_accuracy). *)
Definition val_phase (m : loc) (val_loader : list batch)
  : M world (F * F) :=
  eval m ;;;
  a <- for_each val_loader (val_batch m) stats0 ;;
  lift (summarize (len val_loader) a).

(** The local variables of [train_enhanced_model] that the epoch loop
    carries. *)
Record locals : Type := {
  train_losses : list F;
  val_losses : list F;
  train_accs : list F;
  val_accs : list F;
  best_val_loss : F;
  counter : Z;
  best_model_state : option state_dict_t;
}.

Definition patience : Z := 10.

Definition locals0 : locals :=
  {| train_losses := []; val_losses := []; train_accs := [];
     val_accs := []; best_val_loss := finf; counter := 0;
     best_model_state := None |}.

(** How a loop body ends: it falls through to the next iteration or
    executes [break]. *)
Inductive flow : Type := Next | Break.

(** The early-stopping block at the end of the epoch body.  [snapshot]
    is how the state dict is taken: [state_dict] in the notebook. *)
Definition early_stopping (snapshot : loc -> M world state_dict_t)
  (m : loc) (val_loss : F) (l : locals) : M world (locals * flow) :=
  if flt val_loss (best_val_loss l)
  then
    sd <- snapshot m ;;
    ret ({| train_losses := train_losses l; val_losses := val_losses l;
            train_accs := train_accs l; val_accs := val_accs l;
            best_val_loss := val_loss; counter := 0;
            best_model_state := Some sd |}, Next)
  else
    let c := counter l + 1 in
    ret ({| train_losses := train_losses l; val_losses := val_losses l;
            train_accs := train_accs l; val_accs := val_accs l;
            best_val_loss := best_val_loss l; counter := c;
            best_model_state := best_model_state l |},
         if patience <=? c then Break else Next).

Definition record_train (tl ta : F) (l : locals) : locals :=
  {| train_losses := train_losses l ++ [tl]; val_losses := val_losses l;
     train_accs := train_accs l ++ [ta]; val_accs := val_accs l;
     best_val_loss := best_val_loss l; counter := counter l;
     best_model_state := best_model_state l |}.

Definition record_val (vl va : F) (l : locals) : locals :=
  {| train_losses := train_losses l; val_losses := val_losses l ++ [vl];
     train_accs := train_accs l; val_accs := val_accs l ++ [va];
     best_val_loss := best_val_loss l; counter := counter l;
     best_model_state := best_model_state l |}.

(** The body of [for epoch in range(num_epochs)]. *)
Definition epoch_body (snapshot : loc -> M world state_dict_t)
  (m : loc) (train_loader val_loader : list batch) (l : locals)
  : M world (locals * flow) :=
  r <- train_phase m train_loader ;;
  let '(tl, ta) := r in
  let l := record_train tl ta l in
  r <- val_phase m val_loader ;;
  let '(vl, va) := r in
  let l := record_val vl va l in
  scheduler_step ;;;
  early_stopping snapshot m vl l.

(** What an observer of the loop writes down, without influence on it:
    the number of epoch bodies entered, whether [break] was executed,
    and the parameter values at the end of every epoch body. *)
Record observed : Type := {
  epochs_run : nat;
  broke : bool;
  params_after : list tensor;
}.

Definition observed0 : observed :=
  {| epochs_run := 0; broke := false; params_after := [] |}.

Definition observe (p : tensor) (f : flow) (o : observed) : observed :=
  {| epochs_run := S (epochs_run o);
     broke := match f with Break => true | Next => broke o end;
     params_after := params_after o ++ [p] |}.

(** [for epoch in range(n): ...] with [break]. *)
Fixpoint epochs (snapshot : loc -> M world state_dict_t)
  (m : loc) (train_loader val_loader : list batch)
  (n : nat) (l : locals) (o : observed) : M world (locals * observed) :=
  match n with
  | O => ret (l, o)
  | S n' =>
      r <- epoch_body snapshot m train_loader val_loader l ;;
      let '(l', f) := r in
      w <- get ;;
      let o' := observe (parameters w m) f o in
      match f with
      | Break => ret (l', o')
      | Next => epochs snapshot m train_loader val_loader n' l' o'
      end
  end.

(** The [history] dict. *)
Definition history_of (l : locals) : gmap string (list F) :=
  <["train_loss" := train_losses l]>
    (<["val_loss" := val_losses l]>
       (<["train_acc" := train_accs l]>
          (<["val_acc" := val_accs l]> ∅))).

(** The whole function, parametric in how the state dict is taken, and
    returning what was observed next to [(model, history)]. *)
Definition train_with (snapshot : loc -> M world state_dict_t)
  (m : loc) (train_loader val_loader : list batch)
  (num_epochs : nat) (learning_rate : F)
  : M world (loc * gmap string (list F) * observed) :=
  Adam learning_rate ;;;
  new_scheduler 10 2 ;;;
  r <- epochs snapshot m train_loader val_loader num_epochs
                    locals0 observed0 ;;
  let '(l, o) := r in
  match best_model_state l with
  | Some sd => load_state_dict m sd
  | None => ret tt
  end ;;;
  ret (m, history_of l, o).

(** [train_enhanced_model(model, train_loader, val_loader, num_epochs,
    learning_rate)], with the observer's notes. *)
Definition train_enhanced_model_observed :=
  train_with state_dict.

Definition train_enhanced_model (m : loc)
  (train_loader val_loader : list batch)
  (num_epochs : nat) (learning_rate : F)
  : M world (loc * gmap string (list F)) :=
  r <- train_enhanced_model_observed m train_loader val_loader
                   num_epochs learning_rate ;;
  let '(m', h, _) := r in
  ret (m', h).

(** The same function with [copy.deepcopy(model.state_dict())]: the
    checkpoint the comment "Restore best model" asks for. *)
Definition train_with_copied_checkpoint :=
  train_with (fun m => sd <- state_dict m ;; deepcopy sd).

(** The body of the loop of [evaluate_model]. *)
Record eval_acc : Type := {
  test_correct : Z;
  test_total : Z;
  all_preds : list Z;
  all_targets : list Z;
}.

Definition eval_acc0 : eval_acc :=
  {| test_correct := 0; test_total := 0; all_preds := []; all_targets := [] |}.

Definition update_eval (predicted : list Z) (c : nat) (b : batch)
  (a : eval_acc) : eval_acc :=
  {| test_correct := test_correct a + Z.of_nat c;
     test_total := test_total a + targets_size b;
     all_preds := all_preds a ++ predicted;
     all_targets := all_targets a ++ targets b |}.

Definition eval_batch (m : loc) (b : batch) (a : eval_acc)
  : M world eval_acc :=
  out <- call m b ;;
  predicted <- torch (predict out) ;;
  c <- torch (num_correct predicted b) ;;
  ret (update_eval predicted c b a).

(** [evaluate_model(model, test_loader)] returns
    [(test_accuracy, all_preds, all_targets)]. *)
Definition evaluate_model (m : loc) (test_loader : list batch)
  : M world (F * list Z * list Z) :=
  eval m ;;;
  a <- for_each test_loader (eval_batch m) eval_acc0 ;;
  acc <- lift (truediv (fmul (of_int 100) (of_int (test_correct a)))
                       (test_total a)) ;;
  ret (acc, all_preds a, all_targets a).
End Defs.
End Training.

(** ** [class EmotionFeatureExtractor] *)

Module Features.
Section Defs.
(** [E] is the type of tensor elements, [X] of the elements of whatever
    else is passed in (a NumPy array, a list). *)
Context {E X : Type}.

Inductive dtype : Type := float32 | float64 | int64.

Record Tensor : Type := {
  t_dtype : dtype;
  t_shape : list nat;
  t_data : list E;
}.

Record ndarray : Type := {
  a_shape : list nat;
  a_data : list X;
}.

(** The argument [waveform]: [isinstance(waveform, torch.Tensor)] is
    the constructor test. *)
Inductive waveform : Type :=
| IsTensor (t : Tensor)
| NotTensor (a : ndarray).

(** Element conversion of [torch.tensor(_, dtype=d)]. *)
Variable convert : dtype -> X -> E.
(** [torchaudio.transforms.MelSpectrogram(...)] and
    [torchaudio.transforms.AmplitudeToDB()]. *)
Variable mel_transform : Tensor -> Tensor.
Variable amplitude_to_db : Tensor -> Tensor.

Definition torch_tensor (a : ndarray) (d : dtype) : Tensor :=
  {| t_dtype := d; t_shape := a_shape a;
     t_data := map (convert d) (a_data a) |}.

Definition dim (t : Tensor) : nat := length (t_shape t).

(** [t.unsqueeze(0)] *)
Definition unsqueeze0 (t : Tensor) : Tensor :=
  {| t_dtype := t_dtype t; t_shape := 1%nat :: t_shape t;
     t_data := t_data t |}.

Definition ensure_tensor (w : waveform) : Tensor :=
  match w with
  | IsTensor t => t
  | NotTensor a => torch_tensor a float32
  end.

Definition add_batch_dimension (t : Tensor) : Tensor :=
  if Nat.eqb (dim t) 1 then unsqueeze0 t else t.

(** [__call__(self, waveform)] *)
Definition call (w : waveform) : Tensor :=
  let waveform := ensure_tensor w in
  let waveform := add_batch_dimension waveform in
  let mel_spec := mel_transform waveform in
  let mel_spec_db := amplitude_to_db mel_spec in
  mel_spec_db.
End Defs.
Arguments Tensor : clear implicits.
Arguments ndarray : clear implicits.
Arguments waveform : clear implicits.
End Features.

(** ** The "Basic Code Validation" workflow

    A [run] step is a script for [bash -e]: the commands run in order,
    the first command that exits non-zero ends the script with that
    status, and otherwise the status is that of the last command. *)

Module Workflow.

(** [[ -d path ]] and [[ -f path ]]. *)
Inductive test : Type :=
| IsDir (path : string)
| IsFile (path : string).

#[local] Set Warnings "-register-all".

Inductive command : Type :=
| Echo (line : string)
| If (c : test) (then_ else_ : list command)
| External (argv : list string).

Inductive step : Type :=
| Uses (action : string)
| Run (name : string) (script : list command).

(** What the runner's machine decides: the checked-out tree, the exit
    status of external programs, and whether an action succeeds. *)
Record env : Type := {
  is_dir : string -> bool;
  is_file : string -> bool;
  exit_status : list string -> Z;
  action_ok : string -> bool;
}.

Definition eval_test (e : env) (c : test) : bool :=
  match c with
  | IsDir p => is_dir e p
  | IsFile p => is_file e p
  end.

(** Exit status and standard output of a command and of a command list
    under [set -e]. *)
Fixpoint exec (e : env) (c : command) : Z * list string :=
  match c with
  | Echo line => (0, [line])
  | If t th el =>
      (fix exec_list (cs : list command) : Z * list string :=
         match cs with
         | [] => (0, [])
         | c' :: cs' =>
             let '(st, out) := exec e c' in
             if st =? 0
             then let '(st', out') := exec_list cs' in (st', out ++ out')
             else (st, out)
         end) (if eval_test e t then th else el)
  | External argv => (exit_status e argv, [])
  end.

Fixpoint exec_script (e : env) (cs : list command) : Z * list string :=
  match cs with
  | [] => (0, [])
  | c :: cs' =>
      let '(st, out) := exec e c in
      if st =? 0
      then let '(st', out') := exec_script e cs' in (st', out ++ out')
      else (st, out)
  end.

Definition step_ok (e : env) (s : step) : bool :=
  match s with
  | Uses a => action_ok e a
  | Run _ script => fst (exec_script e script) =? 0
  end.

(** A job succeeds when every step does; after a failed step the rest
    is skipped. *)
Fixpoint job_ok (e : env) (steps : list step) : bool :=
  match steps with
  | [] => true
  | s :: rest => if step_ok e s then job_ok e rest else false
  end.

Definition check_python_syntax : list command :=
  [External ["find"; "."; "-name"; "*.py"; "-type"; "f"; "-exec";
             "python"; "-m"; "py_compile"; "{}"; ";"]].

Definition verify_project_structure : list command :=
  [Echo "Verifying project structure...";
   If (IsDir "src")
      [Echo "✓ src directory found"]
      [Echo "⚠️ src directory not found"];
   If (IsFile "requirements.txt")
      [Echo "✓ requirements.txt found"]
      [Echo "⚠️ requirements.txt not found"]].

Definition success : list command :=
  [Echo "✅ Basic validation completed successfully"].

(** [jobs.validate.steps] *)
Definition validate : list step :=
  [Uses "actions/checkout@v3";
   Uses "actions/setup-python@v4";
   Run "Check Python syntax" check_python_syntax;
   Run "Verify project structure" verify_project_structure;
   Run "Success" success].

End Workflow.

(** ** Shapes of tensors through the framework's layers

    What a layer does to the shape of its input, [None] when the
    framework raises.  The numbers a layer computes are the framework's;
    the shapes are what the notebook's [forward] methods have to get
    right. *)

Module Shape.

Definition t : Type := list nat.

Definition numel (s : t) : nat := foldr Nat.mul 1%nat s.

(** Output length of a convolution along one axis:
    [(h + 2 * padding - kernel) // stride + 1]. *)
Definition conv_size (h k s p : nat) : option nat :=
  if (s =? 0)%nat || (k =? 0)%nat || (h + 2 * p <? k)%nat then None
  else Some ((h + 2 * p - k) / s + 1)%nat.

(** [nn.Conv2d(c_in, c_out, kernel_size, stride, padding)]: a layer
    without output channels has an empty weight, which the convolution
    refuses. *)
Definition Conv2d (c_in c_out k s p : nat) (x : t) : option t :=
  match x with
  | [n; c; h; w] =>
      if (c =? c_in)%nat && (1 <=? c_out)%nat
      then h' ← conv_size h k s p; w' ← conv_size w k s p;
           Some [n; c_out; h'; w']
      else None
  | [c; h; w] =>
      if (c =? c_in)%nat && (1 <=? c_out)%nat
      then h' ← conv_size h k s p; w' ← conv_size w k s p;
           Some [c_out; h'; w']
      else None
  | _ => None
  end.

(** [nn.BatchNorm2d(c)]: a 4-D input with [c] channels; in training mode
    more than one value per channel is required. *)
Definition BatchNorm2d (training : bool) (c : nat) (x : t) : option t :=
  match x with
  | [n; c'; h; w] =>
      if (c' =? c)%nat && negb (training && (n * h * w =? 1)%nat)
      then Some x else None
  | _ => None
  end.

(** [nn.BatchNorm1d(c)]: a 2-D or 3-D input with [c] channels. *)
Definition BatchNorm1d (training : bool) (c : nat) (x : t) : option t :=
  match x with
  | [n; c'] =>
      if (c' =? c)%nat && negb (training && (n =? 1)%nat)
      then Some x else None
  | [n; c'; l] =>
      if (c' =? c)%nat && negb (training && (n * l =? 1)%nat)
      then Some x else None
  | _ => None
  end.

(** Output length of a pooling window [k] with stride [k]. *)
Definition pool_size (h k : nat) : option nat :=
  if (k =? 0)%nat || (h <? k)%nat then None
  else Some ((h - k) / k + 1)%nat.

(** [nn.MaxPool2d(k)] *)
Definition MaxPool2d (k : nat) (x : t) : option t :=
  match x with
  | [n; c; h; w] =>
      h' ← pool_size h k; w' ← pool_size w k; Some [n; c; h'; w']
  | [c; h; w] =>
      h' ← pool_size h k; w' ← pool_size w k; Some [c; h'; w']
  | _ => None
  end.

(** [nn.Linear(f_in, f_out)]: acts on the last dimension. *)
Definition Linear (f_in f_out : nat) (x : t) : option t :=
  match last x with
  | Some f => if (f =? f_in)%nat
              then Some (take (length x - 1) x ++ [f_out]) else None
  | None => None
  end.

(** [nn.GRU(input_size, hidden_size, batch_first=True,
    bidirectional=...)], the output sequence. *)
Definition GRU (input_size hidden_size : nat) (bidirectional : bool) (x : t)
  : option t :=
  let directions := if bidirectional then 2%nat else 1%nat in
  match x with
  | [b; l; f] =>
      if (f =? input_size)%nat && (1 <=? l)%nat
      then Some [b; l; (directions * hidden_size)%nat] else None
  | [l; f] =>
      if (f =? input_size)%nat && (1 <=? l)%nat
      then Some [l; (directions * hidden_size)%nat] else None
  | _ => None
  end.

(** [x.transpose(1, 2)] *)
Definition transpose_1_2 (x : t) : option t :=
  match x with
  | a :: b :: c :: rest => Some (a :: c :: b :: rest)
  | _ => None
  end.

(** [torch.bmm(a, b)] *)
Definition bmm (a b : t) : option t :=
  match a, b with
  | [b1; n; m], [b2; m'; p] =>
      if (b1 =? b2)%nat && (m =? m')%nat then Some [b1; n; p] else None
  | _, _ => None
  end.

(** [x.permute(0, 3, 1, 2)] *)
Definition permute_0_3_1_2 (x : t) : option t :=
  match x with
  | [a; b; c; d] => Some [a; d; b; c]
  | _ => None
  end.

(** [x.reshape(a, b, -1)]: the last size is inferred, which needs
    [a * b] to be non-zero and to divide the number of elements. *)
Definition reshape_infer (a b : nat) (x : t) : option t :=
  if (a * b =? 0)%nat then None
  else if (numel x mod (a * b) =? 0)%nat
       then Some [a; b; (numel x / (a * b))%nat] else None.

(** [torch.mean(x, dim=1)] *)
Definition mean_dim_1 (x : t) : option t :=
  match x with
  | a :: _ :: rest => Some (a :: rest)
  | _ => None
  end.

(** The shape of [a + b] under broadcasting: sizes are compared from the
    last dimension backwards and must be equal, or one of them 1. *)
Fixpoint broadcast_rev (a b : t) : option t :=
  match a, b with
  | [], _ => Some b
  | _, [] => Some a
  | x :: a', y :: b' =>
      if (x =? y)%nat || (y =? 1)%nat
      then rest ← broadcast_rev a' b'; Some (x :: rest)
      else if (x =? 1)%nat
           then rest ← broadcast_rev a' b'; Some (y :: rest)
           else None
  end.

Definition add (a b : t) : option t :=
  r ← broadcast_rev (reverse a) (reverse b); Some (reverse r).

End Shape.

(** ** [class ConvBlock], [class SelfAttention],
       [class EnhancedEmotionModel]: the shapes of [forward] *)

Module Model.

(** The arguments of [ConvBlock.__init__]. *)
Record ConvBlock : Type := {
  in_channels : nat;
  out_channels : nat;
  kernel_size : nat;
  stride : nat;
  padding : nat;
}.

(** [ConvBlock(in_channels, out_channels)] with the default kernel size,
    stride and padding. *)
Definition conv_block (c_in c_out : nat) : ConvBlock :=
  {| in_channels := c_in; out_channels := c_out;
     kernel_size := 3; stride := 1; padding := 1 |}.

Definition use_residual (blk : ConvBlock) : bool :=
  (in_channels blk =? out_channels blk)%nat && (stride blk =? 1)%nat.

(** [ConvBlock.forward] *)
Definition conv_block_forward (training : bool) (blk : ConvBlock)
  (x : Shape.t) : option Shape.t :=
  let residual := x in
  x ← Shape.Conv2d (in_channels blk) (out_channels blk) (kernel_size blk)
        (stride blk) (padding blk) x;
  x ← Shape.BatchNorm2d training (out_channels blk) x;
  (* relu keeps the shape *)
  if use_residual blk then Shape.add x residual else Some x.

(** [SelfAttention.forward]: returns (output, attention_weights). *)
Definition attention_forward (hidden_dim : nat) (x : Shape.t)
  : option (Shape.t * Shape.t) :=
  match x with
  | [batch_size; seq_len; hidden] =>
      q ← Shape.Linear hidden_dim hidden_dim x;
      k ← Shape.Linear hidden_dim hidden_dim x;
      v ← Shape.Linear hidden_dim hidden_dim x;
      kt ← Shape.transpose_1_2 k;
      scores ← Shape.bmm q kt;
      (* dividing by the scale and the softmax keep the shape *)
      let attention_weights := scores in
      output ← Shape.bmm attention_weights v;
      Some (output, attention_weights)
  | _ => None
  end.

(** The layers of [self.conv_layers]. *)
Inductive layer : Type :=
| Block (blk : ConvBlock)
| Pool (k : nat).

Definition conv_layers : list layer :=
  [Block (conv_block 1 16); Pool 2;
   Block (conv_block 16 32); Pool 2;
   Block (conv_block 32 64); Pool 2;
   Block (conv_block 64 128); Pool 2].

Definition layer_forward (training : bool) (l : layer) (x : Shape.t)
  : option Shape.t :=
  match l with
  | Block blk => conv_block_forward training blk x
  | Pool k => Shape.MaxPool2d k x
  end.

(** [nn.Sequential] applied to [x]: the layers in order. *)
Fixpoint sequential (training : bool) (ls : list layer) (x : Shape.t)
  : option Shape.t :=
  match ls with
  | [] => Some x
  | l :: ls' => y ← layer_forward training l x; sequential training ls' y
  end.

Definition gru_hidden_size : nat := 128.

(** [EnhancedEmotionModel(num_emotions).forward]: returns
    (logits, attention_weights).  Dropout and relu keep the shape. *)
Definition forward (training : bool) (num_emotions : nat) (x : Shape.t)
  : option (Shape.t * Shape.t) :=
  batch_size ← x !! 0%nat;
  x ← sequential training conv_layers x;
  x ← Shape.permute_0_3_1_2 x;
  time ← x !! 1%nat;
  x ← Shape.reshape_infer batch_size time x;
  x ← Shape.GRU 128 gru_hidden_size true x;
  r ← attention_forward (gru_hidden_size * 2) x;
  let '(x, attention_weights) := r in
  x ← Shape.mean_dim_1 x;
  x ← Shape.Linear (gru_hidden_size * 2) 256 x;
  x ← Shape.BatchNorm1d training 256 x;
  x ← Shape.Linear 256 128 x;
  x ← Shape.BatchNorm1d training 128 x;
  x ← Shape.Linear 128 num_emotions x;
  Some (x, attention_weights).

End Model.

(** ** [class EmotionDataset] *)

Module Dataset.

Inductive error : Type :=
| IndexError
| LoadError.

Inductive outcome (A : Type) : Type :=
| Returns (a : A)
| Raises (e : error).
Arguments Returns {A} a.
Arguments Raises {A} e.

(** [l[idx]] on a Python list: a negative index counts from the end. *)
Definition getitem_list {A} (l : list A) (idx : Z) : outcome A :=
  let n := Z.of_nat (length l) in
  let i := if idx <? 0 then idx + n else idx in
  if (0 <=? i) && (i <? n)
  then match l !! Z.to_nat i with
       | Some a => Returns a
       | None => Raises IndexError
       end
  else Raises IndexError.

Section Defs.
Context {E X Path Label : Type}.

(** [librosa.load(path, sr=22050)]: the samples, [None] when the file
    cannot be read. *)
Variable librosa_load : Path -> option (Features.ndarray X).
(** [torch.tensor(a)] without a dtype: the element conversion and the
    dtype it infers. *)
Variable convert : Features.dtype -> X -> E.
Variable infer_dtype : Features.ndarray X -> Features.dtype.

Record t : Type := {
  audio_files : list Path;
  labels : list Label;
  transform : option (Features.waveform E X -> Features.Tensor E);
}.

(** [__len__] *)
Definition len (d : t) : Z := Z.of_nat (length (audio_files d)).

(** [__getitem__] *)
Definition getitem (d : t) (idx : Z)
  : outcome (Features.Tensor E * Label) :=
  match getitem_list (audio_files d) idx with
  | Raises e => Raises e
  | Returns file =>
      match librosa_load file with
      | None => Raises LoadError
      | Some waveform =>
          let features :=
            match transform d with
            | Some tr => tr (Features.NotTensor waveform)
            | None =>
                Features.unsqueeze0
                  (Features.torch_tensor convert waveform
                     (infer_dtype waveform))
            end in
          match getitem_list (labels d) idx with
          | Raises e => Raises e
          | Returns label => Returns (features, label)
          end
      end
  end.
End Defs.
Arguments t : clear implicits.
End Dataset.

(** ** The workflow's log *)

Module WorkflowLog.
Import Workflow.

(** Whether the job succeeds, and what its [run] steps have printed:
    after a failed step nothing more runs. *)
Fixpoint run_job (e : env) (steps : list step) : bool * list string :=
  match steps with
  | [] => (true, [])
  | Uses a :: rest => if action_ok e a then run_job e rest else (false, [])
  | Run _ script :: rest =>
      let '(st, out) := exec_script e script in
      if st =? 0
      then let '(ok, out') := run_job e rest in (ok, out ++ out')
      else (false, out)
  end.

Definition banner : string := "✅ Basic validation completed successfully".
End WorkflowLog.

(** ** A concrete float arithmetic and a small framework instance

    IEEE binary64 for the floats, an int being converted by rounding to
    nearest; the cosine is the Taylor polynomial of degree 20 around 0,
    exact at 0 and an approximation elsewhere: the examples below read no
    value that depends on it except [cos 0].  The framework instance is a
    one-weight "model": every optimizer step adds one to the weight, and
    the loss of a batch is the weight, so the validation loss grows from
    epoch to epoch. *)

Module Concrete.

Definition float_of_Z (z : Z) : float :=
  SF2Prim (binary_normalize prec emax z 0 false).

(** [sum_(k < n) (-1)^k x^(2k) / (2k)!], term by term. *)
Fixpoint cos_terms (n : nat) (k : Z) (term x2 acc : float) : float :=
  match n with
  | O => acc
  | S n' =>
      let term' :=
        PrimFloat.opp
          (PrimFloat.div (PrimFloat.mul term x2)
             (float_of_Z ((2 * k + 1) * (2 * k + 2)))) in
      cos_terms n' (k + 1) term' x2 (PrimFloat.add acc term)
  end.

Definition cos_series (x : float) : float :=
  cos_terms 11 0 PrimFloat.one (PrimFloat.mul x x) PrimFloat.zero.

#[global] Instance float_ops : PyFloat float := {|
  of_int := float_of_Z;
  fadd := PrimFloat.add;
  fsub := PrimFloat.sub;
  fmul := PrimFloat.mul;
  fdiv := PrimFloat.div;
  flt := PrimFloat.ltb;
  finf := PrimFloat.infinity;
  np_pi := 0x1.921fb54442d18p+1%float;
  np_cos := cos_series;
|}.

(** The loss of the example model: its weight as a float, summed up from
    ones by doubling. *)
Definition weight_loss (p : Z) : float :=
  match p with
  | Z0 => PrimFloat.zero
  | Zpos q => Pos.iter_op PrimFloat.add q PrimFloat.one
  | Zneg q => PrimFloat.opp (Pos.iter_op PrimFloat.add q PrimFloat.one)
  end.

#[global] Instance one_weight : Torch float := {|
  tensor := Z;
  tensor_inhabited := populate 0;
  batch := list Z;
  outputs := Z;
  adam_state := unit;
  targets := fun b => b;
  forward := fun _ p _ => Some p;
  update_buffers := fun p _ => p;
  criterion_item := fun out _ => Some (weight_loss out);
  predict := fun out => Some [out];
  num_correct := fun _ _ => Some 0%nat;
  adam_defaults := ∅;
  adam_new := tt;
  adam_step := fun _ st p _ _ => Some (st, p + 1);
|}.

(** An optimizer as [Adam(..., lr=1.0)] leaves it, and schedulers on it:
    one on the last epoch of its first period of ten, one that was
    constructed with [T_0=1, T_mult=0]. *)
Definition adam_one : Optim.t float unit :=
  {| Optim.param_groups := [<["lr" := PrimFloat.one]> ∅];
     Optim.state := tt |}.


Definition created (T0 Tmult : Z)
  : Scheduler.t float * Optim.t float unit :=
  match Scheduler.create T0 Tmult PrimFloat.zero (-1) adam_one with
  | Ok p => p
  | Raise _ => (Scheduler.init_fields T0 Tmult PrimFloat.zero (-1), adam_one)
  end.

(** A world with one module, at location 1, whose weight is 0. *)
Definition model : Nn.loc := 1%positive.

Definition world0 : Nn.world :=
  {| Nn.tensors := {[ model := 0 ]};
     Nn.training := ∅;
     Nn.optimizer := {| Optim.param_groups := []; Optim.state := tt |};
     Nn.scheduler := Scheduler.init_fields 1 1 PrimFloat.zero (-1) |}.

(** Loaders with one batch of two samples. *)
Definition loader : list (@batch float one_weight) := [[0; 1]].

(** The same model behind a batch-normalisation layer, which in training
    mode refuses a batch of one sample, as the [BatchNorm1d] layers of
    [EnhancedEmotionModel] do; a world for it, and a loader whose only
    batch has one sample. *)
Definition batch_normed : Torch float := {|
  tensor := Z;
  tensor_inhabited := populate 0;
  batch := list Z;
  outputs := Z;
  adam_state := unit;
  targets := fun b => b;
  forward := fun tr p b =>
    if tr && (length b =? 1)%nat then None else Some p;
  update_buffers := fun p _ => p;
  criterion_item := fun out _ => Some (weight_loss out);
  predict := fun out => Some [out];
  num_correct := fun _ _ => Some 0%nat;
  adam_defaults := ∅;
  adam_new := tt;
  adam_step := fun _ st p _ _ => Some (st, p + 1);
|}.

Definition batch_normed_world0 : @Nn.world float batch_normed :=
  @Nn.Build_world float batch_normed
    {[ model := 0 ]} ∅
    {| Optim.param_groups := []; Optim.state := tt |}
    (Scheduler.init_fields 1 1 PrimFloat.zero (-1)).

Definition lone_sample : list (@batch float batch_normed) := [[0]].


Definition one_tenth : float := 0x1.999999999999ap-4%float.

(** [train_enhanced_model(model, loader, loader, num_epochs=n,
    learning_rate=0.1)] in [world0], with the observer's notes. *)
Definition run (n : nat)
  : result (Nn.loc * gmap string (list float) * Training.observed * Nn.world) :=
  Training.train_enhanced_model_observed model loader loader n one_tenth
    world0.

(** The notebook with a copied checkpoint, same call. *)
Definition run_copied (n : nat)
  : result (Nn.loc * gmap string (list float) * Training.observed * Nn.world) :=
  Training.train_with_copied_checkpoint model loader loader n one_tenth
    world0.

Definition nothing
  : Nn.loc * gmap string (list float) * Training.observed * Nn.world :=
  (model, ∅, Training.observed0, world0).

Definition after2 := Eval vm_compute in value_or nothing (run 2).
Definition after11 := Eval vm_compute in value_or nothing (run 11).
Definition after50 := Eval vm_compute in value_or nothing (run 50).

(** One epoch body from the initial locals. *)
Definition first_epoch :=
  Eval vm_compute in
    value_or (Training.locals0, Training.Next, world0)
      (Training.epoch_body Nn.state_dict model loader loader
         Training.locals0 world0).

(** The values the examples read off a result. *)
Definition history_of_run
  (r : Nn.loc * gmap string (list float) * Training.observed * Nn.world)
  : gmap string (list float) := snd (fst (fst r)).
Definition observed_of_run
  (r : Nn.loc * gmap string (list float) * Training.observed * Nn.world)
  : Training.observed := snd (fst r).
Definition world_of_run
  (r : Nn.loc * gmap string (list float) * Training.observed * Nn.world)
  : Nn.world := snd r.

(** A feature extractor on integer samples whose two transforms leave
    the tensor as it is, and a waveform of shape (1, 4). *)
Definition stereo : Features.Tensor Z :=
  {| Features.t_dtype := Features.float32;
     Features.t_shape := [1%nat; 4%nat];
     Features.t_data := [1; 2; 3; 4] |}.

Definition extractor (w : Features.waveform Z Z) : Features.Tensor Z :=
  Features.call (fun _ x => x) (fun t => t) (fun t => t) w.
End Concrete.

(** ** Vocabulary of the statements *)

Section Vocabulary.
Context {F : Type} `{PyFloat F} `{Torch F}.
Import Scheduler.

(** The cosine argument [pi * T_cur / T_0] once the division is known to
    succeed. *)
Definition phase (s : Scheduler.t F) : F :=
  fdiv (fmul np_pi (of_int (T_cur s))) (of_int (T_0 s)).

(** The counters [step] is entitled to find: a period of at least one
    epoch, a multiplier of at least one, and a position inside the
    period ([-1] before the first step). *)
Definition counters_ok (s : Scheduler.t F) : Prop :=
  1 <= T_0 s /\ 1 <= T_mult s /\ -1 <= T_cur s < T_0 s.

(** The number of samples a loader yields. *)
Definition samples (l : list batch) : Z :=
  fold_right (fun b n => targets_size b + n) 0 l.

(** A loader that yields at least one batch containing at least one
    sample. *)
Definition has_sample (l : list batch) : Prop :=
  exists b, In b l /\ 1 <= targets_size b.

(** The statistics of a pass in evaluation mode over a loader, for
    parameter values [p]. *)
Definition val_step (p : tensor) (b : batch) (a : Training.stats)
  : option Training.stats :=
  out ← forward false p b;
  loss ← criterion_item out b;
  predicted ← predict out;
  c ← num_correct predicted b;
  Some (Training.update_stats loss c b a).

Fixpoint val_stats (p : tensor) (l : list batch) (a : Training.stats)
  : option Training.stats :=
  match l with
  | [] => Some a
  | b :: l' => a' ← val_step p b a; val_stats p l' a'
  end.

(** The predictions of the model with parameter values [p], in
    evaluation mode, for a batch. *)
Definition eval_predictions (p : tensor) (b : batch) : option (list Z) :=
  out ← forward false p b; predict out.

Definition test_step (p : tensor) (b : batch) (a : Training.eval_acc)
  : option Training.eval_acc :=
  ps ← eval_predictions p b;
  c ← num_correct ps b;
  Some (Training.update_eval ps c b a).

Fixpoint test_stats (p : tensor) (l : list batch) (a : Training.eval_acc)
  : option Training.eval_acc :=
  match l with
  | [] => Some a
  | b :: l' => a' ← test_step p b a; test_stats p l' a'
  end.

(** A framework on which no call ever raises. *)
Definition never_raises : Prop :=
  (forall tr p b, is_Some (forward tr p b))
  /\ (forall out b, is_Some (criterion_item out b))
  /\ (forall out, is_Some (predict out))
  /\ (forall ps b, is_Some (num_correct ps b))
  /\ (forall gs st p out b, is_Some (adam_step gs st p out b)).

(** The best validation loss seen over the epochs [vs]. *)
Definition running_best (vs : list F) : F :=
  fold_left (fun best v => if flt v best then v else best) vs finf.

(** Epoch [i] (from 0) improved strictly on the best loss of the epochs
    before it. *)
Definition improved_at (vs : list F) (i : nat) : bool :=
  match vs !! i with
  | Some v => flt v (running_best (take i vs))
  | None => false
  end.

(** The number of consecutive epochs without improvement that end with
    epoch [i - 1]. *)
Fixpoint streak (vs : list F) (i : nat) : nat :=
  match i with
  | O => O
  | S j => if improved_at vs j then O else S (streak vs j)
  end.

(** The [k] epochs that end with epoch [i - 1] all failed to improve. *)
Definition failed_for (vs : list F) (k i : nat) : Prop :=
  (k <= i)%nat /\
  forall j, (i - k <= j)%nat -> (j < i)%nat -> improved_at vs j = false.

(** What the epoch loop of [train_enhanced_model] maintains about its
    local variables, for the model at [m]. *)
Definition loop_inv (m : Nn.loc) (l : Training.locals) : Prop :=
  let vs := Training.val_losses l in
  length (Training.train_losses l) = length vs
  /\ length (Training.train_accs l) = length vs
  /\ length (Training.val_accs l) = length vs
  /\ Training.counter l = Z.of_nat (streak vs (length vs))
  /\ Training.best_val_loss l = running_best vs
  /\ (forall i, (i < length vs)%nat -> (streak vs i < 10)%nat)
  /\ (Training.best_model_state l = None
      \/ Training.best_model_state l = Some {| Nn.sd_storage := m |}).
End Vocabulary.

(** ** Further vocabulary *)

(** The number of steps in the first [k] periods of a schedule whose
    first period has [P] steps and whose periods grow by the factor [M]:
    [P + P*M + ... + P*M^(k-1)]. *)
Fixpoint periods_total (P M : Z) (k : nat) : Z :=
  match k with
  | O => 0
  | S k' => periods_total P M k' + P * M ^ Z.of_nat k'
  end.

(** Data for the examples: a scheduler in the middle of its first period,
    one whose position is already past its period, a dataset of three
    files with only two labels, and a job environment. *)
Module Examples.

Definition mid_period : Scheduler.t float :=
  {| Scheduler.T_0 := 10; Scheduler.T_mult := 2;
     Scheduler.eta_min := PrimFloat.zero; Scheduler.T_cur := 3;
     Scheduler.last_epoch := 3; Scheduler.base_lrs := [PrimFloat.one] |}.

Definition fresh_period : Scheduler.t float :=
  {| Scheduler.T_0 := 10; Scheduler.T_mult := 2;
     Scheduler.eta_min := PrimFloat.zero; Scheduler.T_cur := 0;
     Scheduler.last_epoch := 0; Scheduler.base_lrs := [PrimFloat.one] |}.

Definition past_period : Scheduler.t float :=
  {| Scheduler.T_0 := 10; Scheduler.T_mult := 2;
     Scheduler.eta_min := PrimFloat.zero; Scheduler.T_cur := 15;
     Scheduler.last_epoch := 15; Scheduler.base_lrs := [PrimFloat.one] |}.

(** Thirty-five calls of [step], every fifth with an explicit epoch. *)
Definition thirty_five_calls : list (option Z) :=
  concat (replicate 7 [None; None; None; None; Some 3]).

(** Every file loads as four samples. *)
Definition four_samples : Features.ndarray Z :=
  {| Features.a_shape := [4%nat]; Features.a_data := [1; 2; 3; 4] |}.

Definition load_any (path : string) : option (Features.ndarray Z) :=
  Some four_samples.

Definition dataset (labels : list nat) : Dataset.t Z Z string nat :=
  {| Dataset.audio_files := ["a.wav"; "b.wav"; "c.wav"];
     Dataset.labels := labels;
     Dataset.transform := None |}.

Definition getitem (labels : list nat) (idx : Z)
  : Dataset.outcome (Features.Tensor Z * nat) :=
  Dataset.getitem load_any (fun _ x => x) (fun _ => Features.float32)
    (dataset labels) idx.

(** A runner on which the actions succeed, [find] exits 0, and the tree
    has [src] but no [requirements.txt]. *)
Definition runner : Workflow.env :=
  {| Workflow.is_dir := fun p => String.eqb p "src";
     Workflow.is_file := fun _ => false;
     Workflow.exit_status := fun _ => 0;
     Workflow.action_ok := fun _ => true |}.

(** A runner on which the checkout action fails (no network, say) while
    every external program, [python -m py_compile] on any file included,
    exits 0. *)
Definition checkout_fails : Workflow.env :=
  {| Workflow.is_dir := fun p => String.eqb p "src";
     Workflow.is_file := fun _ => false;
     Workflow.exit_status := fun _ => 0;
     Workflow.action_ok :=
       fun a => negb (String.eqb a "actions/checkout@v3") |}.

(** A runner on which [find] itself exits 1 (it could not read a
    directory, say) while every other program, [python -m py_compile] on
    any file included, exits 0. *)
Definition find_fails : Workflow.env :=
  {| Workflow.is_dir := fun p => String.eqb p "src";
     Workflow.is_file := fun _ => false;
     Workflow.exit_status :=
       fun argv => match argv with
                   | cmd :: _ => if String.eqb cmd "find" then 1 else 0
                   | [] => 0
                   end;
     Workflow.action_ok := fun _ => true |}.

End Examples.

(** * Properties *)

(** ** The monad *)

Section MonadFacts.
Context {W A B : Type}.

Lemma bind_ok (c : M W A) (k : A -> M W B) w a w' :
  c w = Ok (a, w') -> Py.bind c k w = k a w'.
Proof. intros E. unfold Py.bind. now rewrite E. Qed.

Lemma bind_raise (c : M W A) (k : A -> M W B) w e :
  c w = Raise e -> Py.bind c k w = Raise e.
Proof. intros E. unfold Py.bind. now rewrite E. Qed.

Lemma bind_inv (c : M W A) (k : A -> M W B) w r :
  Py.bind c k w = Ok r -> exists a w', c w = Ok (a, w') /\ k a w' = Ok r.
Proof.
  unfold Py.bind. destruct (c w) as [[a w']|e]; [|discriminate].
  intros E. now exists a, w'.
Qed.
End MonadFacts.

Lemma comprehension_total {A B} (f : A -> B) (xs : list A) :
  comprehension (fun x => Ok (f x)) xs = Ok (map f xs).
Proof.
  induction xs as [|x xs IH]; simpl; [reflexivity|]. now rewrite IH.
Qed.

Lemma comprehension_length {A B} (f : A -> result B) xs ys :
  comprehension f xs = Ok ys -> length ys = length xs.
Proof.
  revert ys. induction xs as [|x xs IH]; simpl; intros ys E.
  - now inversion E.
  - destruct (f x); [|discriminate].
    destruct (comprehension f xs) as [zs|]; [|discriminate].
    inversion E; subst. simpl. f_equal. now apply IH.
Qed.

(** ** The scheduler *)

Section SchedulerFacts.
Context {F : Type} `{PyFloat F} {OS : Type}.
Import Scheduler.

Lemma float_limit_pos : 1 < float_limit.
Proof. vm_compute. reflexivity. Qed.

Lemma fits_float_spec n : fits_float n = true <-> Z.abs n < float_limit.
Proof. unfold fits_float. apply Z.ltb_lt. Qed.

Lemma fits_float_zero : fits_float 0 = true.
Proof. apply fits_float_spec. pose proof float_limit_pos. simpl. lia. Qed.

(** Inside a period the position converts to a float when the period
    does. *)
Lemma fits_float_inside c n :
  -1 <= c < n -> fits_float n = true -> fits_float c = true.
Proof.
  rewrite !fits_float_spec. pose proof float_limit_pos. lia.
Qed.

Lemma fits_float_below n n' :
  1 <= n <= n' -> fits_float n' = true -> fits_float n = true.
Proof. rewrite !fits_float_spec. lia. Qed.

Lemma get_lr_ok (s : Scheduler.t F) :
  T_0 s <> 0 ->
  fits_float (T_cur s) = true -> fits_float (T_0 s) = true ->
  get_lr s = Ok (map (fun b => annealed s b (phase s)) (base_lrs s)).
Proof.
  intros Hz Hc H0. unfold get_lr, mul_int, truediv_int, truediv.
  rewrite Hc, H0.
  destruct (Z.eqb_spec (T_0 s) 0) as [E|_]; [contradiction|].
  apply comprehension_total.
Qed.

Lemma get_lr_zero (s : Scheduler.t F) :
  T_0 s = 0 -> fits_float (T_cur s) = true -> base_lrs s <> [] ->
  get_lr s = Raise ZeroDivisionError.
Proof.
  intros Hz Hc Hne. unfold get_lr, mul_int, truediv_int, truediv.
  rewrite Hc, Hz, fits_float_zero.
  destruct (base_lrs s); [contradiction|reflexivity].
Qed.


(** The only exceptions of [get_lr], and the division by zero needs a
    period of zero. *)
Lemma get_lr_raises (s : Scheduler.t F) e :
  get_lr s = Raise e ->
  e = OverflowError \/ (e = ZeroDivisionError /\ T_0 s = 0).
Proof.
  unfold get_lr, mul_int, truediv_int, truediv.
  destruct (fits_float (T_cur s)).
  - destruct (fits_float (T_0 s)).
    + destruct (Z.eqb_spec (T_0 s) 0) as [E|_].
      * destruct (base_lrs s); simpl; [discriminate|].
        intros R. inversion R. now right.
      * rewrite comprehension_total. discriminate.
    + destruct (base_lrs s); simpl; [discriminate|].
      intros R. inversion R. now left.
  - destruct (base_lrs s); simpl; [discriminate|].
    intros R. inversion R. now left.
Qed.



Lemma advance_base_lrs e (s : Scheduler.t F) :
  base_lrs (advance e s) = base_lrs s.
Proof. unfold advance. now destruct (T_cur s + 1 =? T_0 s). Qed.

Lemma advance_T_mult e (s : Scheduler.t F) :
  T_mult (advance e s) = T_mult s.
Proof. unfold advance. now destruct (T_cur s + 1 =? T_0 s). Qed.


Lemma advance_counters e (s : Scheduler.t F) :
  counters_ok s ->
  counters_ok (advance e s)
  /\ 0 <= T_cur (advance e s) < T_0 (advance e s)
  /\ T_0 s <= T_0 (advance e s).
Proof.
  intros (H0 & Hm & Hc). unfold counters_ok, advance.
  destruct (Z.eqb_spec (T_cur s + 1) (T_0 s)) as [E|E]; simpl.
  - assert (T_0 s <= T_0 s * T_mult s) by nia. lia.
  - lia.
Qed.

Lemma advances_S n (s : Scheduler.t F) :
  advances (S n) s = advance None (advances n s).
Proof.
  revert s. induction n as [|n IH]; intros s; [reflexivity|].
  change (advances (S (S n)) s) with (advances (S n) (advance None s)).
  now rewrite IH.
Qed.

Lemma advances_counters n (s : Scheduler.t F) :
  counters_ok s -> counters_ok (advances n s).
Proof.
  revert s. induction n as [|n IH]; intros s Hs; [assumption|].
  simpl. apply IH. now apply advance_counters.
Qed.

Lemma step_counters_ok e (s : Scheduler.t F) (o : Optim.t F OS) :
  counters_ok s ->
  fits_float (T_0 (advance e s)) = true ->
  step e (s, o) =
    Ok (tt, (advance e s,
             Optim.set_param_groups o
               (Optim.assign_lrs (Optim.param_groups o)
                  (map (fun b => annealed (advance e s) b
                                   (phase (advance e s)))
                       (base_lrs s))))).
Proof.
  intros Hs Hf. unfold step.
  destruct (advance_counters e s Hs) as ((H0 & _) & Hc & _).
  rewrite get_lr_ok; [now rewrite advance_base_lrs|lia| |assumption].
  apply (fits_float_inside _ (T_0 (advance e s))); [lia|assumption].
Qed.

(** With sound counters a step never divides by zero. *)
Lemma step_counters_raises e (s : Scheduler.t F) (o : Optim.t F OS) x :
  counters_ok s -> step e (s, o) = Raise x -> x = OverflowError.
Proof.
  intros Hs. unfold step.
  destruct (advance_counters e s Hs) as ((H0 & _) & _).
  destruct (get_lr (advance e s)) as [ls|x'] eqn:E; [discriminate|].
  intros R. inversion R; subst x'.
  destruct (get_lr_raises _ _ E) as [->|[_ Hz]]; [reflexivity|lia].
Qed.

Lemma step_inv e (s s' : Scheduler.t F) (o o' : Optim.t F OS) :
  step e (s, o) = Ok (tt, (s', o')) -> s' = advance e s.
Proof.
  unfold step. destruct (get_lr (advance e s)); [|discriminate].
  intros E. now inversion E.
Qed.

Lemma advance_each_snoc es e (s : Scheduler.t F) :
  advance_each (es ++ [e]) s = advance e (advance_each es s).
Proof.
  revert s. induction es as [|e0 es IH]; intros s; [reflexivity|].
  simpl. apply IH.
Qed.

Lemma advance_each_counters es (s : Scheduler.t F) :
  counters_ok s ->
  counters_ok (advance_each es s) /\ T_0 s <= T_0 (advance_each es s).
Proof.
  revert s. induction es as [|e es IH]; intros s Hs;
    [split; [assumption|simpl; lia]|].
  simpl. destruct (advance_counters e s Hs) as (Hs' & _ & Hle).
  destruct (IH _ Hs') as [Hc Hle']. split; [assumption|lia].
Qed.

Lemma step_each_inv es (s s' : Scheduler.t F) (o o' : Optim.t F OS) :
  step_each es (s, o) = Ok (tt, (s', o')) -> s' = advance_each es s.
Proof.
  revert s o. induction es as [|e es IH]; intros s o E.
  - now inversion E.
  - simpl in E. apply bind_inv in E as ([] & [s1 o1] & E1 & E).
    apply step_inv in E1. subst s1. now apply IH in E.
Qed.

(** A sequence of steps returns when the period it ends with still
    converts to a float. *)
Lemma step_each_ok es (s : Scheduler.t F) (o : Optim.t F OS) :
  counters_ok s ->
  fits_float (T_0 (advance_each es s)) = true ->
  exists o', step_each es (s, o) = Ok (tt, (advance_each es s, o')).
Proof.
  revert s o. induction es as [|e es IH]; intros s o Hs Hf.
  - now exists o.
  - simpl in *. destruct (advance_counters e s Hs) as (Hs' & _ & _).
    destruct (advance_each_counters es _ Hs') as [_ Hle].
    erewrite bind_ok.
    + now apply IH.
    + apply step_counters_ok; [assumption|].
      apply (fits_float_below _ (T_0 (advance_each es (advance e s))));
        [|assumption].
      destruct Hs' as (H1 & _). lia.
Qed.

(** The constructor: when it returns, it has taken exactly one step from
    the fields [__init__] assigned, and the base learning rates match the
    parameter groups one to one. *)
Lemma create_inv T0 Tmult etamin last (o o0 : Optim.t F OS) s0 :
  create T0 Tmult etamin last o = Ok (s0, o0) ->
  T_0 s0 = T_0 (advance None (init_fields T0 Tmult etamin last))
  /\ T_cur s0 = T_cur (advance None (init_fields T0 Tmult etamin last))
  /\ T_mult s0 = Tmult
  /\ length (base_lrs s0) = length (Optim.param_groups o0).
Proof.
  unfold create, base_init. simpl.
  destruct (comprehension _ (Optim.param_groups o)) as [gs|] eqn:Eg;
    [|discriminate].
  destruct (comprehension initial_lr_of gs) as [bs|] eqn:Eb; [|discriminate].
  unfold step.
  match goal with |- context [get_lr ?x] => destruct (get_lr x) as [ls|] eqn:El end;
    [|discriminate].
  intros E. inversion E; subst; clear E.
  repeat split.
  - unfold advance; simpl. now destruct (last + 1 =? T0).
  - unfold advance; simpl. now destruct (last + 1 =? T0).
  - now rewrite advance_T_mult.
  - rewrite advance_base_lrs. simpl.
    apply comprehension_length in Eb. rewrite Eb.
    clear. revert ls. induction gs as [|g gs IH]; intros [|l ls]; simpl;
      try reflexivity. f_equal. apply IH.
Qed.

Lemma comprehension_ok {A B} (f : A -> result B)
  (P : A -> Prop) (Q : B -> Prop) (xs : list A) :
  (forall x, P x -> exists y, f x = Ok y /\ Q y) ->
  Forall P xs ->
  exists ys, comprehension f xs = Ok ys /\ Forall Q ys.
Proof.
  intros Hf. induction 1 as [|x xs Hx Hxs (ys & E & Hys)].
  - exists []. now split.
  - destruct (Hf x Hx) as (y & Ey & Hy).
    exists (y :: ys). simpl. rewrite Ey, E. split; [reflexivity|].
    now constructor.
Qed.

(** On an optimizer whose groups all have an ['lr'], the constructor
    returns, with sound counters. *)
Lemma create_ok T0 Tmult etamin (o : Optim.t F OS) :
  1 <= T0 -> 1 <= Tmult -> fits_float T0 = true ->
  Forall (fun g : gmap string F => is_Some (g !! "lr")) (Optim.param_groups o) ->
  exists s0 o0,
    create T0 Tmult etamin (-1) o = Ok (s0, o0) /\ counters_ok s0.
Proof.
  intros H0 Hm Hfit Hlr. unfold create, base_init.
  change (last_epoch (init_fields T0 Tmult etamin (-1)) =? -1) with true.
  cbv iota.
  destruct (comprehension_ok setdefault_initial_lr
              (fun g : gmap string F => is_Some (g !! "lr"))
              (fun g : gmap string F => is_Some (g !! "initial_lr"))
              (Optim.param_groups o)) as (gs & Eg & Hgs); [|assumption|].
  { intros g [lr Hg]. unfold setdefault_initial_lr.
    destruct (g !! "initial_lr") as [x|] eqn:Ei.
    - exists g. split; [reflexivity|]. rewrite Ei. eauto.
    - rewrite Hg. eexists. split; [reflexivity|].
      rewrite lookup_insert_eq. eauto. }
  rewrite Eg.
  destruct (comprehension_ok initial_lr_of
              (fun g : gmap string F => is_Some (g !! "initial_lr"))
              (fun _ : F => True) gs) as (bs & Eb & _); [|assumption|].
  { intros g [x Hg]. unfold initial_lr_of. rewrite Hg. eauto. }
  rewrite Eb.
  match goal with |- context [step None (?s, ?o1)] =>
    assert (Hc : counters_ok s) by (unfold counters_ok; simpl; lia);
    assert (Hf : fits_float (T_0 (advance None s)) = true)
      by (unfold advance; cbn [T_cur T_0 init_fields];
          match goal with |- context [?a =? ?b] =>
            destruct (Z.eqb_spec a b) end; [lia|exact Hfit]);
    rewrite (step_counters_ok None s o1 Hc Hf);
    destruct (advance_counters None s Hc) as (Hc' & _)
  end.
  eexists _, _. split; [reflexivity|exact Hc'].
Qed.
End SchedulerFacts.

Section SchedulerClaims.
Context {F : Type} `{PyFloat F} {OS : Type}.
Import Scheduler.


(** C4: a scheduler constructed with [T_0 >= 1], [T_mult >= 1] and
    [last_epoch = -1] keeps [0 <= T_cur < T_0] after every call of
    [step], whatever epoch argument each call is given: after the call
    the constructor makes ([es] empty) and after every call of any
    sequence [es] of calls that follows it; and [T_0] never decreases
    from one call to the next.  The counters are updated before the
    learning rates are computed, so a sequence of calls that returns
    leaves exactly these counters, and it does return as long as the
    period it has reached converts to a float: a call raises only
    [OverflowError], and only for a period too long for a float. *)
Theorem T_cur_stays_inside_period
  (T0 Tmult : Z) (etamin : F) (o o0 : Optim.t F OS) (s0 : Scheduler.t F) :
  1 <= T0 -> 1 <= Tmult ->
  create T0 Tmult etamin (-1) o = Ok (s0, o0) ->
  forall es : list (option Z),
    let s := advance_each es s0 in
    0 <= T_cur s < T_0 s
    /\ T0 <= T_0 s0
    /\ (forall e, T_0 s <= T_0 (advance e s))
    /\ (forall s' o', step_each es (s0, o0) = Ok (tt, (s', o')) -> s' = s)
    /\ (fits_float (T_0 s) = true ->
        exists o', step_each es (s0, o0) = Ok (tt, (s, o')))
    /\ (forall e (o1 : Optim.t F OS) x,
          step e (s, o1) = Raise x ->
          x = OverflowError /\ fits_float (T_0 (advance e s)) = false).
Proof.
  intros H0 Hm Hc es s.
  destruct (create_inv _ _ _ _ _ _ _ Hc) as (E0 & Ec & Em & _).
  assert (Hi : counters_ok (init_fields T0 Tmult etamin (-1)))
    by (unfold counters_ok; simpl; lia).
  destruct (advance_counters None _ Hi) as ((A0 & Am & Ac) & Apos & Amono).
  rewrite advance_T_mult in Am. simpl in Am, Amono.
  assert (Hs0 : counters_ok s0) by (unfold counters_ok; lia).
  assert (Hin : 0 <= T_cur s < T_0 s).
  { subst s. induction es as [|e es' _] using rev_ind; [simpl; lia|].
    rewrite advance_each_snoc.
    destruct (advance_each_counters es' s0 Hs0) as [Hs' _].
    now apply advance_counters. }
  destruct (advance_each_counters es s0 Hs0) as [Hs Hle]. fold s in Hs, Hle.
  split; [exact Hin|]. split; [|split; [|split; [|split]]].
  - lia.
  - intros e. now apply advance_counters.
  - intros s' o'. apply step_each_inv.
  - intros Hf. now apply step_each_ok.
  - intros e o1 x R.
    split; [exact (step_counters_raises e s o1 x Hs R)|].
    destruct (fits_float (T_0 (advance e s))) eqn:Ef; [|reflexivity].
    rewrite (step_counters_ok e s o1 Hs Ef) in R. discriminate.
Qed.
End SchedulerClaims.



(** C4 for [T_0 = 10], [T_mult = 2]: thirty-five calls later, some of
    them with an explicit epoch, the position is 5 in a period of 40. *)
Lemma T_cur_stays_inside_period_witness :
  1 <= 10 /\ 1 <= 2
  /\ Scheduler.create 10 2 PrimFloat.zero (-1) Concrete.adam_one
     = Ok (Concrete.created 10 2)
  /\ 0 <= Scheduler.T_cur
            (Scheduler.advance_each Examples.thirty_five_calls
               (fst (Concrete.created 10 2)))
       < Scheduler.T_0
           (Scheduler.advance_each Examples.thirty_five_calls
              (fst (Concrete.created 10 2)))
  /\ Scheduler.T_0
       (Scheduler.advance_each Examples.thirty_five_calls
          (fst (Concrete.created 10 2))) = 40
  /\ exists o',
      Scheduler.step_each Examples.thirty_five_calls (Concrete.created 10 2)
      = Ok (tt, (Scheduler.advance_each Examples.thirty_five_calls
                   (fst (Concrete.created 10 2)), o')).
Proof.
  assert (H0 : 1 <= 10) by lia.
  assert (Hm : 1 <= 2) by lia.
  assert (Hc : Scheduler.create 10 2 PrimFloat.zero (-1) Concrete.adam_one
               = Ok (fst (Concrete.created 10 2), snd (Concrete.created 10 2)))
    by (vm_compute; reflexivity).
  assert (Hf : fits_float
                 (Scheduler.T_0
                    (Scheduler.advance_each Examples.thirty_five_calls
                       (fst (Concrete.created 10 2)))) = true)
    by (vm_compute; reflexivity).
  split; [exact H0|]. split; [exact Hm|].
  split; [vm_compute; reflexivity|].
  destruct (T_cur_stays_inside_period 10 2 PrimFloat.zero
              Concrete.adam_one _ _ H0 Hm Hc Examples.thirty_five_calls)
    as (Hin & _ & _ & _ & Hret & _).
  split; [exact Hin|]. split; [vm_compute; reflexivity|].
  destruct (Hret Hf) as [o' E]. exists o'. exact E.
Defined.

(** ** Streaks of epochs without improvement *)

Section StreakFacts.
Context {F : Type} `{PyFloat F}.

Lemma running_best_snoc (vs : list F) v :
  running_best (vs ++ [v])
  = if flt v (running_best vs) then v else running_best vs.
Proof. unfold running_best. now rewrite fold_left_app. Qed.

Lemma improved_at_prefix (vs ws : list F) i :
  (i < length vs)%nat -> improved_at (vs ++ ws) i = improved_at vs i.
Proof.
  intros Hi. unfold improved_at.
  rewrite lookup_app_l by assumption.
  rewrite take_app_le by lia. reflexivity.
Qed.

Lemma improved_at_last (vs : list F) v :
  improved_at (vs ++ [v]) (length vs) = flt v (running_best vs).
Proof.
  unfold improved_at.
  rewrite lookup_app_r by lia. rewrite Nat.sub_diag. simpl.
  rewrite take_app_le by lia. now rewrite firstn_all.
Qed.

Lemma streak_prefix (vs ws : list F) i :
  (i <= length vs)%nat -> streak (vs ++ ws) i = streak vs i.
Proof.
  induction i as [|i IH]; intros Hi; [reflexivity|].
  simpl. rewrite improved_at_prefix by lia. rewrite IH by lia. reflexivity.
Qed.

Lemma streak_snoc (vs : list F) v :
  streak (vs ++ [v]) (S (length vs))
  = if flt v (running_best vs) then O else S (streak vs (length vs)).
Proof.
  simpl. rewrite improved_at_last. now rewrite streak_prefix by lia.
Qed.

Lemma streak_le (vs : list F) i : (streak vs i <= i)%nat.
Proof.
  induction i as [|i IH]; simpl; [lia|].
  destruct (improved_at vs i); lia.
Qed.

(** A streak of at least [k] is [k] consecutive failures to improve. *)
Lemma streak_failed_for (vs : list F) k i :
  (k <= streak vs i)%nat <-> failed_for vs k i.
Proof.
  revert k. induction i as [|i IH]; intros k; simpl.
  - split.
    + intros Hk. split; [lia|]. intros j _ Hj. lia.
    + intros [Hk _]. lia.
  - destruct (improved_at vs i) eqn:E.
    + split.
      * intros Hk. assert (k = O) by lia. subst k.
        split; [lia|]. intros j Hj1 Hj2. lia.
      * intros [Hk Hall]. destruct k as [|k]; [lia|].
        rewrite (Hall i) in E by lia. discriminate.
    + destruct k as [|k].
      * split; [|lia]. intros _. split; [lia|]. intros j Hj1 Hj2. lia.
      * split.
        -- intros Hk. apply le_S_n in Hk. apply IH in Hk as [Hk Hall].
           split; [lia|]. intros j Hj1 Hj2.
           destruct (Nat.eq_dec j i) as [->|Hne]; [assumption|].
           apply Hall; lia.
        -- intros [Hk Hall]. apply le_n_S. apply IH. split; [lia|].
           intros j Hj1 Hj2. apply Hall; lia.
Qed.
End StreakFacts.

(** ** Passes over a loader *)

Section PassFacts.
Context {F : Type} `{PyFloat F} `{Torch F}.
Import Nn Training.

Lemma targets_size_nonneg (b : batch) : 0 <= targets_size b.
Proof. unfold targets_size. lia. Qed.

Lemma samples_nonneg (l : list batch) : 0 <= samples l.
Proof.
  induction l as [|b l IH]; simpl; [lia|]. unfold targets_size. lia.
Qed.

Lemma has_sample_samples (l : list batch) : has_sample l -> 1 <= samples l.
Proof.
  intros (b & Hin & Hb). induction l as [|b' l IH]; [contradiction|].
  simpl. destruct Hin as [->|Hin].
  - pose proof (samples_nonneg l). lia.
  - specialize (IH Hin). unfold targets_size. lia.
Qed.

Lemma has_sample_len (l : list batch) : has_sample l -> 1 <= len l.
Proof.
  intros (b & Hin & _). destruct l; [contradiction|].
  unfold len. simpl. lia.
Qed.

Lemma samples_zero (l : list batch) : ~ has_sample l -> samples l = 0.
Proof.
  induction l as [|b l IH]; intros Hn; [reflexivity|]. simpl.
  pose proof (targets_size_nonneg b).
  destruct (Z.eq_dec (targets_size b) 0) as [E|E].
  - rewrite E, IH; [reflexivity|].
    intros (b' & Hin & Hb'). apply Hn. exists b'. split; [now right|assumption].
  - exfalso. apply Hn. exists b. split; [now left|lia].
Qed.

Lemma samples_has_sample (l : list batch) : samples l <> 0 -> has_sample l.
Proof.
  induction l as [|b l IH]; intros Hs; [contradiction|]. simpl in Hs.
  pose proof (targets_size_nonneg b).
  destruct (Z.eq_dec (targets_size b) 0) as [E|E].
  - destruct IH as (b' & Hin & Hb'); [lia|].
    exists b'. split; [now right|assumption].
  - exists b. split; [now left|lia].
Qed.

Lemma no_samples (l : list batch) : samples l = 0 -> ~ has_sample l.
Proof. intros E Hl. apply has_sample_samples in Hl. lia. Qed.

Lemma eval_mode_after_eval (w : world) m :
  is_training (set_training <[m := false]> w) m = false.
Proof. unfold is_training. simpl. now rewrite lookup_insert_eq. Qed.

(** A training batch that goes through has counted its samples, and has
    left the scheduler, the parameter groups and the mode alone. *)
Lemma train_batch_inv m (b : batch) (a a' : stats) (w w' : world) :
  train_batch m b a w = Ok (a', w') ->
  total a' = total a + targets_size b
  /\ scheduler w' = scheduler w
  /\ Optim.param_groups (optimizer w') = Optim.param_groups (optimizer w)
  /\ training w' = training w.
Proof.
  unfold train_batch, Py.bind, call, backward_and_step, torch, ret.
  destruct (forward _ _ b) as [out|]; [|discriminate].
  destruct (is_training w m);
    (destruct (criterion_item out b) as [loss|]; [|discriminate]);
    (match goal with |- context [adam_step ?g ?s ?p ?o ?b] =>
       destruct (adam_step g s p o b) as [[st p']|] end; [|discriminate]);
    (destruct (predict out) as [ps|]; [|discriminate]);
    (destruct (num_correct ps b) as [c|]; [|discriminate]);
    intros E; inversion E; subst; simpl; now repeat split.
Qed.

(** What a training batch raises comes from the framework. *)
Lemma train_batch_raises m (b : batch) (a : stats) (w : world) e :
  train_batch m b a w = Raise e -> e = TorchError.
Proof.
  unfold train_batch, Py.bind, call, backward_and_step, torch, ret.
  destruct (forward _ _ b) as [out|]; [|now inversion 1].
  destruct (is_training w m);
    (destruct (criterion_item out b) as [loss|]; [|now inversion 1]);
    (match goal with |- context [adam_step ?g ?s ?p ?o ?b] =>
       destruct (adam_step g s p o b) as [[st p']|] end; [|now inversion 1]);
    (destruct (predict out) as [ps|]; [|now inversion 1]);
    (destruct (num_correct ps b) as [c|]; [|now inversion 1]);
    discriminate.
Qed.

Lemma train_loop_inv m (l : list batch) :
  forall (a a' : stats) (w w' : world),
    for_each l (train_batch m) a w = Ok (a', w') ->
    total a' = total a + samples l
    /\ scheduler w' = scheduler w
    /\ Optim.param_groups (optimizer w') = Optim.param_groups (optimizer w)
    /\ training w' = training w.
Proof.
  induction l as [|b l IH]; intros a a' w w' E.
  - inversion E; subst. simpl. repeat split. lia.
  - simpl in E. apply bind_inv in E as (a1 & w1 & E1 & E).
    apply train_batch_inv in E1 as (Ht & Hs & Hg & Hm).
    apply IH in E as (Ht' & Hs' & Hg' & Hm').
    simpl. repeat split; try congruence. lia.
Qed.

Lemma train_loop_raises m (l : list batch) :
  forall (a : stats) (w : world) e,
    for_each l (train_batch m) a w = Raise e -> e = TorchError.
Proof.
  induction l as [|b l IH]; intros a w e E; [discriminate|].
  simpl in E. unfold Py.bind in E.
  destruct (train_batch m b a w) as [[a1 w1]|e1] eqn:E1.
  - now apply IH in E.
  - inversion E; subst. now apply train_batch_raises in E1.
Qed.

Lemma val_stats_total p (l : list batch) :
  forall a a' : stats,
    val_stats p l a = Some a' -> total a' = total a + samples l.
Proof.
  induction l as [|b l IH]; intros a a' E.
  - inversion E; subst. simpl. lia.
  - cbn [val_stats] in E.
    destruct (val_step p b a) as [a1|] eqn:E1; [|discriminate].
    cbn [mbind option_bind] in E. apply IH in E. rewrite E.
    unfold val_step in E1.
    destruct (forward false p b) as [out|]; [|discriminate].
    cbn [mbind option_bind] in E1.
    destruct (criterion_item out b) as [loss|]; [|discriminate].
    cbn [mbind option_bind] in E1.
    destruct (predict out) as [ps|]; [|discriminate].
    cbn [mbind option_bind] in E1.
    destruct (num_correct ps b) as [c|]; [|discriminate].
    inversion E1; subst. simpl. lia.
Qed.

Lemma test_stats_total p (l : list batch) :
  forall a a' : eval_acc,
    test_stats p l a = Some a' -> test_total a' = test_total a + samples l.
Proof.
  induction l as [|b l IH]; intros a a' E.
  - inversion E; subst. simpl. lia.
  - cbn [test_stats] in E.
    destruct (test_step p b a) as [a1|] eqn:E1; [|discriminate].
    cbn [mbind option_bind] in E. apply IH in E. rewrite E.
    unfold test_step in E1.
    destruct (eval_predictions p b) as [ps|]; [|discriminate].
    cbn [mbind option_bind] in E1.
    destruct (num_correct ps b) as [c|]; [|discriminate].
    inversion E1; subst. simpl. lia.
Qed.

(** In evaluation mode the body of a validation or test loop computes a
    value and leaves the world as it is. *)
Lemma val_batch_pure m (b : batch) (a : stats) (w : world) :
  is_training w m = false ->
  val_batch m b a w = match val_step (parameters w m) b a with
                      | Some a' => Ok (a', w)
                      | None => Raise TorchError
                      end.
Proof.
  intros Hm. unfold val_batch, val_step, Py.bind, call, torch, ret.
  rewrite Hm.
  destruct (forward false (parameters w m) b) as [out|]; [|reflexivity].
  cbn [mbind option_bind].
  destruct (criterion_item out b) as [loss|]; [|reflexivity].
  cbn [mbind option_bind].
  destruct (predict out) as [ps|]; [|reflexivity].
  cbn [mbind option_bind].
  destruct (num_correct ps b) as [c|]; reflexivity.
Qed.

Lemma eval_batch_pure m (b : batch) (a : eval_acc) (w : world) :
  is_training w m = false ->
  eval_batch m b a w = match test_step (parameters w m) b a with
                       | Some a' => Ok (a', w)
                       | None => Raise TorchError
                       end.
Proof.
  intros Hm.
  unfold eval_batch, test_step, eval_predictions, Py.bind, call, torch, ret.
  rewrite Hm.
  destruct (forward false (parameters w m) b) as [out|]; [|reflexivity].
  cbn [mbind option_bind].
  destruct (predict out) as [ps|]; [|reflexivity].
  cbn [mbind option_bind].
  destruct (num_correct ps b) as [c|]; reflexivity.
Qed.

(** In evaluation mode a pass over a loader is a pure fold: the world
    comes back as it went in. *)
Lemma val_loop_pure m (l : list batch) (a : stats) (w : world) :
  is_training w m = false ->
  for_each l (val_batch m) a w
  = match val_stats (parameters w m) l a with
    | Some a' => Ok (a', w)
    | None => Raise TorchError
    end.
Proof.
  intros Hm. revert a. induction l as [|b l IH]; intros a; [reflexivity|].
  cbn [for_each val_stats]. unfold Py.bind at 1.
  rewrite (val_batch_pure m b a w Hm).
  destruct (val_step (parameters w m) b a) as [a1|]; [|reflexivity].
  cbn [mbind option_bind]. apply IH.
Qed.

Lemma test_loop_pure m (l : list batch) (a : eval_acc) (w : world) :
  is_training w m = false ->
  for_each l (eval_batch m) a w
  = match test_stats (parameters w m) l a with
    | Some a' => Ok (a', w)
    | None => Raise TorchError
    end.
Proof.
  intros Hm. revert a. induction l as [|b l IH]; intros a; [reflexivity|].
  cbn [for_each test_stats]. unfold Py.bind at 1.
  rewrite (eval_batch_pure m b a w Hm).
  destruct (test_step (parameters w m) b a) as [a1|]; [|reflexivity].
  cbn [mbind option_bind]. apply IH.
Qed.

Lemma summarize_ok n (a : stats) :
  n <> 0 -> total a <> 0 -> exists r, summarize n a = Ok r.
Proof.
  intros Hn Ht. unfold summarize, truediv.
  destruct (Z.eqb_spec n 0); [contradiction|].
  destruct (Z.eqb_spec (total a) 0); [contradiction|]. eauto.
Qed.

(** The statistics of a pass can only fail on a division by zero, by the
    number of batches or by the number of samples. *)
Lemma summarize_raises n (a : stats) e :
  summarize n a = Raise e ->
  e = ZeroDivisionError /\ (n = 0 \/ total a = 0).
Proof.
  unfold summarize, truediv.
  destruct (Z.eqb_spec n 0); [inversion 1; split; [reflexivity|now left]|].
  destruct (Z.eqb_spec (total a) 0);
    [inversion 1; split; [reflexivity|now right]|discriminate].
Qed.

Lemma summarize_returns n (a : stats) r :
  summarize n a = Ok r -> n <> 0 /\ total a <> 0.
Proof.
  unfold summarize, truediv.
  destruct (Z.eqb_spec n 0); [discriminate|].
  destruct (Z.eqb_spec (total a) 0); [discriminate|]. now split.
Qed.

Lemma summarize_empty (a : stats) :
  summarize 0 a = Raise ZeroDivisionError.
Proof. reflexivity. Qed.

Lemma len_zero {A} (l : list A) : len l = 0 -> l = [].
Proof. destruct l; [reflexivity|]. unfold len. simpl. lia. Qed.

(** The validation phase, exactly: the statistics are those of a pure
    fold, and the only change to the world is the mode flag. *)
Lemma val_phase_exact m (l : list batch) (w : world) :
  val_phase m l w =
    match val_stats (parameters w m) l stats0 with
    | None => Raise TorchError
    | Some a =>
        match summarize (len l) a with
        | Ok r => Ok (r, set_training <[m := false]> w)
        | Raise e => Raise e
        end
    end.
Proof.
  unfold val_phase. unfold Py.bind at 1. unfold eval, modify.
  unfold Py.bind. rewrite val_loop_pure by apply eval_mode_after_eval.
  change (parameters (set_training <[m := false]> w) m)
    with (parameters w m).
  destruct (val_stats (parameters w m) l stats0); reflexivity.
Qed.

Lemma evaluate_model_exact m (l : list batch) (w : world) :
  evaluate_model m l w =
    match test_stats (parameters w m) l eval_acc0 with
    | None => Raise TorchError
    | Some a =>
        match truediv (fmul (of_int 100) (of_int (test_correct a)))
                      (test_total a) with
        | Ok acc => Ok ((acc, all_preds a, all_targets a),
                        set_training <[m := false]> w)
        | Raise e => Raise e
        end
    end.
Proof.
  unfold evaluate_model. unfold Py.bind at 1. unfold eval, modify.
  unfold Py.bind at 1. rewrite test_loop_pure by apply eval_mode_after_eval.
  change (parameters (set_training <[m := false]> w) m)
    with (parameters w m).
  destruct (test_stats (parameters w m) l eval_acc0) as [a|]; [|reflexivity].
  unfold Py.bind, lift, ret.
  match goal with |- context [truediv ?x ?n] => destruct (truediv x n) end;
    reflexivity.
Qed.

(** A training phase that returns has seen a sample, and has left the
    scheduler and the parameter groups alone. *)
Lemma train_phase_returns m (l : list batch) (w w1 : world) r :
  train_phase m l w = Ok (r, w1) ->
  has_sample l
  /\ scheduler w1 = scheduler w
  /\ Optim.param_groups (optimizer w1) = Optim.param_groups (optimizer w).
Proof.
  unfold train_phase. intros E.
  apply bind_inv in E as ([] & w0 & E0 & E).
  apply bind_inv in E as (a & w2 & El & E).
  unfold train, modify in E0. inversion E0; subst w0; clear E0.
  apply train_loop_inv in El as (Ht & Hs & Hg & _).
  unfold lift in E.
  destruct (summarize (len l) a) as [r'|] eqn:Es; [|discriminate].
  inversion E; subst. apply summarize_returns in Es as [_ Hne].
  split; [apply samples_has_sample; simpl in Ht; lia|]. now split.
Qed.

(** A training phase raises what the framework raises, or divides by
    zero at the end of a pass without samples. *)
Lemma train_phase_raises m (l : list batch) (w : world) e :
  train_phase m l w = Raise e ->
  e = TorchError \/ (e = ZeroDivisionError /\ samples l = 0).
Proof.
  unfold train_phase. unfold Py.bind at 1. unfold train, modify.
  unfold Py.bind.
  destruct (for_each l (train_batch m) stats0 _) as [[a w1]|e1] eqn:El.
  - unfold lift.
    destruct (summarize (len l) a) as [r|e2] eqn:Es; [discriminate|].
    intros E. inversion E; subst e2.
    apply train_loop_inv in El as (Ht & _).
    apply summarize_raises in Es as [-> [Hn|Hz]]; right;
      (split; [reflexivity|]).
    + now rewrite (len_zero l Hn).
    + simpl in Ht. lia.
  - intros E. inversion E; subst. left. now apply train_loop_raises in El.
Qed.

Lemma train_phase_empty m (w : world) :
  train_phase m [] w = Raise ZeroDivisionError.
Proof. reflexivity. Qed.

Lemma val_phase_returns m (l : list batch) (w w1 : world) r :
  val_phase m l w = Ok (r, w1) ->
  has_sample l /\ w1 = set_training <[m := false]> w.
Proof.
  rewrite val_phase_exact.
  destruct (val_stats (parameters w m) l stats0) as [a|] eqn:Ea;
    [|discriminate].
  destruct (summarize (len l) a) as [r'|] eqn:Es; [|discriminate].
  intros E. inversion E; subst.
  apply summarize_returns in Es as [_ Hne].
  apply val_stats_total in Ea. simpl in Ea.
  split; [apply samples_has_sample; lia|reflexivity].
Qed.

Lemma val_phase_raises m (l : list batch) (w : world) e :
  val_phase m l w = Raise e ->
  e = TorchError \/ (e = ZeroDivisionError /\ samples l = 0).
Proof.
  rewrite val_phase_exact.
  destruct (val_stats (parameters w m) l stats0) as [a|] eqn:Ea;
    [|inversion 1; now left].
  destruct (summarize (len l) a) as [r'|e'] eqn:Es; [discriminate|].
  intros E. inversion E; subst e'.
  apply summarize_raises in Es as [-> [Hn|Hz]]; right;
    (split; [reflexivity|]).
  - now rewrite (len_zero l Hn).
  - apply val_stats_total in Ea. simpl in Ea. lia.
Qed.

Lemma val_phase_empty m (w : world) :
  val_phase m [] w = Raise ZeroDivisionError.
Proof. reflexivity. Qed.

(** On a framework that never raises, the passes go through. *)
Lemma train_loop_total m (l : list batch) :
  never_raises ->
  forall (a : stats) (w : world),
    exists a' w', for_each l (train_batch m) a w = Ok (a', w').
Proof.
  intros (Hf & Hl & Hp & Hc & Hs).
  induction l as [|b l IH]; intros a w; [now exists a, w|].
  cbn [for_each]. unfold Py.bind at 1.
  assert (Eb : exists a1 w1, train_batch m b a w = Ok (a1, w1)).
  { unfold train_batch, Py.bind, call, backward_and_step, torch, ret.
    destruct (Hf (is_training w m) (parameters w m) b) as [out ->].
    destruct (is_training w m); cbv beta iota;
      (destruct (Hl out b) as [loss ->]; cbv beta iota;
       match goal with |- context [adam_step ?g ?s ?p ?o ?b] =>
         destruct (Hs g s p o b) as [[st p'] ->] end; cbv beta iota;
       destruct (Hp out) as [ps ->]; cbv beta iota;
       destruct (Hc ps b) as [c ->]; eauto). }
  destruct Eb as (a1 & w1 & ->). apply IH.
Qed.

Lemma val_stats_total_ok p (l : list batch) :
  never_raises -> forall a : stats, is_Some (val_stats p l a).
Proof.
  intros (Hf & Hl & Hp & Hc & _).
  induction l as [|b l IH]; intros a; [now exists a|].
  cbn [val_stats]. unfold val_step.
  destruct (Hf false p b) as [out ->]. cbn [mbind option_bind].
  destruct (Hl out b) as [loss ->]. cbn [mbind option_bind].
  destruct (Hp out) as [ps ->]. cbn [mbind option_bind].
  destruct (Hc ps b) as [c ->]. cbn [mbind option_bind]. apply IH.
Qed.

Lemma train_phase_ok m (l : list batch) (w : world) :
  never_raises -> has_sample l ->
  exists r w', train_phase m l w = Ok (r, w').
Proof.
  intros Hnr Hl. unfold train_phase. unfold Py.bind at 1.
  unfold train, modify.
  destruct (train_loop_total m l Hnr stats0 (set_training <[m := true]> w))
    as (a & w1 & El).
  rewrite (bind_ok _ _ _ _ _ El).
  apply train_loop_inv in El as (Ht & _).
  pose proof (has_sample_samples l Hl). pose proof (has_sample_len l Hl).
  destruct (summarize_ok (len l) a) as [r Er]; [lia|simpl in Ht; lia|].
  unfold lift. rewrite Er. eauto.
Qed.

Lemma val_phase_ok m (l : list batch) (w : world) :
  never_raises -> has_sample l ->
  exists r, val_phase m l w = Ok (r, set_training <[m := false]> w).
Proof.
  intros Hnr Hl. rewrite val_phase_exact.
  destruct (val_stats_total_ok (parameters w m) l Hnr stats0) as [a Ea].
  rewrite Ea. apply val_stats_total in Ea.
  pose proof (has_sample_samples l Hl). pose proof (has_sample_len l Hl).
  destruct (summarize_ok (len l) a) as [r Er]; [lia|simpl in Ea; lia|].
  rewrite Er. eauto.
Qed.
End PassFacts.

(** ** One epoch *)

Section EpochFacts.
Context {F : Type} `{PyFloat F} `{Torch F}.
Import Nn Training.

Lemma scheduler_step_frame (w w' : world) :
  scheduler_step w = Ok (tt, w') ->
  tensors w' = tensors w /\ training w' = training w
  /\ Optim.state (optimizer w') = Optim.state (optimizer w).
Proof.
  unfold scheduler_step, Scheduler.step.
  destruct (Scheduler.get_lr _); [|discriminate].
  intros E. inversion E; subst. now repeat split.
Qed.

Lemma scheduler_step_scheduler (w w' : world) :
  scheduler_step w = Ok (tt, w') ->
  scheduler w' = Scheduler.advance None (scheduler w)
  /\ training w' = training w.
Proof.
  unfold scheduler_step, Scheduler.step.
  destruct (Scheduler.get_lr _); [|discriminate].
  intros E. inversion E; subst. now split.
Qed.

Lemma scheduler_step_ok (w : world) :
  counters_ok (scheduler w) ->
  fits_float (Scheduler.T_0 (Scheduler.advance None (scheduler w))) = true ->
  exists w', scheduler_step w = Ok (tt, w').
Proof.
  intros Hc Hf. unfold scheduler_step.
  rewrite (step_counters_ok None _ _ Hc Hf). eauto.
Qed.

(** With sound counters [scheduler.step()] does not divide by zero. *)
Lemma scheduler_step_raises (w : world) e :
  counters_ok (scheduler w) ->
  scheduler_step w = Raise e -> e = OverflowError.
Proof.
  intros Hc. unfold scheduler_step.
  destruct (Scheduler.step None (scheduler w, optimizer w))
    as [[[] [s o]]|e'] eqn:E; [discriminate|].
  intros R. inversion R; subst e'.
  now apply (step_counters_raises None _ _ _ Hc E).
Qed.

(** The early-stopping block with the notebook's [state_dict()]: the
    world is not touched. *)
Lemma early_stopping_exact m v (l : locals) (w : world) :
  exists l' f,
    early_stopping state_dict m v l w = Ok ((l', f), w)
    /\ train_losses l' = train_losses l /\ val_losses l' = val_losses l
    /\ train_accs l' = train_accs l /\ val_accs l' = val_accs l
    /\ (if flt v (best_val_loss l)
        then best_val_loss l' = v /\ counter l' = 0 /\ f = Next
             /\ best_model_state l' = Some {| sd_storage := m |}
        else best_val_loss l' = best_val_loss l
             /\ counter l' = counter l + 1
             /\ f = (if patience <=? counter l + 1 then Break else Next)
             /\ best_model_state l' = best_model_state l).
Proof.
  unfold early_stopping. destruct (flt v (best_val_loss l)).
  - do 2 eexists. split; [reflexivity|]. now repeat split.
  - do 2 eexists. split; [reflexivity|]. now repeat split.
Qed.

(** What one returning epoch body has done. *)
Lemma epoch_body_inv m (tl vl : list batch) (l l' : locals) f (w w' : world) :
  epoch_body state_dict m tl vl l w = Ok ((l', f), w') ->
  exists tlv ta vlv va w1,
    train_phase m tl w = Ok ((tlv, ta), w1)
    /\ val_phase m vl w1 = Ok ((vlv, va), set_training <[m := false]> w1)
    /\ tensors w' = tensors w1
    /\ train_losses l' = train_losses l ++ [tlv]
    /\ train_accs l' = train_accs l ++ [ta]
    /\ val_losses l' = val_losses l ++ [vlv]
    /\ val_accs l' = val_accs l ++ [va]
    /\ (if flt vlv (best_val_loss l)
        then best_val_loss l' = vlv /\ counter l' = 0 /\ f = Next
             /\ best_model_state l' = Some {| sd_storage := m |}
        else best_val_loss l' = best_val_loss l
             /\ counter l' = counter l + 1
             /\ f = (if patience <=? counter l + 1 then Break else Next)
             /\ best_model_state l' = best_model_state l).
Proof.
  unfold epoch_body. intros E.
  apply bind_inv in E as ([tlv ta] & w1 & Et & E).
  apply bind_inv in E as ([vlv va] & w2 & Ev & E).
  apply bind_inv in E as ([] & w3 & Es & E).
  destruct (val_phase_returns _ _ _ _ _ Ev) as [_ ->].
  destruct (scheduler_step_frame _ _ Es) as (Hten & _).
  destruct (early_stopping_exact m vlv
              (record_val vlv va (record_train tlv ta l)) w3)
    as (l0 & f0 & Ee & H1 & H2 & H3 & H4 & Hif).
  rewrite Ee in E. inversion E; subst; clear E.
  exists tlv, ta, vlv, va, w1. simpl in *.
  repeat split; try assumption.
Qed.

(** One epoch steps the scheduler once and leaves the model in
    evaluation mode; it has seen a sample of each loader. *)
Lemma epoch_body_world m (tl vl : list batch) (l l' : locals) f (w w' : world) :
  epoch_body state_dict m tl vl l w = Ok ((l', f), w') ->
  scheduler w' = Scheduler.advance None (scheduler w)
  /\ is_training w' m = false
  /\ has_sample tl /\ has_sample vl.
Proof.
  unfold epoch_body. intros E.
  apply bind_inv in E as ([tlv ta] & w1 & Et & E).
  apply bind_inv in E as ([vlv va] & w2 & Ev & E).
  apply bind_inv in E as ([] & w3 & Es & E).
  destruct (train_phase_returns _ _ _ _ _ Et) as (Htl & Hs1 & _).
  destruct (val_phase_returns _ _ _ _ _ Ev) as [Hvl ->].
  destruct (scheduler_step_scheduler _ _ Es) as [Hs3 Ht3].
  destruct (early_stopping_exact m vlv
              (record_val vlv va (record_train tlv ta l)) w3)
    as (l0 & f0 & Ee & _).
  rewrite Ee in E. inversion E; subst; clear E.
  split; [|split; [|now split]].
  - rewrite Hs3. simpl. now rewrite Hs1.
  - unfold is_training. rewrite Ht3. simpl. now rewrite lookup_insert_eq.
Qed.

(** What an epoch body can raise when the scheduler's counters are
    sound: an exception of the framework, the overflow of a period too
    long for a float, or the division by zero of a pass without
    samples. *)
Lemma epoch_body_raises m (tl vl : list batch) (l : locals) (w : world) e :
  counters_ok (scheduler w) ->
  epoch_body state_dict m tl vl l w = Raise e ->
  e = TorchError \/ e = OverflowError
  \/ (e = ZeroDivisionError /\ ~ (has_sample tl /\ has_sample vl)).
Proof.
  intros Hc. unfold epoch_body. unfold Py.bind at 1.
  destruct (train_phase m tl w) as [[[tlv ta] w1]|e1] eqn:Et.
  - destruct (train_phase_returns _ _ _ _ _ Et) as (_ & Hs1 & _).
    unfold Py.bind at 1.
    destruct (val_phase m vl w1) as [[[vlv va] w2]|e2] eqn:Ev.
    + destruct (val_phase_returns _ _ _ _ _ Ev) as [_ ->].
      unfold Py.bind at 1.
      destruct (scheduler_step _) as [[[] w3]|e3] eqn:Es.
      * destruct (early_stopping_exact m vlv
                    (record_val vlv va (record_train tlv ta l)) w3)
          as (l0 & f0 & Ee & _).
        rewrite Ee. discriminate.
      * intros R. inversion R; subst e3. right; left.
        apply (scheduler_step_raises _ _) in Es; [assumption|].
        simpl. now rewrite Hs1.
    + intros R. inversion R; subst e2.
      destruct (val_phase_raises _ _ _ _ Ev) as [->|[-> Hz]]; [now left|].
      right; right. split; [reflexivity|].
      intros [_ Hv]. now apply (no_samples vl Hz).
  - intros R. inversion R; subst e1.
    destruct (train_phase_raises _ _ _ _ Et) as [->|[-> Hz]]; [now left|].
    right; right. split; [reflexivity|].
    intros [Ht _]. now apply (no_samples tl Hz).
Qed.
End EpochFacts.

(** ** The epoch loop *)

Section LoopFacts.
Context {F : Type} `{PyFloat F} `{Torch F}.
Import Nn Training.

Lemma loop_inv_start m : loop_inv m locals0.
Proof.
  unfold loop_inv. simpl. repeat split; try reflexivity.
  - intros i Hi. lia.
  - now left.
Qed.

(** The invariant survives an epoch body entered with a counter below
    [patience]. *)
Lemma loop_inv_step m (tl vl : list batch) (l l' : locals) f (w w' : world) :
  epoch_body state_dict m tl vl l w = Ok ((l', f), w') ->
  loop_inv m l -> counter l < patience ->
  loop_inv m l'
  /\ length (val_losses l') = S (length (val_losses l))
  /\ match f with
     | Break => counter l' = patience
     | Next => counter l' < patience
     end.
Proof.
  intros E (L1 & L2 & L3 & Hc & Hb & Hpre & Hsd) Hlt.
  destruct (epoch_body_inv _ _ _ _ _ _ _ _ E)
    as (tlv & ta & vlv & va & w1 & _ & _ & _ & E1 & E2 & E3 & E4 & Hif).
  unfold loop_inv. rewrite E1, E2, E3, E4. rewrite !length_app. simpl.
  rewrite !Nat.add_1_r. rewrite streak_snoc, running_best_snoc.
  rewrite <- Hb. unfold patience in *.
  assert (Hpre' : forall i, (i < S (length (val_losses l)))%nat ->
                            (streak (val_losses l ++ [vlv]) i < 10)%nat).
  { intros i Hi. rewrite streak_prefix by lia.
    destruct (Nat.eq_dec i (length (val_losses l))) as [->|Hne];
      [lia|apply Hpre; lia]. }
  destruct (flt vlv (best_val_loss l)).
  - destruct Hif as (B & C & Fl & S'). subst f.
    repeat split; try lia; try assumption. now right.
  - destruct Hif as (B & C & Fl & S'). subst f.
    destruct (Z.leb_spec 10 (counter l + 1)).
    + repeat split; try lia; try assumption. congruence.
    + repeat split; try lia; try assumption. congruence.
Qed.

(** The loop, from any state it can be entered in. *)
Lemma epochs_inv m (tl vl : list batch) n :
  forall (l : locals) (o : observed) (w : world) l' o' w',
    epochs state_dict m tl vl n l o w = Ok ((l', o'), w') ->
    loop_inv m l -> counter l < patience -> broke o = false ->
    epochs_run o = length (val_losses l) ->
    length (params_after o) = epochs_run o ->
    (params_after o = [] \/ last (params_after o) = Some (parameters w m)) ->
    loop_inv m l'
    /\ epochs_run o' = length (val_losses l')
    /\ (epochs_run o' <= epochs_run o + n)%nat
    /\ (broke o' = true -> counter l' = patience)
    /\ (broke o' = false ->
        counter l' < patience /\ epochs_run o' = (epochs_run o + n)%nat)
    /\ length (params_after o') = epochs_run o'
    /\ (params_after o' = []
        \/ last (params_after o') = Some (parameters w' m)).
Proof.
  induction n as [|n IH]; intros l o w l' o' w' E Hinv Hlt Hb Hrun Hlen Hpar.
  - inversion E; subst.
    split; [assumption|]. split; [assumption|]. split; [lia|].
    split; [congruence|]. split; [intros _; split; [assumption|lia]|].
    now split.
  - simpl in E.
    apply bind_inv in E as ([l1 f] & w1 & Eb & E).
    unfold Py.bind, get in E.
    destruct (loop_inv_step _ _ _ _ _ _ _ _ Eb Hinv Hlt) as (Hinv1 & Hl1 & Hf).
    destruct f.
    + apply IH in E; try assumption; simpl.
      * destruct E as (I & R & Le & B1 & B2 & Ln & P).
        simpl in Le, B2.
        split; [assumption|]. split; [assumption|]. split; [lia|].
        split; [assumption|].
        split; [intros Hb'; destruct (B2 Hb') as [? ->]; split; [assumption|lia]|].
        now split.
      * lia.
      * rewrite length_app. simpl. lia.
      * right. apply last_snoc.
    + inversion E; subst. simpl.
      split; [assumption|]. split; [lia|]. split; [lia|].
      split; [intros _; assumption|]. split; [discriminate|].
      split; [rewrite length_app; simpl; lia|].
      right. apply last_snoc.
Qed.

(** A loop that runs an epoch returns only on loaders with samples. *)
Lemma epochs_returns m (tl vl : list batch) n (l : locals) (o : observed)
  (w : world) r :
  epochs state_dict m tl vl (S n) l o w = Ok r ->
  has_sample tl /\ has_sample vl.
Proof.
  simpl. intros E. apply bind_inv in E as ([l1 f] & w1 & Eb & _).
  now apply epoch_body_world in Eb as (_ & _ & Ht & Hv).
Qed.

(** What the loop can raise. *)
Lemma epochs_raises m (tl vl : list batch) n :
  forall (l : locals) (o : observed) (w : world) e,
    counters_ok (scheduler w) ->
    epochs state_dict m tl vl n l o w = Raise e ->
    e = TorchError \/ e = OverflowError
    \/ (e = ZeroDivisionError /\ ~ (has_sample tl /\ has_sample vl)).
Proof.
  induction n as [|n IH]; intros l o w e Hc; [discriminate|].
  simpl. unfold Py.bind at 1.
  destruct (epoch_body state_dict m tl vl l w) as [[[l1 f] w1]|e1] eqn:Eb.
  - unfold Py.bind, get. destruct f; [|discriminate].
    apply IH. apply epoch_body_world in Eb as (Hs & _). rewrite Hs.
    now apply advance_counters.
  - intros R. inversion R; subst e1.
    now apply (epoch_body_raises _ _ _ _ _ _ Hc Eb).
Qed.

(** The schedule of [train_enhanced_model] doubles its period only after
    it has run through it, so the period stays within ten of the number
    of steps taken. *)
Lemma advance_budget (s : Scheduler.t F) :
  counters_ok s -> Scheduler.T_mult s = 2 ->
  Scheduler.T_0 s + Scheduler.T_cur s <= Scheduler.last_epoch s + 10 ->
  let s' := Scheduler.advance None s in
  Scheduler.T_0 s' + Scheduler.T_cur s' <= Scheduler.last_epoch s' + 10
  /\ Scheduler.last_epoch s' = Scheduler.last_epoch s + 1
  /\ 0 <= Scheduler.T_cur s'.
Proof.
  intros (H1 & _ & Hc) Hm Hb. cbv zeta. unfold Scheduler.advance.
  destruct (Z.eqb_spec (Scheduler.T_cur s + 1) (Scheduler.T_0 s));
    simpl; rewrite ?Hm; lia.
Qed.

(** On a framework that never raises, an epoch on loaders with samples
    returns when the period still converts to a float. *)
Lemma epoch_body_ok m (tl vl : list batch) (l : locals) (w : world) :
  never_raises -> has_sample tl -> has_sample vl ->
  counters_ok (scheduler w) ->
  fits_float (Scheduler.T_0 (Scheduler.advance None (scheduler w))) = true ->
  exists l' f w', epoch_body state_dict m tl vl l w = Ok ((l', f), w').
Proof.
  intros Hnr Htl Hvl Hc Hf. unfold epoch_body.
  destruct (train_phase_ok m tl w Hnr Htl) as ([tlv ta] & w1 & Et).
  rewrite (bind_ok _ _ _ _ _ Et).
  destruct (train_phase_returns _ _ _ _ _ Et) as (_ & Hs & _).
  destruct (val_phase_ok m vl w1 Hnr Hvl) as ([vlv va] & Ev).
  rewrite (bind_ok _ _ _ _ _ Ev).
  destruct (scheduler_step_ok (set_training <[m := false]> w1))
    as (w3 & Es); [simpl; now rewrite Hs|simpl; now rewrite Hs|].
  rewrite (bind_ok _ _ _ _ _ Es).
  destruct (early_stopping_exact m vlv
              (record_val vlv va (record_train tlv ta l)) w3)
    as (l0 & f0 & Ee & _).
  rewrite Ee. now exists l0, f0, w3.
Qed.

Lemma epochs_ok m (tl vl : list batch) n :
  never_raises -> has_sample tl -> has_sample vl ->
  forall (l : locals) (o : observed) (w : world),
    counters_ok (scheduler w) -> Scheduler.T_mult (scheduler w) = 2 ->
    Scheduler.T_0 (scheduler w) + Scheduler.T_cur (scheduler w)
      <= Scheduler.last_epoch (scheduler w) + 10 ->
    Scheduler.last_epoch (scheduler w) + Z.of_nat n + 10 < float_limit ->
    exists r w', epochs state_dict m tl vl n l o w = Ok (r, w').
Proof.
  intros Hnr Htl Hvl. induction n as [|n IH]; intros l o w Hc Hm Hb Hlim.
  - now exists (l, o), w.
  - destruct (advance_budget _ Hc Hm Hb) as (Hb' & Hl' & Hpos).
    destruct (advance_counters None _ Hc) as (Hc' & _ & _).
    assert (Hf : fits_float
                   (Scheduler.T_0 (Scheduler.advance None (scheduler w)))
                 = true).
    { apply fits_float_spec. destruct Hc' as (H1 & _). lia. }
    simpl.
    destruct (epoch_body_ok m tl vl l w Hnr Htl Hvl Hc Hf)
      as (l1 & f & w1 & Eb).
    rewrite (bind_ok _ _ _ _ _ Eb). unfold Py.bind, get.
    apply epoch_body_world in Eb as (Hs & _).
    destruct f; [|eexists _, _; reflexivity].
    apply IH; rewrite Hs; try assumption.
    + now rewrite advance_T_mult.
    + lia.
Qed.

(** The optimizer and scheduler set up by [train_enhanced_model]. *)
Lemma setup_ok (lr : F) (w : world) :
  exists w2,
    Py.bind (Adam lr) (fun _ => new_scheduler 10 2) w = Ok (tt, w2)
    /\ counters_ok (scheduler w2)
    /\ tensors w2 = tensors w /\ training w2 = training w.
Proof.
  unfold Py.bind, Adam, modify, new_scheduler.
  match goal with |- context [Scheduler.create _ _ _ _ ?o] =>
    destruct (create_ok 10 2 (of_int 0) o) as (s0 & o0 & E & Hc);
      [lia|lia|vm_compute; reflexivity| |rewrite E]
  end.
  - constructor; [|constructor].
    rewrite lookup_insert_eq. eauto.
  - eexists. split; [reflexivity|]. split; [exact Hc|]. now split.
Qed.

(** The scheduler [train_enhanced_model] starts from. *)
Lemma setup_scheduler (lr : F) (w w2 : world) :
  Py.bind (Adam lr) (fun _ => new_scheduler 10 2) w = Ok (tt, w2) ->
  Scheduler.T_cur (scheduler w2) = 0 /\ Scheduler.T_0 (scheduler w2) = 10
  /\ Scheduler.T_mult (scheduler w2) = 2
  /\ Scheduler.last_epoch (scheduler w2) = 0.
Proof.
  unfold Py.bind, Adam, modify, new_scheduler, Scheduler.create,
    Scheduler.base_init.
  destruct (comprehension _ _) as [gs|]; [|discriminate].
  destruct (comprehension Scheduler.initial_lr_of gs) as [bs|]; [|discriminate].
  unfold Scheduler.step.
  destruct (Scheduler.get_lr _) as [ls|]; [|discriminate].
  intros E. inversion E; subst. now repeat split.
Qed.

(** A returning call of [train_enhanced_model], taken apart. *)
Lemma train_inv m (tl vl : list batch) n (lr : F) (w w' : world) m' h o :
  train_enhanced_model_observed m tl vl n lr w = Ok ((m', h, o), w') ->
  exists l w2 w3,
    Py.bind (Adam lr) (fun _ => new_scheduler 10 2) w = Ok (tt, w2)
    /\ epochs state_dict m tl vl n locals0 observed0 w2 = Ok ((l, o), w3)
    /\ m' = m /\ h = history_of l
    /\ w' = match best_model_state l with
            | Some sd =>
                set_tensors <[m := tensors w3 !!! sd_storage sd]> w3
            | None => w3
            end.
Proof.
  unfold train_enhanced_model_observed, train_with. intros E.
  apply bind_inv in E as ([] & w1 & E1 & E).
  apply bind_inv in E as ([] & w2 & E2 & E).
  apply bind_inv in E as ([l o0] & w3 & E3 & E).
  exists l, w2, w3.
  assert (Es : Py.bind (Adam lr) (fun _ => new_scheduler 10 2) w = Ok (tt, w2))
    by now rewrite (bind_ok _ _ _ _ _ E1).
  destruct (best_model_state l) as [sd|]; simpl in E;
    unfold Py.bind, load_state_dict, modify, ret in E;
    inversion E; subst; now repeat split.
Qed.

Lemma train_observed_drop m (tl vl : list batch) n (lr : F) (w w' : world) m' h :
  train_enhanced_model m tl vl n lr w = Ok ((m', h), w') ->
  exists o,
    train_enhanced_model_observed m tl vl n lr w = Ok ((m', h, o), w').
Proof.
  unfold train_enhanced_model. intros E.
  apply bind_inv in E as ([[m0 h0] o] & w0 & E0 & E).
  inversion E; subst. now exists o.
Qed.
(** The call after the optimizer and the scheduler have been set up. *)
Lemma train_after_setup m (tl vl : list batch) n (lr : F) (w : world) :
  exists w2,
    Py.bind (Adam lr) (fun _ => new_scheduler 10 2) w = Ok (tt, w2)
    /\ counters_ok (scheduler w2)
    /\ train_enhanced_model m tl vl n lr w
       = match epochs state_dict m tl vl n locals0 observed0 w2 with
         | Ok ((l, o), w3) =>
             Ok ((m, history_of l),
                 match best_model_state l with
                 | Some sd =>
                     set_tensors <[m := tensors w3 !!! sd_storage sd]> w3
                 | None => w3
                 end)
         | Raise e => Raise e
         end.
Proof.
  destruct (setup_ok lr w) as (w2 & Es & Hc & _).
  exists w2. split; [exact Es|]. split; [exact Hc|].
  unfold train_enhanced_model, train_enhanced_model_observed, train_with.
  unfold Py.bind in *.
  destruct (Adam lr w) as [[[] w1]|]; [|discriminate].
  destruct (new_scheduler 10 2 w1) as [[[] w2']|]; [|discriminate].
  inversion Es; subst w2'.
  destruct (epochs state_dict m tl vl n locals0 observed0 w2)
    as [[[l o] w3]|e]; [|reflexivity].
  now destruct (best_model_state l).
Qed.

(** An epoch body that raises ends the loop with its exception. *)
Lemma epochs_first_raises m (tl vl : list batch) n (l : locals)
  (o : observed) (w : world) e :
  epoch_body state_dict m tl vl l w = Raise e ->
  epochs state_dict m tl vl (S n) l o w = Raise e.
Proof. intros E. simpl. now rewrite (bind_raise _ _ _ _ E). Qed.

Lemma epoch_body_empty_train m (vl : list batch) (l : locals) (w : world) :
  epoch_body state_dict m [] vl l w = Raise ZeroDivisionError.
Proof.
  unfold epoch_body. now rewrite (bind_raise _ _ _ _ (train_phase_empty m w)).
Qed.

(** With an empty validation loader the epoch body divides by zero once
    the training phase has returned. *)
Lemma epoch_body_empty_val m (tl : list batch) (l : locals) (w : world) :
  (is_ok (train_phase m tl w) = true ->
   epoch_body state_dict m tl [] l w = Raise ZeroDivisionError)
  /\ (epoch_body state_dict m tl [] l w = Raise ZeroDivisionError
      \/ epoch_body state_dict m tl [] l w = Raise TorchError).
Proof.
  unfold epoch_body.
  destruct (train_phase m tl w) as [[[tlv ta] w1]|e] eqn:Et.
  - rewrite (bind_ok _ _ _ _ _ Et).
    rewrite (bind_raise _ _ _ _ (val_phase_empty m w1)).
    split; [reflexivity|now left].
  - rewrite (bind_raise _ _ _ _ Et). split; [discriminate|].
    destruct (train_phase_raises _ _ _ _ Et) as [->|[-> _]];
      [now right|now left].
Qed.
End LoopFacts.

(** ** [train_enhanced_model] and [evaluate_model]: the claims *)

Section TrainingClaims.
Context {F : Type} `{PyFloat F} `{Torch F}.
Import Nn Training.

Lemma history_lookups (l : @locals F) :
  history_of l !! "train_loss" = Some (train_losses l)
  /\ history_of l !! "val_loss" = Some (val_losses l)
  /\ history_of l !! "train_acc" = Some (train_accs l)
  /\ history_of l !! "val_acc" = Some (val_accs l).
Proof.
  unfold history_of. repeat split.
Qed.

(** A returning call, with everything the loop invariant says about its
    result. *)
Lemma train_result m (tl vl : list batch) n (lr : F) (w w' : world) m' h o :
  train_enhanced_model_observed m tl vl n lr w = Ok ((m', h, o), w') ->
  exists l w3,
    m' = m /\ h = history_of l
    /\ loop_inv m l
    /\ epochs_run o = length (val_losses l)
    /\ (epochs_run o <= n)%nat
    /\ (broke o = true -> counter l = patience)
    /\ (broke o = false -> counter l < patience /\ epochs_run o = n)
    /\ length (params_after o) = epochs_run o
    /\ (params_after o = [] \/ last (params_after o) = Some (parameters w3 m))
    /\ w' = match best_model_state l with
            | Some sd => set_tensors <[m := tensors w3 !!! sd_storage sd]> w3
            | None => w3
            end.
Proof.
  intros E.
  destruct (train_inv _ _ _ _ _ _ _ _ _ _ E)
    as (l & w2 & w3 & _ & El & -> & -> & ->).
  apply epochs_inv in El; try reflexivity.
  - destruct El as (I & R & Le & B1 & B2 & Ln & P).
    exists l, w3. simpl in Le, B2. repeat (split; [done|]). done.
  - apply loop_inv_start.
  - now left.
Qed.

(** The notebook's checkpoint shares the module's tensors, so loading it
    puts back the values that are already there: the returned model has
    the parameters of the last epoch that ran. *)
Lemma restore_is_a_no_op m (tl vl : list batch) n (lr : F)
  (w w' : world) m' h o :
  train_enhanced_model_observed m tl vl n lr w = Ok ((m', h, o), w') ->
  params_after o = [] \/ last (params_after o) = Some (parameters w' m).
Proof.
  intros E.
  destruct (train_result _ _ _ _ _ _ _ _ _ _ E)
    as (l & w3 & _ & _ & I & _ & _ & _ & _ & _ & P & ->).
  destruct P as [P|P]; [now left|right]. rewrite P. f_equal.
  destruct I as (_ & _ & _ & _ & _ & _ & [S|S]); rewrite S; [reflexivity|].
  unfold parameters. simpl. now rewrite lookup_total_insert_eq.
Qed.

(** C1 (as amended): in a returning run the loop executes [break] exactly
    when the validation loss has failed to improve strictly on the best
    value so far for [patience = 10] consecutive epochs, the last of
    which is the epoch just run (no earlier epoch completes such a run
    of ten); if it never breaks all [num_epochs] epochs run, and fewer
    than [num_epochs] epochs run only through a [break].  (A [break] on
    the final epoch leaves [num_epochs] epochs run.) *)
Theorem early_stopping_policy m (tl vl : list batch) (num_epochs : nat)
  (lr : F) (w w' : world) m' h o :
  train_enhanced_model_observed m tl vl num_epochs lr w
    = Ok ((m', h, o), w') ->
  exists vs,
    h !! "val_loss" = Some vs
    /\ length vs = epochs_run o
    /\ (epochs_run o <= num_epochs)%nat
    /\ (forall i, (i < epochs_run o)%nat -> ~ failed_for vs 10 i)
    /\ (broke o = true <-> failed_for vs 10 (epochs_run o))
    /\ (broke o = true -> streak vs (epochs_run o) = 10%nat)
    /\ (broke o = false -> epochs_run o = num_epochs)
    /\ ((epochs_run o < num_epochs)%nat -> broke o = true).
Proof.
  intros E.
  destruct (train_result _ _ _ _ _ _ _ _ _ _ E)
    as (l & w3 & _ & -> & I & R & Le & B1 & B2 & _).
  destruct I as (_ & _ & _ & Hc & _ & Hpre & _).
  unfold patience in *.
  exists (val_losses l). rewrite R in Le, B2 |- *.
  split; [apply history_lookups|]. split; [reflexivity|].
  split; [lia|].
  split; [intros i Hi Hf; apply streak_failed_for in Hf;
          specialize (Hpre i Hi); lia|].
  split; [|split; [|split]].
  - split.
    + intros Hb. apply streak_failed_for. specialize (B1 Hb). lia.
    + intros Hf. apply streak_failed_for in Hf.
      destruct (broke o); [reflexivity|].
      destruct B2 as [B2 _]; [reflexivity|]. lia.
  - intros Hb. specialize (B1 Hb). lia.
  - intros Hb. now destruct (B2 Hb).
  - intros Hlt. destruct (broke o); [reflexivity|].
    destruct B2 as [_ B2]; [reflexivity|]. lia.
Qed.


(** C10: with [num_epochs = 0] the call returns the model it was given,
    no tensor and no mode flag has changed, and the four lists of the
    history are empty. *)
Theorem zero_epochs_change_nothing m (tl vl : list batch) (lr : F)
  (w : world) :
  exists h w',
    train_enhanced_model m tl vl 0 lr w = Ok ((m, h), w')
    /\ tensors w' = tensors w /\ training w' = training w
    /\ parameters w' m = parameters w m
    /\ h !! "train_loss" = Some [] /\ h !! "val_loss" = Some []
    /\ h !! "train_acc" = Some [] /\ h !! "val_acc" = Some [].
Proof.
  destruct (setup_ok lr w) as (w2 & Es & _ & Ht & Hm).
  exists (history_of locals0), w2. split.
  - unfold train_enhanced_model, train_enhanced_model_observed, train_with.
    unfold Py.bind in *. destruct (Adam lr w) as [[[] w1]|]; [|discriminate].
    rewrite Es. reflexivity.
  - split; [assumption|]. split; [assumption|].
    split; [unfold parameters; now rewrite Ht|].
    apply (history_lookups locals0).
Qed.

(** C5: the validation phase and [evaluate_model] are pure folds over
    their loader; whether they return or raise, the only thing they
    change in the world is the mode flag of the model, so tensors,
    optimizer and scheduler are as before.  In an epoch, the tensors at
    the end of the epoch body are those the training phase left. *)
Theorem validation_is_read_only m (tl vl el : list batch) (l : locals)
  (w : world) :
  val_phase m vl w =
    match val_stats (parameters w m) vl stats0 with
    | None => Raise TorchError
    | Some a =>
        match summarize (len vl) a with
        | Ok r => Ok (r, set_training <[m := false]> w)
        | Raise e => Raise e
        end
    end
  /\ evaluate_model m el w =
       match test_stats (parameters w m) el eval_acc0 with
       | None => Raise TorchError
       | Some a =>
           match truediv (fmul (of_int 100) (of_int (test_correct a)))
                         (test_total a) with
           | Ok acc => Ok ((acc, all_preds a, all_targets a),
                           set_training <[m := false]> w)
           | Raise e => Raise e
           end
       end
  /\ tensors (set_training <[m := false]> w) = tensors w
  /\ optimizer (set_training <[m := false]> w) = optimizer w
  /\ scheduler (set_training <[m := false]> w) = scheduler w
  /\ (forall l' f w',
        epoch_body state_dict m tl vl l w = Ok ((l', f), w') ->
        exists r r' w1,
          train_phase m tl w = Ok (r, w1)
          /\ val_phase m vl w1 = Ok (r', set_training <[m := false]> w1)
          /\ tensors w' = tensors w1).
Proof.
  split; [apply val_phase_exact|]. split; [apply evaluate_model_exact|].
  repeat (split; [reflexivity|]).
  intros l' f w' E.
  destruct (epoch_body_inv _ _ _ _ _ _ _ _ E)
    as (tlv & ta & vlv & va & w1 & Et & Ev & Hten & _).
  now exists (tlv, ta), (vlv, va), w1.
Qed.

(** C9 (as amended): when the train and the validation loader each yield
    a batch with at least one sample, [train_enhanced_model] does not
    divide by zero, and when the test loader does, [evaluate_model] does
    not: neither raises [ZeroDivisionError].  With an empty train loader
    and at least one epoch to run, [train_enhanced_model] raises
    [ZeroDivisionError]; with an empty validation loader and at least one
    epoch to run it raises [ZeroDivisionError] as soon as the first
    training phase has returned, and what that phase raised otherwise;
    with an empty test loader [evaluate_model] raises
    [ZeroDivisionError].  The divisions by the totals are those by
    [samples]: [evaluate_model] raises [ZeroDivisionError] exactly when
    every batch went through the framework and none had a sample, and
    [train_enhanced_model] with an epoch to run never returns unless both
    loaders yield a sample. *)
Theorem divisions_by_zero m (tl vl el : list batch) (num_epochs : nat)
  (lr : F) (w : world) :
  (has_sample tl -> has_sample vl ->
   train_enhanced_model m tl vl num_epochs lr w <> Raise ZeroDivisionError)
  /\ (has_sample el -> evaluate_model m el w <> Raise ZeroDivisionError)
  /\ (num_epochs <> 0%nat -> tl = [] ->
      train_enhanced_model m tl vl num_epochs lr w
        = Raise ZeroDivisionError)
  /\ (num_epochs <> 0%nat -> vl = [] ->
      (train_enhanced_model m tl vl num_epochs lr w = Raise ZeroDivisionError
       \/ train_enhanced_model m tl vl num_epochs lr w = Raise TorchError)
      /\ forall w2,
           Py.bind (Adam lr) (fun _ => new_scheduler 10 2) w = Ok (tt, w2) ->
           is_ok (train_phase m tl w2) = true ->
           train_enhanced_model m tl vl num_epochs lr w
             = Raise ZeroDivisionError)
  /\ evaluate_model m [] w = Raise ZeroDivisionError
  /\ (evaluate_model m el w = Raise ZeroDivisionError <->
      is_Some (test_stats (parameters w m) el eval_acc0) /\ samples el = 0)
  /\ (num_epochs <> 0%nat -> ~ (has_sample tl /\ has_sample vl) ->
      is_ok (train_enhanced_model m tl vl num_epochs lr w) = false).
Proof.
  destruct (train_after_setup m tl vl num_epochs lr w) as (w2 & Es & Hc & E).
  split; [|split; [|split; [|split; [|split; [|split]]]]].
  - intros Htl Hvl. rewrite E.
    destruct (epochs state_dict m tl vl num_epochs locals0 observed0 w2)
      as [[[l o] w3]|e] eqn:El; [discriminate|].
    intros R. inversion R; subst e.
    destruct (epochs_raises _ _ _ _ _ _ _ _ Hc El)
      as [D|[D|[_ D]]]; try discriminate.
    apply D. now split.
  - intros Hel. rewrite evaluate_model_exact.
    destruct (test_stats (parameters w m) el eval_acc0) as [a|] eqn:Ea;
      [|discriminate].
    apply test_stats_total in Ea. simpl in Ea.
    pose proof (has_sample_samples el Hel).
    unfold truediv. destruct (Z.eqb_spec (test_total a) 0); [lia|].
    discriminate.
  - intros Hn ->. destruct num_epochs as [|n]; [contradiction|].
    rewrite E.
    now rewrite (epochs_first_raises m [] vl n locals0 observed0 w2 _
                   (epoch_body_empty_train m vl locals0 w2)).
  - intros Hn ->. destruct num_epochs as [|n]; [contradiction|].
    destruct (epoch_body_empty_val m tl locals0 w2) as [Hret Hor].
    split.
    + rewrite E. destruct Hor as [R|R];
        rewrite (epochs_first_raises m tl [] n locals0 observed0 w2 _ R);
        [now left|now right].
    + intros w2' Es' Hok. rewrite Es in Es'. inversion Es'; subst w2'.
      rewrite E.
      now rewrite (epochs_first_raises m tl [] n locals0 observed0 w2 _
                     (Hret Hok)).
  - reflexivity.
  - rewrite evaluate_model_exact.
    destruct (test_stats (parameters w m) el eval_acc0) as [a|] eqn:Ea.
    + apply test_stats_total in Ea. simpl in Ea. unfold truediv.
      destruct (Z.eqb_spec (test_total a) 0) as [Ez|Ez].
      * split; [intros _; split; [eauto|lia]|reflexivity].
      * split; [discriminate|]. intros [_ Hz]. lia.
    + split; [discriminate|]. intros [[a Ha] _]. discriminate.
  - intros Hn Hs. destruct num_epochs as [|n]; [contradiction|].
    rewrite E.
    destruct (epochs state_dict m tl vl (S n) locals0 observed0 w2)
      as [r|e] eqn:El; [|reflexivity].
    exfalso. apply Hs. exact (epochs_returns _ _ _ _ _ _ _ _ El).
Qed.
End TrainingClaims.

(** ** The claims about the training loop, on a concrete run

    The one-weight model of [Concrete]: the validation loss is 1, 2, 3,
    ... so the first epoch is the best one and every later epoch fails to
    improve. *)

(** C1, on a run with [num_epochs = 50]: the loop breaks after eleven
    epochs, the last ten of which did not improve. *)
Lemma early_stopping_policy_witness :
  Concrete.run 50 = Ok Concrete.after50
  /\ Training.epochs_run (Concrete.observed_of_run Concrete.after50) = 11%nat
  /\ exists vs,
      Concrete.history_of_run Concrete.after50 !! "val_loss" = Some vs
      /\ failed_for vs 10 11.
Proof.
  assert (Hrun : Training.train_enhanced_model_observed Concrete.model
                   Concrete.loader Concrete.loader 50 Concrete.one_tenth
                   Concrete.world0
                 = Ok ((Concrete.model,
                        Concrete.history_of_run Concrete.after50,
                        Concrete.observed_of_run Concrete.after50),
                       Concrete.world_of_run Concrete.after50))
    by (vm_compute; reflexivity).
  split; [exact Hrun|]. split; [reflexivity|].
  destruct (early_stopping_policy _ _ _ _ _ _ _ _ _ _ Hrun)
    as (vs & Hv & _ & _ & _ & Hiff & _).
  exists vs. split; [exact Hv|].
  exact (proj1 Hiff eq_refl).
Defined.

(** C1 as stated fails: with [num_epochs = 11] the validation loss fails
    to improve for ten consecutive epochs, the loop breaks, and yet it has
    not terminated before [num_epochs] epochs: all eleven have run. *)
Lemma break_on_the_final_epoch :
  Concrete.run 11 = Ok Concrete.after11
  /\ exists vs,
      Concrete.history_of_run Concrete.after11 !! "val_loss" = Some vs
      /\ failed_for vs 10
           (Training.epochs_run (Concrete.observed_of_run Concrete.after11))
      /\ Training.broke (Concrete.observed_of_run Concrete.after11) = true
      /\ ~ (Training.epochs_run (Concrete.observed_of_run Concrete.after11)
            < 11)%nat.
Proof.
  split; [vm_compute; reflexivity|].
  eexists. split; [vm_compute; reflexivity|].
  split; [|split].
  - apply streak_failed_for. vm_compute. apply le_n.
  - reflexivity.
  - vm_compute. lia.
Qed.

(** C2 fails on the code: two epochs, the first with the lower validation
    loss.  The parameters at the end of the first epoch were 1, the model
    comes back with the parameters of the second epoch, 2, because the
    saved state dict shares the tensors the optimizer keeps updating. *)
Lemma best_checkpoint_is_not_restored :
  Concrete.run 2 = Ok Concrete.after2
  /\ Concrete.history_of_run Concrete.after2 !! "val_loss"
     = Some [PrimFloat.one; PrimFloat.of_uint63 2]
  /\ PrimFloat.ltb PrimFloat.one (PrimFloat.of_uint63 2) = true
  /\ Training.params_after (Concrete.observed_of_run Concrete.after2)
     = [1; 2]
  /\ Nn.parameters (Concrete.world_of_run Concrete.after2) Concrete.model = 2.
Proof. repeat split; vm_compute; reflexivity. Qed.

(** With a copied checkpoint the same call returns the parameters of the
    best epoch. *)
Lemma copied_checkpoint_is_restored :
  exists r, Concrete.run_copied 2 = Ok r
            /\ Nn.parameters (Concrete.world_of_run r) Concrete.model = 1.
Proof. eexists. split; vm_compute; reflexivity. Qed.


(** C5, on the first epoch of the concrete run. *)
Lemma validation_is_read_only_witness :
  Training.epoch_body Nn.state_dict Concrete.model Concrete.loader
    Concrete.loader Training.locals0 Concrete.world0
  = Ok Concrete.first_epoch
  /\ exists r w1,
      Training.train_phase Concrete.model Concrete.loader Concrete.world0
      = Ok (r, w1)
      /\ Nn.tensors (snd Concrete.first_epoch) = Nn.tensors w1.
Proof.
  assert (He : Training.epoch_body Nn.state_dict Concrete.model
                 Concrete.loader Concrete.loader Training.locals0
                 Concrete.world0
               = Ok ((fst (fst Concrete.first_epoch),
                      snd (fst Concrete.first_epoch)),
                     snd Concrete.first_epoch))
    by (vm_compute; reflexivity).
  split; [exact He|].
  destruct (validation_is_read_only Concrete.model Concrete.loader
              Concrete.loader Concrete.loader Training.locals0
              Concrete.world0)
    as (_ & _ & _ & _ & _ & Hep).
  destruct (Hep _ _ _ He) as (r & r' & w1 & Et & _ & Hten).
  now exists r, w1.
Defined.

(** C9, on the concrete loaders: with two samples per loader neither
    call divides by zero; with an empty train loader and three epochs to
    run the training does. *)
Lemma divisions_by_zero_witness :
  has_sample Concrete.loader
  /\ Training.train_enhanced_model Concrete.model Concrete.loader
       Concrete.loader 3 Concrete.one_tenth Concrete.world0
     <> Raise ZeroDivisionError
  /\ Training.evaluate_model Concrete.model Concrete.loader Concrete.world0
     <> Raise ZeroDivisionError
  /\ Training.train_enhanced_model Concrete.model [] Concrete.loader 3
       Concrete.one_tenth Concrete.world0 = Raise ZeroDivisionError.
Proof.
  assert (Hs : has_sample Concrete.loader).
  { exists [0; 1]. split; [now left|]. vm_compute. discriminate. }
  split; [exact Hs|].
  split; [|split].
  - exact (proj1 (divisions_by_zero Concrete.model Concrete.loader
                    Concrete.loader Concrete.loader 3 Concrete.one_tenth
                    Concrete.world0) Hs Hs).
  - exact (proj1 (proj2 (divisions_by_zero Concrete.model Concrete.loader
                           Concrete.loader Concrete.loader 3
                           Concrete.one_tenth Concrete.world0)) Hs).
  - refine (proj1 (proj2 (proj2 (divisions_by_zero Concrete.model
                                   [] Concrete.loader Concrete.loader 3
                                   Concrete.one_tenth Concrete.world0)))
              _ eq_refl).
    discriminate.
Defined.

(** C9 as stated fails in two ways.  With empty loaders and
    [num_epochs = 0] there is no epoch, hence no division, and
    [train_enhanced_model] returns.  With an empty validation loader, one
    epoch to run and a train loader whose only batch has one sample, a
    model with batch normalisation raises in the training phase, before
    any division: the exception is the framework's, not
    [ZeroDivisionError]. *)
Lemma empty_loader_without_zero_division :
  is_ok (Training.train_enhanced_model Concrete.model [] [] 0
           Concrete.one_tenth Concrete.world0) = true
  /\ is_ok (@Training.train_enhanced_model float Concrete.float_ops
              Concrete.batch_normed Concrete.model Concrete.lone_sample []
              1 Concrete.one_tenth Concrete.batch_normed_world0) = false
  /\ @Training.train_enhanced_model float Concrete.float_ops
       Concrete.batch_normed Concrete.model Concrete.lone_sample []
       1 Concrete.one_tenth Concrete.batch_normed_world0
     <> Raise ZeroDivisionError.
Proof.
  split; [vm_compute; reflexivity|]. split; [vm_compute; reflexivity|].
  vm_compute. discriminate.
Qed.

(** ** The feature extractor *)

Section FeatureClaims.
Context {E X : Type}.
Variable convert : Features.dtype -> X -> E.
Variable mel_transform amplitude_to_db : Features.Tensor E -> Features.Tensor E.
Import Features.

(** C6: [__call__] turns a non-tensor input into a [float32] tensor (of
    the same shape), adds a leading dimension exactly when the tensor is
    1-dimensional, and returns the mel spectrogram of the result on the
    dB scale; an input that is a tensor of dimension at least 2 reaches
    the mel transform unchanged. *)
Theorem extractor_call (w : waveform E X) :
  let t := ensure_tensor convert w in
  let extracted := call convert mel_transform amplitude_to_db w in
  extracted
    = amplitude_to_db
        (mel_transform (if Nat.eqb (dim t) 1 then unsqueeze0 t else t))
  /\ (forall a, w = NotTensor a ->
                t_dtype t = float32 /\ t_shape t = a_shape a
                /\ t_data t = map (convert float32) (a_data a))
  /\ (forall t0, w = IsTensor t0 -> t = t0)
  /\ (dim t = 1%nat ->
      extracted = amplitude_to_db (mel_transform (unsqueeze0 t))
      /\ t_shape (unsqueeze0 t) = 1%nat :: t_shape t
      /\ dim (unsqueeze0 t) = 2%nat)
  /\ (dim t <> 1%nat -> extracted = amplitude_to_db (mel_transform t))
  /\ (forall t0, w = IsTensor t0 -> (2 <= dim t0)%nat ->
                 extracted = amplitude_to_db (mel_transform t0)).
Proof.
  intros t extracted. subst extracted.
  unfold call, add_batch_dimension. fold t.
  split; [reflexivity|].
  split; [intros a ->; now repeat split|].
  split; [now intros t0 ->|].
  split; [|split].
  - intros Hd. rewrite Hd. simpl. repeat split.
    unfold dim in *. simpl. now rewrite Hd.
  - intros Hd. now destruct (Nat.eqb_spec (dim t) 1).
  - intros t0 -> Hd. subst t. simpl.
    destruct (Nat.eqb_spec (dim t0) 1); [lia|reflexivity].
Qed.
End FeatureClaims.

(** C6 on a tensor of shape (1, 4): it goes through as it is. *)
Lemma extractor_call_witness :
  (2 <= Features.dim Concrete.stereo)%nat
  /\ Concrete.extractor (Features.IsTensor Concrete.stereo) = Concrete.stereo.
Proof.
  assert (Hd : (2 <= Features.dim Concrete.stereo)%nat) by (vm_compute; lia).
  split; [exact Hd|].
  destruct (extractor_call (fun _ x => x) (fun t => t) (fun t => t)
              (Features.IsTensor Concrete.stereo))
    as (_ & _ & _ & _ & _ & Hpass).
  exact (Hpass Concrete.stereo eq_refl Hd).
Defined.

(** ** The workflow *)

Section WorkflowClaims.
Import Workflow.

(** C7 (as amended): whatever the checked-out tree contains, the
    "Verify project structure" step exits 0 after printing its heading
    and one line per item, a warning when the item is missing; so this
    step never fails the job, which succeeds exactly when the two actions
    do and the syntax-check step (the [find] command) exits 0. *)
Theorem verify_project_structure_never_fails (e : env) :
  exec_script e verify_project_structure
    = (0, ["Verifying project structure...";
           if is_dir e "src" then "✓ src directory found"
           else "⚠️ src directory not found";
           if is_file e "requirements.txt" then "✓ requirements.txt found"
           else "⚠️ requirements.txt not found"])
  /\ step_ok e (Run "Verify project structure" verify_project_structure)
     = true
  /\ job_ok e validate
     = action_ok e "actions/checkout@v3"
       && action_ok e "actions/setup-python@v4"
       && (exit_status e
             ["find"; "."; "-name"; "*.py"; "-type"; "f"; "-exec";
              "python"; "-m"; "py_compile"; "{}"; ";"] =? 0).
Proof.
  assert (Hv : exec_script e verify_project_structure
               = (0, ["Verifying project structure...";
                      if is_dir e "src" then "✓ src directory found"
                      else "⚠️ src directory not found";
                      if is_file e "requirements.txt"
                      then "✓ requirements.txt found"
                      else "⚠️ requirements.txt not found"])).
  { unfold verify_project_structure. simpl.
    destruct (is_dir e "src"), (is_file e "requirements.txt"); reflexivity. }
  split; [exact Hv|]. split.
  - unfold step_ok. now rewrite Hv.
  - assert (Hs : step_ok e (Run "Check Python syntax" check_python_syntax)
                 = (exit_status e
                      ["find"; "."; "-name"; "*.py"; "-type"; "f"; "-exec";
                       "python"; "-m"; "py_compile"; "{}"; ";"] =? 0)).
    { unfold step_ok, check_python_syntax, exec_script, exec.
      destruct (Z.eqb_spec (exit_status e
                  ["find"; "."; "-name"; "*.py"; "-type"; "f"; "-exec";
                   "python"; "-m"; "py_compile"; "{}"; ";"]) 0) as [E|E];
        simpl; [reflexivity|]. now apply Z.eqb_neq. }
    unfold validate, job_ok. rewrite Hs.
    change (step_ok e (Uses "actions/checkout@v3"))
      with (action_ok e "actions/checkout@v3").
    change (step_ok e (Uses "actions/setup-python@v4"))
      with (action_ok e "actions/setup-python@v4").
    destruct (action_ok e "actions/checkout@v3"); [|reflexivity].
    destruct (action_ok e "actions/setup-python@v4"); [|reflexivity].
    destruct (exit_status e _ =? 0); [|reflexivity].
    unfold step_ok. now rewrite Hv.
Qed.
End WorkflowClaims.

(** C7 as stated fails: on a runner where the checkout action fails the
    job fails although no invocation of [python -m py_compile] does, and
    the same on a runner where the actions succeed and [find] itself
    exits 1. *)
Lemma job_fails_without_a_syntax_error :
  ((forall file,
       Workflow.exit_status Examples.checkout_fails
         ["python"; "-m"; "py_compile"; file] = 0)
   /\ Workflow.step_ok Examples.checkout_fails
        (Workflow.Run "Check Python syntax" Workflow.check_python_syntax)
      = true
   /\ Workflow.job_ok Examples.checkout_fails Workflow.validate = false)
  /\ ((forall file,
          Workflow.exit_status Examples.find_fails
            ["python"; "-m"; "py_compile"; file] = 0)
      /\ (forall action, Workflow.action_ok Examples.find_fails action = true)
      /\ Workflow.job_ok Examples.find_fails Workflow.validate = false).
Proof. repeat split. Qed.

(** * Further properties of the notebook and the workflow *)

(** ** Shapes through the model *)

Section ShapeFacts.
Local Open Scope nat_scope.
Import Shape Model.

Lemma conv_size_default h :
  conv_size h 3 1 1 = if 1 <=? h then Some h else None.
Proof.
  unfold conv_size. change ((1 =? 0) || (3 =? 0)) with false. cbn [orb].
  destruct (Nat.ltb_spec (h + 2 * 1) 3), (Nat.leb_spec 1 h);
    try lia; try reflexivity.
  f_equal. div_lia.
Qed.

Lemma pool_size_2 h :
  pool_size h 2 = if 2 <=? h then Some (h / 2) else None.
Proof.
  unfold pool_size. change (2 =? 0) with false. cbn [orb].
  destruct (Nat.ltb_spec h 2), (Nat.leb_spec 2 h);
    try lia; try reflexivity.
  f_equal. div_lia.
Qed.

Lemma broadcast_rev_same (a : Shape.t) : broadcast_rev a a = Some a.
Proof.
  induction a as [|x a IH]; [reflexivity|].
  simpl. rewrite Nat.eqb_refl. simpl. now rewrite IH.
Qed.

Lemma add_same (a : Shape.t) : Shape.add a a = Some a.
Proof.
  unfold Shape.add. rewrite broadcast_rev_same. simpl.
  now rewrite reverse_involutive.
Qed.

Lemma conv_block_needs_4d tr blk (x : Shape.t) :
  length x <> 4 -> conv_block_forward tr blk x = None.
Proof.
  intros Hx. unfold conv_block_forward.
  destruct x as [|a [|b [|c [|d [|e x]]]]]; try reflexivity.
  - unfold Conv2d.
    destruct ((a =? in_channels blk) && (1 <=? out_channels blk));
      [|reflexivity].
    destruct (conv_size b _ _ _); [|reflexivity].
    destruct (conv_size c _ _ _); reflexivity.
  - simpl in Hx. lia.
Qed.

Lemma conv_block_default tr c_in c_out n c h w :
  conv_block_forward tr (conv_block c_in c_out) [n; c; h; w]
  = if (c =? c_in) && (1 <=? c_out) && (1 <=? h) && (1 <=? w)
       && negb (tr && (n * h * w =? 1))
    then Some [n; c_out; h; w] else None.
Proof.
  unfold conv_block_forward, conv_block, use_residual, Conv2d.
  cbn [in_channels out_channels kernel_size stride padding].
  destruct (Nat.eqb_spec c c_in) as [->|]; [|reflexivity].
  destruct (1 <=? c_out); [|reflexivity]. cbn [andb].
  rewrite !conv_size_default.
  destruct (1 <=? h); [|reflexivity].
  destruct (1 <=? w); [|reflexivity].
  cbn [mbind option_bind andb]. unfold BatchNorm2d.
  rewrite (Nat.eqb_refl c_out). change (1 =? 1) with true.
  destruct (tr && (n * h * w =? 1)); [reflexivity|].
  cbn [andb negb mbind option_bind].
  destruct (Nat.eqb_spec c_in c_out) as [->|]; [|reflexivity].
  cbn [andb]. apply add_same.
Qed.

Lemma max_pool_2 n c h w :
  MaxPool2d 2 [n; c; h; w]
  = if (2 <=? h) && (2 <=? w) then Some [n; c; h / 2; w / 2] else None.
Proof.
  unfold MaxPool2d. rewrite !pool_size_2.
  destruct (2 <=? h), (2 <=? w); reflexivity.
Qed.

(** A block followed by [MaxPool2d(2)]. *)
Lemma stage_shape tr c_in c_out n c h w (rest : list layer) :
  sequential tr (Block (conv_block c_in c_out) :: Pool 2 :: rest) [n; c; h; w]
  = if (c =? c_in) && (1 <=? c_out) && (2 <=? h) && (2 <=? w)
    then sequential tr rest [n; c_out; h / 2; w / 2] else None.
Proof.
  cbn [sequential layer_forward]. rewrite conv_block_default.
  destruct (Nat.eqb_spec c c_in) as [->|]; [|reflexivity].
  destruct (1 <=? c_out); [|reflexivity].
  cbn [andb].
  destruct (Nat.leb_spec 2 h) as [Hh|Hh], (Nat.leb_spec 2 w) as [Hw|Hw];
    cbn [andb].
  - rewrite (proj2 (Nat.leb_le 1 h)), (proj2 (Nat.leb_le 1 w)) by lia.
    destruct (Nat.eqb_spec (n * h * w) 1) as [E|_];
      [apply Nat.eq_mul_1 in E; lia|].
    rewrite andb_false_r. cbn [andb negb mbind option_bind].
    rewrite max_pool_2.
    rewrite (proj2 (Nat.leb_le 2 h)), (proj2 (Nat.leb_le 2 w)) by lia.
    reflexivity.
  - destruct (_ && _ && _); [|reflexivity].
    cbn [mbind option_bind]. rewrite max_pool_2.
    rewrite (proj2 (Nat.leb_gt 2 w)) by lia. now rewrite andb_false_r.
  - destruct (_ && _ && _); [|reflexivity].
    cbn [mbind option_bind]. rewrite max_pool_2.
    now rewrite (proj2 (Nat.leb_gt 2 h)) by lia.
  - destruct (_ && _ && _); [|reflexivity].
    cbn [mbind option_bind]. rewrite max_pool_2.
    now rewrite (proj2 (Nat.leb_gt 2 h)) by lia.
Qed.

Lemma conv_layers_shape tr n c h w :
  sequential tr conv_layers [n; c; h; w]
  = if (c =? 1) && (16 <=? h) && (16 <=? w)
    then Some [n; 128; h / 16; w / 16] else None.
Proof.
  unfold conv_layers. rewrite stage_shape.
  destruct (Nat.eqb_spec c 1) as [->|]; [|reflexivity].
  cbn [andb].
  destruct (Nat.leb_spec 2 h); [|destruct (Nat.leb_spec 16 h); [lia|reflexivity]].
  destruct (Nat.leb_spec 2 w);
    [|destruct (Nat.leb_spec 16 w); [lia|rewrite !andb_false_r; reflexivity]].
  rewrite stage_shape, !Nat.eqb_refl. cbn [andb].
  destruct (Nat.leb_spec 2 (h / 2));
    [|destruct (Nat.leb_spec 16 h); [div_lia|reflexivity]].
  destruct (Nat.leb_spec 2 (w / 2));
    [|destruct (Nat.leb_spec 16 w); [div_lia|rewrite !andb_false_r; reflexivity]].
  rewrite stage_shape, !Nat.eqb_refl. cbn [andb].
  destruct (Nat.leb_spec 2 (h / 2 / 2));
    [|destruct (Nat.leb_spec 16 h); [div_lia|reflexivity]].
  destruct (Nat.leb_spec 2 (w / 2 / 2));
    [|destruct (Nat.leb_spec 16 w); [div_lia|rewrite !andb_false_r; reflexivity]].
  rewrite stage_shape, !Nat.eqb_refl. cbn [andb].
  destruct (Nat.leb_spec 2 (h / 2 / 2 / 2));
    [|destruct (Nat.leb_spec 16 h); [div_lia|reflexivity]].
  destruct (Nat.leb_spec 2 (w / 2 / 2 / 2));
    [|destruct (Nat.leb_spec 16 w); [div_lia|rewrite !andb_false_r; reflexivity]].
  destruct (Nat.leb_spec 16 h); [|div_lia].
  destruct (Nat.leb_spec 16 w); [|div_lia].
  cbn [sequential]. do 2 f_equal.
  replace (h / 2 / 2 / 2 / 2) with (h / 16) by div_lia.
  replace (w / 2 / 2 / 2 / 2) with (w / 16) by div_lia.
  reflexivity.
Qed.

Lemma attention_shape d b l f :
  attention_forward d [b; l; f]
  = if f =? d then Some ([b; l; d], [b; l; l]) else None.
Proof.
  unfold attention_forward, Linear. cbn [last length Nat.sub take app].
  destruct (Nat.eqb_spec f d) as [->|]; [|reflexivity].
  cbn [mbind option_bind transpose_1_2 bmm].
  rewrite !Nat.eqb_refl. cbn [andb mbind option_bind bmm].
  rewrite !Nat.eqb_refl. reflexivity.
Qed.
End ShapeFacts.

Section ModelShapes.
Local Open Scope nat_scope.
Import Shape Model.

Lemma forward_needs_4d tr ne (x : Shape.t) :
  length x <> 4 -> forward tr ne x = None.
Proof.
  intros Hx. unfold forward.
  destruct (x !! 0) as [b|]; [|reflexivity]. cbn [mbind option_bind].
  unfold conv_layers. cbn [sequential layer_forward].
  now rewrite conv_block_needs_4d.
Qed.

Lemma reshape_after_permute n l c h :
  reshape_infer n l [n; l; c; h]
  = if (1 <=? n) && (1 <=? l) then Some [n; l; c * h] else None.
Proof.
  unfold reshape_infer.
  destruct (Nat.leb_spec 1 n), (Nat.leb_spec 1 l); cbn [andb];
    try (replace (n * l) with 0 by nia; reflexivity).
  assert (Hnl : n * l <> 0) by nia.
  destruct (Nat.eqb_spec (n * l) 0); [contradiction|].
  replace (numel [n; l; c; h]) with (c * h * (n * l))
    by (unfold numel; cbn [foldr]; ring).
  rewrite Nat.Div0.mod_mul, Nat.div_mul by assumption. reflexivity.
Qed.

Lemma linear_2d f_in f_out n :
  Linear f_in f_out [n; f_in] = Some [n; f_out].
Proof.
  unfold Linear. cbn [last length Nat.sub take app].
  now rewrite Nat.eqb_refl.
Qed.

Lemma batch_norm_1d_2d tr c n :
  BatchNorm1d tr c [n; c]
  = if negb (tr && (n =? 1)) then Some [n; c] else None.
Proof. unfold BatchNorm1d. now rewrite Nat.eqb_refl. Qed.

(** After the GRU: attention, pooling over time and the three dense
    layers. *)
Lemma head_shape tr ne n l :
  (r ← attention_forward (gru_hidden_size * 2) [n; l; 256];
   let '(x, attention_weights) := r in
   x ← mean_dim_1 x;
   x ← Linear (gru_hidden_size * 2) 256 x;
   x ← BatchNorm1d tr 256 x;
   x ← Linear 256 128 x;
   x ← BatchNorm1d tr 128 x;
   x ← Linear 128 ne x;
   Some (x, attention_weights))
  = if negb (tr && (n =? 1)) then Some ([n; ne], [n; l; l]) else None.
Proof.
  change (gru_hidden_size * 2) with 256.
  rewrite attention_shape, Nat.eqb_refl.
  cbn [mbind option_bind mean_dim_1].
  rewrite linear_2d. cbn [mbind option_bind].
  rewrite batch_norm_1d_2d.
  destruct (negb (tr && (n =? 1))) eqn:E; [|reflexivity].
  cbn [mbind option_bind].
  rewrite linear_2d. cbn [mbind option_bind].
  rewrite batch_norm_1d_2d, E. cbn [mbind option_bind].
  now rewrite linear_2d.
Qed.

(** X13.  [EnhancedEmotionModel.forward] returns exactly for inputs
    [(n, 1, h, w)] with [16 <= h < 32], [w >= 16] and a non-empty batch
    (of at least two samples in training mode); it then returns logits
    of shape [(n, num_emotions)] and attention weights of shape
    [(n, w // 16, w // 16)].  Any other input raises. *)
Theorem forward_shape tr ne :
  (forall n c h w,
      forward tr ne [n; c; h; w]
      = if (c =? 1) && (16 <=? h) && (h <? 32) && (16 <=? w)
           && (1 <=? n) && negb (tr && (n =? 1))
        then Some ([n; ne], [n; w / 16; w / 16]) else None)
  /\ (forall x : Shape.t, length x <> 4 -> forward tr ne x = None).
Proof.
  split; [|intros x; apply forward_needs_4d].
  intros n c h w. unfold forward.
  change ([n; c; h; w] !! 0) with (Some n). cbn [mbind option_bind].
  rewrite conv_layers_shape.
  destruct (Nat.eqb_spec c 1) as [->|]; [|reflexivity].
  destruct (Nat.leb_spec 16 h) as [Hh|Hh]; [|reflexivity].
  destruct (Nat.ltb_spec h 32) as [Hh'|Hh'];
    destruct (Nat.leb_spec 16 w) as [Hw|Hw]; try reflexivity;
    cbn [andb mbind option_bind permute_0_3_1_2];
    change ([n; w / 16; 128; h / 16] !! 1) with (Some (w / 16));
    cbn [mbind option_bind]; rewrite reshape_after_permute;
    rewrite (proj2 (Nat.leb_le 1 (w / 16))) by div_lia;
    destruct (Nat.leb_spec 1 n) as [Hn|Hn]; try reflexivity;
    cbn [andb mbind option_bind]; unfold GRU;
    rewrite (proj2 (Nat.leb_le 1 (w / 16))) by div_lia.
  - replace (h / 16) with 1 by div_lia.
    change (128 * 1 =? 128) with true. cbn [andb mbind option_bind].
    change (2 * gru_hidden_size) with 256.
    apply head_shape.
  - destruct (Nat.eqb_spec (128 * (h / 16)) 128) as [E|_]; [div_lia|].
    reflexivity.
Qed.

(** X14.  A spectrogram with the extractor's default 128 mel bins, the "typical
    mel spectrogram with (128, 130) dims" of the code's own comment, does
    not pass: the GRU is built for 128 input features and receives
    128 * 8. *)
Theorem default_spectrogram_is_rejected tr ne n w :
  forward tr ne [n; 1; 128; w] = None
  /\ (16 <= w ->
      sequential tr conv_layers [n; 1; 128; w] = Some [n; 128; 8; w / 16]).
Proof.
  split.
  - rewrite (proj1 (forward_shape tr ne)).
    change (128 <? 32) with false. now rewrite !andb_false_r.
  - intros Hw. rewrite conv_layers_shape.
    rewrite (proj2 (Nat.leb_le 16 w)) by assumption. reflexivity.
Qed.

(** X15.  [ConvBlock(c_in, c_out)] with the default kernel, at least one
    input channel and a non-empty batch keeps the height and width and
    maps [c_in] channels to [c_out]; it rejects another number of
    channels, a block without output channels, an empty height or width
    and, in training mode, a single value per channel.  The skip
    connection is taken exactly when [c_in = c_out], and none of the four
    blocks of [EnhancedEmotionModel] takes it. *)
Theorem conv_block_shape tr c_in c_out n c h w :
  1 <= c_in -> 1 <= n ->
  conv_block_forward tr (conv_block c_in c_out) [n; c; h; w]
  = (if (c =? c_in) && (1 <=? c_out) && (1 <=? h) && (1 <=? w)
        && negb (tr && (n * h * w =? 1))
     then Some [n; c_out; h; w] else None)
  /\ use_residual (conv_block c_in c_out) = (c_in =? c_out)
  /\ Forall (fun l => match l with
                      | Block blk => use_residual blk = false
                      | Pool _ => True
                      end) conv_layers.
Proof.
  intros _ _. split; [apply conv_block_default|]. split.
  - unfold use_residual, conv_block. cbn. now rewrite andb_true_r.
  - unfold conv_layers. repeat constructor.
Qed.

(** X16.  [SelfAttention(d).forward] accepts exactly the 3-D inputs whose last
    dimension is [d]; the output has the shape of the input and the
    attention weights are square in the sequence length. *)
Theorem attention_weights_are_square d :
  (forall b l f,
      attention_forward d [b; l; f]
      = if f =? d then Some ([b; l; d], [b; l; l]) else None)
  /\ (forall x : Shape.t, length x <> 3 -> attention_forward d x = None).
Proof.
  split; [intros; apply attention_shape|].
  intros x Hx. unfold attention_forward.
  destruct x as [|a [|b [|c [|e x]]]]; try reflexivity.
  simpl in Hx. lia.
Qed.
End ModelShapes.

(** ** The schedule over many steps *)

Section ScheduleFacts.
Context {F : Type} `{PyFloat F} {OS : Type}.
Import Scheduler.

Lemma advances_add a b (s : Scheduler.t F) :
  advances (a + b) s = advances b (advances a s).
Proof.
  revert s. induction a as [|a IH]; intros s; [reflexivity|].
  simpl. apply IH.
Qed.

Lemma advances_T_mult n (s : Scheduler.t F) :
  T_mult (advances n s) = T_mult s.
Proof.
  revert s. induction n as [|n IH]; intros s; [reflexivity|].
  simpl. now rewrite IH, advance_T_mult.
Qed.

Lemma advances_last_epoch n (s : Scheduler.t F) :
  last_epoch (advances n s) = last_epoch s + Z.of_nat n.
Proof.
  revert s. induction n as [|n IH]; intros s; [simpl; lia|].
  simpl advances. rewrite IH. unfold advance.
  destruct (T_cur s + 1 =? T_0 s); simpl; lia.
Qed.

(** Inside a period the position moves by one per step. *)
Lemma advances_inside (j : nat) (s : Scheduler.t F) :
  T_cur s + Z.of_nat j < T_0 s ->
  T_cur (advances j s) = T_cur s + Z.of_nat j
  /\ T_0 (advances j s) = T_0 s.
Proof.
  induction j as [|j IH]; intros Hj; [simpl; lia|].
  rewrite advances_S. destruct IH as [Ec E0]; [lia|].
  unfold advance. rewrite Ec, E0.
  destruct (Z.eqb_spec (T_cur s + Z.of_nat j + 1) (T_0 s)); simpl; lia.
Qed.

(** X1.  A period lasts exactly [T_0] steps: from a position inside the
    period the position moves by one per step and [T_0] stays, until the
    step that takes the position to [T_0], which restarts at 0 with
    [T_0 * T_mult]; [last_epoch] counts every step. *)
Theorem period_lasts_T_0_steps (s : Scheduler.t F) :
  T_cur s < T_0 s ->
  let d := Z.to_nat (T_0 s - 1 - T_cur s) in
  (forall j : nat, (j <= d)%nat ->
     T_cur (advances j s) = T_cur s + Z.of_nat j
     /\ T_0 (advances j s) = T_0 s)
  /\ T_cur (advances (S d) s) = 0
  /\ T_0 (advances (S d) s) = T_0 s * T_mult s
  /\ forall n : nat, last_epoch (advances n s) = last_epoch s + Z.of_nat n.
Proof.
  intros Hc d. split; [|split; [|split]].
  - intros j Hj. apply advances_inside. lia.
  - rewrite advances_S. destruct (advances_inside d s) as [Ec E0]; [lia|].
    unfold advance. rewrite Ec, E0.
    destruct (Z.eqb_spec (T_cur s + Z.of_nat d + 1) (T_0 s)); simpl; lia.
  - rewrite advances_S. destruct (advances_inside d s) as [Ec E0]; [lia|].
    unfold advance. rewrite Ec, E0, advances_T_mult.
    destruct (Z.eqb_spec (T_cur s + Z.of_nat d + 1) (T_0 s)); simpl; lia.
  - intros n. apply advances_last_epoch.
Qed.

Lemma one_period (s : Scheduler.t F) :
  T_cur s = 0 -> 1 <= T_0 s ->
  T_cur (advances (Z.to_nat (T_0 s)) s) = 0
  /\ T_0 (advances (Z.to_nat (T_0 s)) s) = T_0 s * T_mult s.
Proof.
  intros Hc H0.
  replace (Z.to_nat (T_0 s)) with (S (Z.to_nat (T_0 s - 1 - T_cur s))) by lia.
  rewrite advances_S.
  destruct (advances_inside (Z.to_nat (T_0 s - 1 - T_cur s)) s) as [Ec E0];
    [lia|].
  unfold advance. rewrite Ec, E0, advances_T_mult.
  destruct (Z.eqb_spec (T_cur s + Z.of_nat (Z.to_nat (T_0 s - 1 - T_cur s)) + 1)
              (T_0 s)); simpl; lia.
Qed.

Lemma periods_total_nonneg P M k : 1 <= P -> 1 <= M -> 0 <= periods_total P M k.
Proof.
  intros HP HM. induction k as [|k IH]; simpl; [lia|].
  assert (0 < M ^ Z.of_nat k) by (apply Z.pow_pos_nonneg; lia). nia.
Qed.

(** X2.  The restarts of a schedule started at the beginning of a period
    of [P] steps with multiplier [M]: after [P + P*M + ... + P*M^(k-1)]
    steps the scheduler is at position 0 of a period of [P * M^k] steps. *)
Theorem restart_after_k_periods (s : Scheduler.t F) (k : nat) :
  T_cur s = 0 -> 1 <= T_0 s -> 1 <= T_mult s ->
  let n := Z.to_nat (periods_total (T_0 s) (T_mult s) k) in
  T_cur (advances n s) = 0
  /\ T_0 (advances n s) = T_0 s * T_mult s ^ Z.of_nat k.
Proof.
  intros Hc H0 Hm. induction k as [|k IH]; cbn zeta.
  - simpl. split; [assumption|]. lia.
  - cbn zeta in IH. destruct IH as [Ec E0].
    assert (Hpos : 0 < T_mult s ^ Z.of_nat k) by (apply Z.pow_pos_nonneg; lia).
    pose proof (periods_total_nonneg (T_0 s) (T_mult s) k H0 Hm) as Hnn.
    simpl periods_total. rewrite Z2Nat.inj_add by nia.
    rewrite advances_add.
    set (s1 := advances (Z.to_nat (periods_total (T_0 s) (T_mult s) k)) s) in *.
    rewrite <- E0.
    destruct (one_period s1 Ec) as [Ec' E0']; [nia|].
    split; [exact Ec'|]. rewrite E0'. unfold s1 at 2.
    rewrite advances_T_mult, E0.
    rewrite Nat2Z.inj_succ, Z.pow_succ_r by lia. ring.
Qed.

(** X3.  A scheduler whose position is at or past its period (one
    constructed with [last_epoch >= T_0], or with a negative [T_0])
    never restarts: [T_0] stays and the position grows by one per step. *)
Theorem no_restart_past_the_period (s : Scheduler.t F) (n : nat) :
  T_0 s <= T_cur s ->
  T_0 (advances n s) = T_0 s
  /\ T_cur (advances n s) = T_cur s + Z.of_nat n.
Proof.
  intros Hc. induction n as [|n [E0 Ec]]; [simpl; lia|].
  rewrite advances_S. unfold advance. rewrite E0, Ec.
  destruct (Z.eqb_spec (T_cur s + Z.of_nat n + 1) (T_0 s)); simpl; lia.
Qed.

(** X4.  [CosineAnnealingWarmRestarts(optimizer, T_0=0, ...)] cannot be
    constructed on an optimizer with a parameter group: the step the
    constructor takes restarts at once with [T_0 = 0] and the learning
    rate divides by it. *)
Theorem zero_period_cannot_be_constructed
  (Tmult : Z) (etamin : F) (o : Optim.t F OS) :
  Optim.param_groups o <> [] ->
  Forall (fun g : gmap string F => is_Some (g !! "lr")) (Optim.param_groups o) ->
  create 0 Tmult etamin (-1) o = Raise ZeroDivisionError.
Proof.
  intros Hne Hlr. unfold create, base_init.
  change (last_epoch (init_fields 0 Tmult etamin (-1)) =? -1) with true.
  cbv iota.
  destruct (comprehension_ok setdefault_initial_lr
              (fun g : gmap string F => is_Some (g !! "lr"))
              (fun g : gmap string F => is_Some (g !! "initial_lr"))
              (Optim.param_groups o)) as (gs & Eg & Hgs); [|assumption|].
  { intros g [lr Hg]. unfold setdefault_initial_lr.
    destruct (g !! "initial_lr") as [x|] eqn:Ei.
    - exists g. split; [reflexivity|]. rewrite Ei. eauto.
    - rewrite Hg. eexists. split; [reflexivity|].
      rewrite lookup_insert_eq. eauto. }
  rewrite Eg.
  destruct (comprehension_ok initial_lr_of
              (fun g : gmap string F => is_Some (g !! "initial_lr"))
              (fun _ : F => True) gs) as (bs & Eb & _); [|assumption|].
  { intros g [x Hg]. unfold initial_lr_of. rewrite Hg. eauto. }
  rewrite Eb. unfold step.
  rewrite get_lr_zero; [reflexivity|reflexivity|exact fits_float_zero|].
  rewrite advance_base_lrs. simpl.
  apply comprehension_length in Eg, Eb.
  destruct bs; [|discriminate].
  destruct (Optim.param_groups o); [contradiction|].
  simpl in *. lia.
Qed.
End ScheduleFacts.

(** ** More about [train_enhanced_model] and [evaluate_model] *)

Section TrainingFacts.
Context {F : Type} `{PyFloat F} `{Torch F}.
Import Nn Training.

(** On a framework that never raises, a pass can only fail on its
    divisions. *)
Lemma train_phase_never_torch m (l : list batch) (w : world) e :
  never_raises -> train_phase m l w = Raise e -> e = ZeroDivisionError.
Proof.
  intros Hnr. unfold train_phase. unfold Py.bind at 1. unfold train, modify.
  destruct (train_loop_total m l Hnr stats0 (set_training <[m := true]> w))
    as (a & w1 & El).
  rewrite (bind_ok _ _ _ _ _ El). unfold lift.
  destruct (summarize (len l) a) as [r|e'] eqn:Es; [discriminate|].
  intros R. inversion R; subst e'. now apply summarize_raises in Es as [-> _].
Qed.

Lemma val_phase_never_torch m (l : list batch) (w : world) e :
  never_raises -> val_phase m l w = Raise e -> e = ZeroDivisionError.
Proof.
  intros Hnr. rewrite val_phase_exact.
  destruct (val_stats_total_ok (parameters w m) l Hnr stats0) as [a ->].
  destruct (summarize (len l) a) as [r|e'] eqn:Es; [discriminate|].
  intros R. inversion R; subst e'. now apply summarize_raises in Es as [-> _].
Qed.

Lemma epoch_body_no_samples m (tl vl : list batch) (l : locals) (w : world) :
  never_raises -> ~ (has_sample tl /\ has_sample vl) ->
  epoch_body state_dict m tl vl l w = Raise ZeroDivisionError.
Proof.
  intros Hnr Hn. unfold epoch_body.
  destruct (train_phase m tl w) as [[[tlv ta] w1]|e] eqn:Et.
  - rewrite (bind_ok _ _ _ _ _ Et).
    destruct (train_phase_returns _ _ _ _ _ Et) as (Htl & _).
    destruct (val_phase m vl w1) as [[[vlv va] w2]|e] eqn:Ev.
    + destruct (val_phase_returns _ _ _ _ _ Ev) as (Hvl & _).
      exfalso. apply Hn. now split.
    + rewrite (bind_raise _ _ _ _ Ev).
      now rewrite (val_phase_never_torch _ _ _ _ Hnr Ev).
  - rewrite (bind_raise _ _ _ _ Et).
    now rewrite (train_phase_never_torch _ _ _ _ Hnr Et).
Qed.

(** X5.  [train_enhanced_model] returns only if there is no epoch to run
    or both loaders yield a sample: a loader that yields nothing, or only
    empty batches, never lets it return.  On a framework none of whose
    calls raises, and with a number of epochs within the range of a
    float, this is exact: the call returns whenever there is no epoch to
    run or both loaders yield a sample, and in every other case it raises
    [ZeroDivisionError]. *)
Theorem training_returns_exactly_when_sampled m (tl vl : list batch)
  (num_epochs : nat) (lr : F) (w : world) :
  (is_ok (train_enhanced_model m tl vl num_epochs lr w) = true ->
   num_epochs = 0%nat \/ (has_sample tl /\ has_sample vl))
  /\ (never_raises -> Z.of_nat num_epochs + 10 < float_limit ->
      num_epochs = 0%nat \/ (has_sample tl /\ has_sample vl) ->
      is_ok (train_enhanced_model m tl vl num_epochs lr w) = true)
  /\ (never_raises -> num_epochs <> 0%nat ->
      ~ (has_sample tl /\ has_sample vl) ->
      train_enhanced_model m tl vl num_epochs lr w
      = Raise ZeroDivisionError).
Proof.
  destruct (train_after_setup m tl vl num_epochs lr w) as (w2 & Es & Hc & E).
  destruct (setup_scheduler _ _ _ Es) as (Hcur & HT0 & Hm & Hl).
  rewrite E. split; [|split].
  - intros Hok. destruct num_epochs as [|n]; [now left|right].
    destruct (epochs state_dict m tl vl (S n) locals0 observed0 w2)
      as [r|e] eqn:El; [|discriminate].
    exact (epochs_returns _ _ _ _ _ _ _ _ El).
  - intros Hnr Hlim [->|[Htl Hvl]]; [reflexivity|].
    destruct (epochs_ok m tl vl num_epochs Hnr Htl Hvl locals0 observed0 w2)
      as ([l o] & w3 & El); [assumption|assumption|lia|lia|].
    now rewrite El.
  - intros Hnr Hn Hs. destruct num_epochs as [|n]; [contradiction|].
    now rewrite (epochs_first_raises m tl vl n locals0 observed0 w2 _
                   (epoch_body_no_samples m tl vl locals0 w2 Hnr Hs)).
Qed.

(** The lists a returning test pass has built. *)
Lemma test_stats_lists p (l : list batch) :
  forall a a' : eval_acc,
    test_stats p l a = Some a' ->
    all_targets a' = all_targets a ++ concat (map targets l)
    /\ exists pss,
         Forall2 (fun b ps => eval_predictions p b = Some ps) l pss
         /\ all_preds a' = all_preds a ++ concat pss.
Proof.
  induction l as [|b l IH]; intros a a' E.
  - inversion E; subst. split; [now rewrite app_nil_r|].
    exists []. split; [constructor|now rewrite app_nil_r].
  - cbn [test_stats] in E.
    destruct (test_step p b a) as [a1|] eqn:E1; [|discriminate].
    cbn [mbind option_bind] in E.
    apply IH in E as (Et & pss & Hf & Ep).
    unfold test_step in E1.
    destruct (eval_predictions p b) as [ps|] eqn:Eps; [|discriminate].
    cbn [mbind option_bind] in E1.
    destruct (num_correct ps b) as [c|]; [|discriminate].
    inversion E1; subst a1; clear E1. simpl in Et, Ep.
    split; [simpl; now rewrite Et, <- app_assoc|].
    exists (ps :: pss). split; [now constructor|].
    simpl. now rewrite Ep, <- app_assoc.
Qed.

(** A test pass goes through exactly when every batch passes the model
    and the comparison with its targets. *)
Lemma test_stats_some p (l : list batch) :
  forall a : eval_acc,
    is_Some (test_stats p l a)
    <-> Forall (fun b => exists ps, eval_predictions p b = Some ps
                                    /\ is_Some (num_correct ps b)) l.
Proof.
  induction l as [|b l IH]; intros a.
  - split; [constructor|now exists a].
  - cbn [test_stats]. unfold test_step.
    destruct (eval_predictions p b) as [ps|] eqn:Eps; cbn [mbind option_bind].
    + destruct (num_correct ps b) as [c|] eqn:Ec; cbn [mbind option_bind].
      * rewrite IH. split.
        -- intros Hl. constructor; [|assumption].
           exists ps. split; [assumption|]. rewrite Ec. eauto.
        -- now inversion 1.
      * split; [intros [x Hx]; discriminate|].
        inversion 1 as [|? ? (ps' & E' & [c Hc']) _]; subst.
        rewrite Eps in E'. inversion E'; subst ps'.
        rewrite Ec in Hc'. discriminate.
    + split; [intros [x Hx]; discriminate|].
      inversion 1 as [|? ? (ps' & E' & _) _]; subst.
      rewrite Eps in E'. discriminate.
Qed.

Lemma samples_concat (l : list batch) :
  Z.of_nat (length (concat (map targets l))) = samples l.
Proof.
  induction l as [|b l IH]; [reflexivity|].
  simpl. rewrite length_app, Nat2Z.inj_add, IH. reflexivity.
Qed.

(** X6.  When [evaluate_model] returns, the loader has yielded a sample,
    the targets are those of the batches in loader order, one per sample,
    the predictions are those of the evaluation-mode forward pass with the
    parameters the model had at the call, in the same order, and the model
    is left in evaluation mode with nothing else changed.  It returns
    exactly when every batch passes the model and the comparison with its
    targets and the loader yields a sample, and it raises
    [ZeroDivisionError] exactly when every batch passes and the loader
    yields no sample. *)
Theorem evaluate_model_outputs m (l : list batch) (w : world) :
  let p := parameters w m in
  (forall acc preds tgts w',
      evaluate_model m l w = Ok ((acc, preds, tgts), w') ->
      has_sample l
      /\ tgts = concat (map targets l)
      /\ (exists pss,
             Forall2 (fun b ps => eval_predictions p b = Some ps) l pss
             /\ preds = concat pss)
      /\ w' = set_training <[m := false]> w)
  /\ (is_ok (evaluate_model m l w) = true <->
      is_Some (test_stats p l eval_acc0) /\ has_sample l)
  /\ (evaluate_model m l w = Raise ZeroDivisionError <->
      is_Some (test_stats p l eval_acc0) /\ ~ has_sample l)
  /\ (is_Some (test_stats p l eval_acc0) <->
      Forall (fun b => exists ps, eval_predictions p b = Some ps
                                  /\ is_Some (num_correct ps b)) l)
  /\ Z.of_nat (length (concat (map targets l))) = samples l
  /\ is_training (set_training <[m := false]> w) m = false.
Proof.
  intros p. subst p. rewrite evaluate_model_exact.
  split; [|split; [|split; [|split; [|split]]]].
  - intros acc preds tgts w'.
    destruct (test_stats (parameters w m) l eval_acc0) as [a|] eqn:Ea;
      [|discriminate].
    pose proof (test_stats_total _ _ _ _ Ea) as Ht. simpl in Ht.
    destruct (test_stats_lists _ _ _ _ Ea) as (Etg & pss & Hf & Ep).
    simpl in Etg, Ep. unfold truediv.
    destruct (Z.eqb_spec (test_total a) 0) as [Ez|Ez]; [discriminate|].
    intros E. inversion E; subst.
    split; [apply samples_has_sample; lia|].
    split; [assumption|]. split; [now exists pss|reflexivity].
  - destruct (test_stats (parameters w m) l eval_acc0) as [a|] eqn:Ea.
    + pose proof (test_stats_total _ _ _ _ Ea) as Ht. simpl in Ht.
      unfold truediv.
      destruct (Z.eqb_spec (test_total a) 0) as [Ez|Ez]; simpl.
      * split; [discriminate|]. intros [_ Hl].
        apply has_sample_samples in Hl. lia.
      * split; [|reflexivity]. intros _.
        split; [eauto|apply samples_has_sample; lia].
    + split; [discriminate|]. intros [[a Ha] _]. discriminate.
  - destruct (test_stats (parameters w m) l eval_acc0) as [a|] eqn:Ea.
    + pose proof (test_stats_total _ _ _ _ Ea) as Ht. simpl in Ht.
      unfold truediv.
      destruct (Z.eqb_spec (test_total a) 0) as [Ez|Ez].
      * split; [|reflexivity]. intros _.
        split; [eauto|apply no_samples; lia].
      * split; [discriminate|]. intros [_ Hl]. exfalso. apply Hl.
        apply samples_has_sample. lia.
    + split; [discriminate|]. intros [[a Ha] _]. discriminate.
  - apply test_stats_some.
  - apply samples_concat.
  - apply eval_mode_after_eval.
Qed.

Lemma epochs_world m (tl vl : list batch) n :
  forall (l : locals) (o : observed) (w : world) l' o' w',
    epochs state_dict m tl vl n l o w = Ok ((l', o'), w') ->
    exists k : nat,
      epochs_run o' = (epochs_run o + k)%nat
      /\ scheduler w' = Scheduler.advances k (scheduler w)
      /\ (n <> 0%nat -> k <> 0%nat)
      /\ (k = 0%nat -> w' = w)
      /\ (k <> 0%nat -> is_training w' m = false).
Proof.
  induction n as [|n IH]; intros l o w l' o' w' E.
  - inversion E; subst. exists 0%nat.
    split; [lia|]. split; [reflexivity|]. split; [congruence|].
    split; [reflexivity|congruence].
  - simpl in E. apply bind_inv in E as ([l1 f] & w1 & Eb & E).
    unfold Py.bind, get in E.
    destruct (epoch_body_world _ _ _ _ _ _ _ _ Eb) as (Hs & Hm & _).
    destruct f.
    + apply IH in E as (k & Hk & Hsk & _ & Hk0 & Hkm).
      exists (S k). simpl in Hk.
      split; [lia|]. split; [simpl; now rewrite Hsk, Hs|].
      split; [lia|]. split; [lia|].
      intros _. destruct k as [|k]; [now rewrite Hk0|now apply Hkm].
    + inversion E; subst. exists 1%nat. simpl.
      split; [lia|]. split; [now rewrite Hs|]. split; [lia|].
      split; [lia|]. now intros _.
Qed.

(** X7.  After a call with at least one epoch to run, the model is left
    in evaluation mode: the last phase of every epoch is the validation
    phase, and restoring the checkpoint does not touch the mode. *)
Theorem training_leaves_evaluation_mode m (tl vl : list batch)
  (num_epochs : nat) (lr : F) (w w' : world) r :
  train_enhanced_model m tl vl num_epochs lr w = Ok (r, w') ->
  num_epochs <> 0%nat ->
  is_training w' m = false.
Proof.
  intros E Hn.
  destruct (train_after_setup m tl vl num_epochs lr w) as (w2 & _ & _ & Eu).
  rewrite Eu in E.
  destruct (epochs state_dict m tl vl num_epochs locals0 observed0 w2)
    as [[[l o] w3]|e] eqn:El; [|discriminate].
  apply epochs_world in El as (k & _ & _ & Hk & _ & Hm).
  inversion E; subst.
  specialize (Hm (Hk Hn)).
  now destruct (best_model_state l).
Qed.

(** X8.  Early stopping needs ten epochs: a returning run has run all
    [num_epochs] epochs, or it has stopped early after at least ten; in
    particular with fewer than ten epochs requested the history always has
    [num_epochs] entries. *)
Theorem early_stopping_needs_ten_epochs m (tl vl : list batch)
  (num_epochs : nat) (lr : F) (w w' : world) m' h :
  train_enhanced_model m tl vl num_epochs lr w = Ok ((m', h), w') ->
  exists vs,
    h !! "val_loss" = Some vs
    /\ (length vs = num_epochs
        \/ (10 <= length vs /\ length vs < num_epochs)%nat)
    /\ ((num_epochs < 10)%nat -> length vs = num_epochs).
Proof.
  intros E. destruct (train_observed_drop _ _ _ _ _ _ _ _ _ E) as [o Eo].
  destruct (train_result _ _ _ _ _ _ _ _ _ _ Eo)
    as (l & w3 & _ & -> & I & R & Le & B1 & B2 & _).
  destruct I as (_ & _ & _ & Hc & _).
  pose proof (streak_le (val_losses l) (length (val_losses l))) as Hs.
  exists (val_losses l). split; [apply history_lookups|].
  unfold patience in *. rewrite R in *.
  destruct (broke o).
  - specialize (B1 eq_refl).
    assert (10 <= length (val_losses l))%nat by lia.
    split; [|lia].
    destruct (Nat.eq_dec (length (val_losses l)) num_epochs); [now left|].
    right. lia.
  - destruct (B2 eq_refl) as [_ B]. split; [now left|]. intros _. exact B.
Qed.
End TrainingFacts.

Section TrainingSchedule.
Context {F : Type} `{PyFloat F} `{Torch F}.
Import Nn Training.

(** X9.  [scheduler.step()] is called once per epoch: after a returning
    run the scheduler is the one set up at the start (position 0 of a
    first period of 10, multiplier 2), advanced by as many steps as epochs
    have run.  So [last_epoch] is the number of epochs run, during the
    first nine epochs the position is the epoch count, and the tenth
    epoch restarts the schedule with a period of 20. *)
Theorem scheduler_steps_once_per_epoch m (tl vl : list batch)
  (num_epochs : nat) (lr : F) (w w' : world) m' h o :
  train_enhanced_model_observed m tl vl num_epochs lr w
    = Ok ((m', h, o), w') ->
  (exists s1,
      Scheduler.T_cur s1 = 0 /\ Scheduler.T_0 s1 = 10
      /\ Scheduler.T_mult s1 = 2 /\ Scheduler.last_epoch s1 = 0
      /\ scheduler w' = Scheduler.advances (epochs_run o) s1)
  /\ Scheduler.last_epoch (scheduler w') = Z.of_nat (epochs_run o)
  /\ ((epochs_run o < 10)%nat ->
      Scheduler.T_cur (scheduler w') = Z.of_nat (epochs_run o)
      /\ Scheduler.T_0 (scheduler w') = 10)
  /\ (epochs_run o = 10%nat ->
      Scheduler.T_cur (scheduler w') = 0
      /\ Scheduler.T_0 (scheduler w') = 20).
Proof.
  intros E.
  destruct (train_inv _ _ _ _ _ _ _ _ _ _ E)
    as (l & w2 & w3 & Es & El & _ & _ & ->).
  destruct (setup_scheduler _ _ _ Es) as (Hc & HT0 & Hm & Hl).
  apply epochs_world in El as (k & Hk & Hs & _).
  simpl in Hk. subst k.
  assert (Hw : scheduler (match best_model_state l with
                          | Some sd =>
                              set_tensors
                                <[m := tensors w3 !!! sd_storage sd]> w3
                          | None => w3
                          end)
               = Scheduler.advances (epochs_run o) (scheduler w2))
    by (now destruct (best_model_state l)).
  rewrite Hw. split; [|split; [|split]].
  - exists (scheduler w2). now repeat split.
  - rewrite advances_last_epoch. lia.
  - intros Hlt.
    destruct (advances_inside (epochs_run o) (scheduler w2)) as [Ec E0];
      lia.
  - intros ->.
    destruct (one_period (scheduler w2) Hc) as [Ec E0]; [lia|].
    rewrite HT0 in Ec, E0. change (Z.to_nat 10) with 10%nat in Ec, E0.
    rewrite Hm in E0. now split.
Qed.
End TrainingSchedule.

(** ** More about the feature extractor and the dataset *)

Section ExtractorFacts.
Context {E X : Type}.
Variable convert : Features.dtype -> X -> E.
Variable mel_transform amplitude_to_db : Features.Tensor E -> Features.Tensor E.
Import Features.

(** X10.  The mel transform never receives a 1-dimensional tensor, a
    batch dimension is not added twice, and adding it changes neither the
    data nor the dtype; a tensor without dimensions (a scalar) is passed
    on as it is. *)
Theorem mel_input_is_never_1d (w : waveform E X) (t : Tensor E) :
  call convert mel_transform amplitude_to_db w
  = amplitude_to_db
      (mel_transform (add_batch_dimension (ensure_tensor convert w)))
  /\ dim (add_batch_dimension t) <> 1%nat
  /\ add_batch_dimension (add_batch_dimension t) = add_batch_dimension t
  /\ t_data (add_batch_dimension t) = t_data t
  /\ t_dtype (add_batch_dimension t) = t_dtype t
  /\ (dim t = 0%nat -> add_batch_dimension t = t).
Proof.
  split; [reflexivity|].
  assert (Hd : dim (add_batch_dimension t) <> 1%nat).
  { unfold add_batch_dimension.
    destruct (Nat.eqb_spec (dim t) 1) as [E1|E1]; [|assumption].
    unfold dim in *. simpl. lia. }
  split; [exact Hd|]. split; [|split; [|split]].
  - unfold add_batch_dimension at 1.
    now destruct (Nat.eqb_spec (dim (add_batch_dimension t)) 1).
  - unfold add_batch_dimension. now destruct (Nat.eqb (dim t) 1).
  - unfold add_batch_dimension. now destruct (Nat.eqb (dim t) 1).
  - intros H0. unfold add_batch_dimension. now rewrite H0.
Qed.
End ExtractorFacts.

Section DatasetFacts.
Context {E X Path Label : Type}.
Variable librosa_load : Path -> option (Features.ndarray X).
Variable convert : Features.dtype -> X -> E.
Variable infer_dtype : Features.ndarray X -> Features.dtype.
Import Dataset.

Lemma getitem_list_in_range {A} (l : list A) (i : nat) a :
  l !! i = Some a -> getitem_list l (Z.of_nat i) = Returns a.
Proof.
  intros Hi. pose proof (lookup_lt_Some _ _ _ Hi) as Hlt.
  unfold getitem_list.
  destruct (Z.ltb_spec (Z.of_nat i) 0); [lia|].
  destruct (Z.leb_spec 0 (Z.of_nat i)); [|lia].
  destruct (Z.ltb_spec (Z.of_nat i) (Z.of_nat (length l))); [|lia].
  cbn [andb]. now rewrite Nat2Z.id, Hi.
Qed.

Lemma getitem_list_negative {A} (l : list A) (idx : Z) :
  - Z.of_nat (length l) <= idx < 0 ->
  getitem_list l idx = getitem_list l (idx + Z.of_nat (length l)).
Proof.
  intros Hi. unfold getitem_list.
  destruct (Z.ltb_spec idx 0); [|lia].
  destruct (Z.ltb_spec (idx + Z.of_nat (length l)) 0); [lia|].
  reflexivity.
Qed.

Lemma getitem_list_out_of_range {A} (l : list A) (idx : Z) :
  idx < - Z.of_nat (length l) \/ Z.of_nat (length l) <= idx ->
  getitem_list l idx = Raises IndexError.
Proof.
  intros Hi. unfold getitem_list.
  destruct (Z.ltb_spec idx 0).
  - destruct (Z.leb_spec 0 (idx + Z.of_nat (length l))); [|reflexivity].
    destruct (Z.ltb_spec (idx + Z.of_nat (length l)) (Z.of_nat (length l)));
      [lia|reflexivity].
  - destruct (Z.leb_spec 0 idx); [|lia].
    destruct (Z.ltb_spec idx (Z.of_nat (length l))); [lia|reflexivity].
Qed.

(** X11.  [__getitem__] raises [IndexError] for an index outside
    [-len(audio_files), len(audio_files))], and never returns for an
    index outside the range of [labels]; [__len__] counts the files only,
    so with fewer labels than files the index [len(labels)] is below
    [__len__] and still raises. *)
Theorem getitem_index_errors (d : Dataset.t E X Path Label) (idx : Z) :
  (idx < - len d \/ len d <= idx ->
   getitem librosa_load convert infer_dtype d idx = Raises IndexError)
  /\ (idx < - Z.of_nat (length (labels d))
      \/ Z.of_nat (length (labels d)) <= idx ->
      exists e, getitem librosa_load convert infer_dtype d idx = Raises e)
  /\ ((length (labels d) < length (audio_files d))%nat ->
      0 <= Z.of_nat (length (labels d)) < len d
      /\ exists e,
          getitem librosa_load convert infer_dtype d
            (Z.of_nat (length (labels d))) = Raises e).
Proof.
  assert (Hlab : forall i,
             i < - Z.of_nat (length (labels d))
             \/ Z.of_nat (length (labels d)) <= i ->
             exists e, getitem librosa_load convert infer_dtype d i = Raises e).
  { intros i Hi. unfold getitem.
    destruct (getitem_list (audio_files d) i) as [file|e]; [|eauto].
    destruct (librosa_load file); [|eauto].
    rewrite (getitem_list_out_of_range (labels d) i Hi). eauto. }
  split; [|split].
  - intros Hi. unfold getitem.
    now rewrite (getitem_list_out_of_range (audio_files d) idx Hi).
  - apply Hlab.
  - intros Hlt. split; [unfold len; lia|]. apply Hlab. lia.
Qed.

(** X12.  For a position [i] that holds a readable file and a label,
    [__getitem__(i)] returns the features of that file with that label;
    when there are as many labels as files, the negative index
    [i - len] returns the same item. *)
Theorem getitem_returns_the_pair (d : Dataset.t E X Path Label)
  (i : nat) file waveform label :
  audio_files d !! i = Some file ->
  librosa_load file = Some waveform ->
  labels d !! i = Some label ->
  let features :=
    match transform d with
    | Some tr => tr (Features.NotTensor waveform)
    | None =>
        Features.unsqueeze0
          (Features.torch_tensor convert waveform (infer_dtype waveform))
    end in
  getitem librosa_load convert infer_dtype d (Z.of_nat i)
  = Returns (features, label)
  /\ (length (labels d) = length (audio_files d) ->
      getitem librosa_load convert infer_dtype d (Z.of_nat i - len d)
      = Returns (features, label)).
Proof.
  intros Hf Hl Hlab features.
  assert (Hpos : getitem librosa_load convert infer_dtype d (Z.of_nat i)
                 = Returns (features, label)).
  { unfold getitem. rewrite (getitem_list_in_range _ _ _ Hf), Hl.
    now rewrite (getitem_list_in_range _ _ _ Hlab). }
  split; [exact Hpos|].
  intros Hlen. rewrite <- Hpos. unfold getitem, len.
  pose proof (lookup_lt_Some _ _ _ Hf) as Hlt.
  rewrite (getitem_list_negative (audio_files d)) by lia.
  rewrite (getitem_list_negative (labels d)) by lia.
  rewrite Hlen.
  now replace (Z.of_nat i - Z.of_nat (length (audio_files d))
               + Z.of_nat (length (audio_files d))) with (Z.of_nat i) by lia.
Qed.
End DatasetFacts.

(** ** More about the workflow *)

Section WorkflowLogFacts.
Import Workflow WorkflowLog.

Lemma exec_verify (e : env) :
  exec_script e verify_project_structure
  = (0, ["Verifying project structure...";
         if is_dir e "src" then "✓ src directory found"
         else "⚠️ src directory not found";
         if is_file e "requirements.txt" then "✓ requirements.txt found"
         else "⚠️ requirements.txt not found"]).
Proof.
  unfold verify_project_structure. simpl.
  destruct (is_dir e "src"), (is_file e "requirements.txt"); reflexivity.
Qed.

Lemma exec_syntax (e : env) :
  exec_script e check_python_syntax
  = (if exit_status e
          ["find"; "."; "-name"; "*.py"; "-type"; "f"; "-exec";
           "python"; "-m"; "py_compile"; "{}"; ";"] =? 0
     then (0, [])
     else (exit_status e
             ["find"; "."; "-name"; "*.py"; "-type"; "f"; "-exec";
              "python"; "-m"; "py_compile"; "{}"; ";"], [])).
Proof.
  unfold check_python_syntax, exec_script, exec.
  now destruct (exit_status e _ =? 0).
Qed.

Lemma exec_success (e : env) : exec_script e success = (0, [banner]).
Proof. reflexivity. Qed.

(** X17.  The job log ends with the success banner exactly when the job
    succeeds: the two actions succeeded and [find] exited 0; the log is
    then the three lines of the structure check followed by the banner.
    After a failed step nothing is printed. *)
Theorem banner_exactly_on_success (e : env) :
  fst (run_job e validate) = job_ok e validate
  /\ (In banner (snd (run_job e validate)) <-> job_ok e validate = true)
  /\ (job_ok e validate = true ->
      snd (run_job e validate)
      = ["Verifying project structure...";
         if is_dir e "src" then "✓ src directory found"
         else "⚠️ src directory not found";
         if is_file e "requirements.txt" then "✓ requirements.txt found"
         else "⚠️ requirements.txt not found";
         banner])
  /\ (job_ok e validate = false -> snd (run_job e validate) = []).
Proof.
  unfold validate. cbn [run_job job_ok step_ok].
  rewrite exec_syntax, exec_verify, exec_success.
  destruct (action_ok e "actions/checkout@v3");
    [|repeat split; try discriminate; intros []].
  destruct (action_ok e "actions/setup-python@v4");
    [|repeat split; try discriminate; intros []].
  destruct (Z.eqb_spec
              (exit_status e
                 ["find"; "."; "-name"; "*.py"; "-type"; "f"; "-exec";
                  "python"; "-m"; "py_compile"; "{}"; ";"]) 0) as [E0|E0].
  - cbn [fst snd app Z.eqb].
    split; [reflexivity|]. split; [|split; [reflexivity|discriminate]].
    split; [reflexivity|]. intros _. do 3 right. now left.
  - cbn [fst snd]. apply Z.eqb_neq in E0. rewrite E0.
    repeat split; try discriminate; try reflexivity; intros [].
Qed.
End WorkflowLogFacts.

(** ** The further properties on concrete inputs *)

(** X1 from position 3 of a period of 10: six more steps inside the
    period, the seventh restarts with a period of 20. *)
Lemma period_lasts_T_0_steps_witness :
  Scheduler.T_cur Examples.mid_period < Scheduler.T_0 Examples.mid_period
  /\ Scheduler.T_cur (Scheduler.advances 6 Examples.mid_period) = 9
  /\ Scheduler.T_cur (Scheduler.advances 7 Examples.mid_period) = 0
  /\ Scheduler.T_0 (Scheduler.advances 7 Examples.mid_period) = 20.
Proof.
  assert (Hc : Scheduler.T_cur Examples.mid_period
               < Scheduler.T_0 Examples.mid_period) by (vm_compute; reflexivity).
  destruct (period_lasts_T_0_steps Examples.mid_period Hc)
    as (Hin & Hr & H0 & _).
  split; [exact Hc|]. split; [|split].
  - exact (proj1 (Hin 6%nat ltac:(vm_compute; lia))).
  - exact Hr.
  - exact H0.
Defined.

(** X2 for the schedule of [train_enhanced_model]: the second restart
    comes after 10 + 20 steps and starts a period of 40. *)
Lemma restart_after_k_periods_witness :
  Scheduler.T_cur Examples.fresh_period = 0
  /\ 1 <= Scheduler.T_0 Examples.fresh_period
  /\ 1 <= Scheduler.T_mult Examples.fresh_period
  /\ Scheduler.T_cur (Scheduler.advances 30 Examples.fresh_period) = 0
  /\ Scheduler.T_0 (Scheduler.advances 30 Examples.fresh_period) = 40.
Proof.
  assert (Hc : Scheduler.T_cur Examples.fresh_period = 0) by reflexivity.
  assert (H0 : 1 <= Scheduler.T_0 Examples.fresh_period)
    by (vm_compute; discriminate).
  assert (Hm : 1 <= Scheduler.T_mult Examples.fresh_period)
    by (vm_compute; discriminate).
  split; [exact Hc|]. split; [exact H0|]. split; [exact Hm|].
  exact (restart_after_k_periods Examples.fresh_period 2 Hc H0 Hm).
Defined.

(** X3 for a scheduler constructed with [last_epoch = 15] and
    [T_0 = 10]: a hundred steps later it has still not restarted. *)
Lemma no_restart_past_the_period_witness :
  Scheduler.T_0 Examples.past_period <= Scheduler.T_cur Examples.past_period
  /\ Scheduler.T_0 (Scheduler.advances 100 Examples.past_period) = 10
  /\ Scheduler.T_cur (Scheduler.advances 100 Examples.past_period) = 115.
Proof.
  assert (Hc : Scheduler.T_0 Examples.past_period
               <= Scheduler.T_cur Examples.past_period)
    by (vm_compute; discriminate).
  split; [exact Hc|].
  exact (no_restart_past_the_period Examples.past_period 100 Hc).
Defined.

(** X4 on the optimizer of the examples. *)
Lemma zero_period_cannot_be_constructed_witness :
  Optim.param_groups Concrete.adam_one <> []
  /\ Scheduler.create 0 2 PrimFloat.zero (-1) Concrete.adam_one
     = Raise ZeroDivisionError.
Proof.
  assert (Hne : Optim.param_groups Concrete.adam_one <> []) by discriminate.
  assert (Hlr : Forall (fun g : gmap string float => is_Some (g !! "lr"))
                  (Optim.param_groups Concrete.adam_one)).
  { constructor; [|constructor]. exists PrimFloat.one. reflexivity. }
  split; [exact Hne|].
  exact (zero_period_cannot_be_constructed 2 PrimFloat.zero
           Concrete.adam_one Hne Hlr).
Defined.

(** A loader whose only batch is empty. *)
Lemma empty_batch_has_no_sample :
  ~ has_sample ([[]] : list (@batch float Concrete.one_weight)).
Proof.
  intros (b & [<-|[]] & Hb). vm_compute in Hb. now apply Hb.
Qed.

(** No call of the one-weight framework raises. *)
Lemma one_weight_never_raises : @never_raises float Concrete.one_weight.
Proof.
  unfold never_raises. repeat split; intros; eexists; reflexivity.
Qed.

(** X5 on the one-weight framework: with samples the call returns; with
    a validation loader whose only batch is empty it raises. *)
Lemma training_returns_exactly_when_sampled_witness :
  has_sample Concrete.loader
  /\ Z.of_nat 3 + 10 < float_limit
  /\ is_ok (Training.train_enhanced_model Concrete.model Concrete.loader
              Concrete.loader 3 Concrete.one_tenth Concrete.world0) = true
  /\ Training.train_enhanced_model Concrete.model Concrete.loader [[]] 3
       Concrete.one_tenth Concrete.world0 = Raise ZeroDivisionError.
Proof.
  assert (Hs : has_sample Concrete.loader).
  { exists [0; 1]. split; [now left|]. vm_compute. discriminate. }
  assert (Hlim : Z.of_nat 3 + 10 < float_limit) by (vm_compute; reflexivity).
  split; [exact Hs|]. split; [exact Hlim|]. split.
  - exact (proj1 (proj2 (training_returns_exactly_when_sampled Concrete.model
                           Concrete.loader Concrete.loader 3
                           Concrete.one_tenth Concrete.world0))
             one_weight_never_raises Hlim (or_intror (conj Hs Hs))).
  - refine (proj2 (proj2 (training_returns_exactly_when_sampled Concrete.model
                            Concrete.loader [[]] 3 Concrete.one_tenth
                            Concrete.world0)) one_weight_never_raises _ _).
    + discriminate.
    + intros [_ Hv]. exact (empty_batch_has_no_sample Hv).
Defined.

(** X6 on the concrete loader: two targets, in order, and the one
    prediction the one-weight model makes for the batch. *)
Lemma evaluate_model_outputs_witness :
  Training.evaluate_model Concrete.model Concrete.loader Concrete.world0
  = Ok ((PrimFloat.zero, [0], [0; 1]),
        Nn.set_training <[Concrete.model := false]> Concrete.world0)
  /\ has_sample Concrete.loader
  /\ [0; 1] = concat (map targets Concrete.loader).
Proof.
  assert (E : Training.evaluate_model Concrete.model Concrete.loader
                Concrete.world0
              = Ok ((PrimFloat.zero, [0], [0; 1]),
                    Nn.set_training <[Concrete.model := false]>
                      Concrete.world0))
    by (vm_compute; reflexivity).
  split; [exact E|].
  destruct (proj1 (evaluate_model_outputs Concrete.model Concrete.loader
                     Concrete.world0) _ _ _ _ E) as (Hs & Ht & _).
  split; [exact Hs|exact Ht].
Defined.

(** X7 on the concrete run of two epochs. *)
Lemma training_leaves_evaluation_mode_witness :
  Training.train_enhanced_model Concrete.model Concrete.loader
    Concrete.loader 2 Concrete.one_tenth Concrete.world0
  = Ok ((Concrete.model, Concrete.history_of_run Concrete.after2),
        Concrete.world_of_run Concrete.after2)
  /\ Nn.is_training (Concrete.world_of_run Concrete.after2) Concrete.model
     = false.
Proof.
  assert (Hrun : Training.train_enhanced_model Concrete.model Concrete.loader
                   Concrete.loader 2 Concrete.one_tenth Concrete.world0
                 = Ok ((Concrete.model,
                        Concrete.history_of_run Concrete.after2),
                       Concrete.world_of_run Concrete.after2))
    by (vm_compute; reflexivity).
  split; [exact Hrun|].
  refine (training_leaves_evaluation_mode _ _ _ _ _ _ _ _ Hrun _).
  discriminate.
Defined.

(** X8 on the concrete run of two epochs: two entries. *)
Lemma early_stopping_needs_ten_epochs_witness :
  Training.train_enhanced_model Concrete.model Concrete.loader
    Concrete.loader 2 Concrete.one_tenth Concrete.world0
  = Ok ((Concrete.model, Concrete.history_of_run Concrete.after2),
        Concrete.world_of_run Concrete.after2)
  /\ exists vs,
      Concrete.history_of_run Concrete.after2 !! "val_loss" = Some vs
      /\ length vs = 2%nat.
Proof.
  assert (Hrun : Training.train_enhanced_model Concrete.model Concrete.loader
                   Concrete.loader 2 Concrete.one_tenth Concrete.world0
                 = Ok ((Concrete.model,
                        Concrete.history_of_run Concrete.after2),
                       Concrete.world_of_run Concrete.after2))
    by (vm_compute; reflexivity).
  split; [exact Hrun|].
  destruct (early_stopping_needs_ten_epochs _ _ _ _ _ _ _ _ _ Hrun)
    as (vs & Hv & _ & Hlt).
  exists vs. split; [exact Hv|]. apply Hlt. lia.
Defined.

(** X9 on the concrete run of two epochs: the scheduler is at position 2
    of its first period. *)
Lemma scheduler_steps_once_per_epoch_witness :
  Concrete.run 2 = Ok Concrete.after2
  /\ Scheduler.T_cur (Nn.scheduler (Concrete.world_of_run Concrete.after2)) = 2
  /\ Scheduler.T_0 (Nn.scheduler (Concrete.world_of_run Concrete.after2)) = 10.
Proof.
  assert (Hrun : Training.train_enhanced_model_observed Concrete.model
                   Concrete.loader Concrete.loader 2 Concrete.one_tenth
                   Concrete.world0
                 = Ok ((Concrete.model,
                        Concrete.history_of_run Concrete.after2,
                        Concrete.observed_of_run Concrete.after2),
                       Concrete.world_of_run Concrete.after2))
    by (vm_compute; reflexivity).
  split; [exact Hrun|].
  destruct (scheduler_steps_once_per_epoch _ _ _ _ _ _ _ _ _ _ Hrun)
    as (_ & _ & Hlt & _).
  apply Hlt. vm_compute. lia.
Defined.

(** X10 on a scalar tensor: it is passed on as it is. *)
Lemma mel_input_is_never_1d_witness :
  Features.dim {| Features.t_dtype := Features.float32;
                  Features.t_shape := []; Features.t_data := [7] |} = 0%nat
  /\ Features.add_batch_dimension
       {| Features.t_dtype := Features.float32;
          Features.t_shape := []; Features.t_data := [7] |}
     = {| Features.t_dtype := Features.float32;
          Features.t_shape := []; Features.t_data := [7] |}.
Proof.
  assert (Hd : Features.dim {| Features.t_dtype := Features.float32;
                               Features.t_shape := [];
                               Features.t_data := [7] |} = 0%nat)
    by reflexivity.
  split; [exact Hd|].
  destruct (mel_input_is_never_1d (fun _ (x : Z) => x) (fun t => t)
              (fun t => t) (Features.IsTensor Concrete.stereo)
              {| Features.t_dtype := Features.float32;
                 Features.t_shape := []; Features.t_data := [7] |})
    as (_ & _ & _ & _ & _ & Hscalar).
  exact (Hscalar Hd).
Defined.

(** X11 on three files with two labels: index 2 is below [__len__] and
    raises. *)
Lemma getitem_index_errors_witness :
  (length (Dataset.labels (Examples.dataset [5; 6]%nat))
   < length (Dataset.audio_files (Examples.dataset [5; 6]%nat)))%nat
  /\ 2 < Dataset.len (Examples.dataset [5; 6]%nat)
  /\ (exists e, Examples.getitem [5; 6]%nat 2 = Dataset.Raises e)
  /\ Examples.getitem [5; 6]%nat 3 = Dataset.Raises Dataset.IndexError.
Proof.
  assert (Hlt : (length (Dataset.labels (Examples.dataset [5; 6]%nat))
                 < length (Dataset.audio_files (Examples.dataset [5; 6]%nat)))%nat)
    by (vm_compute; lia).
  destruct (getitem_index_errors Examples.load_any (fun _ (x : Z) => x)
              (fun _ => Features.float32) (Examples.dataset [5; 6]%nat) 3)
    as (Hout & _ & Hshort).
  split; [exact Hlt|]. split; [vm_compute; reflexivity|]. split.
  - exact (proj2 (Hshort Hlt)).
  - apply Hout. right. vm_compute. discriminate.
Defined.

(** X12 on three files with three labels: index 1 and index -2 give the
    same item. *)
Lemma getitem_returns_the_pair_witness :
  Dataset.audio_files (Examples.dataset [5; 6; 7]%nat) !! 1%nat = Some "b.wav"
  /\ Examples.getitem [5; 6; 7]%nat 1 = Examples.getitem [5; 6; 7]%nat (-2)
  /\ exists features, Examples.getitem [5; 6; 7]%nat 1
                      = Dataset.Returns (features, 6%nat).
Proof.
  assert (Hf : Dataset.audio_files (Examples.dataset [5; 6; 7]%nat) !! 1%nat
               = Some "b.wav") by reflexivity.
  assert (Hl : Examples.load_any "b.wav" = Some Examples.four_samples)
    by reflexivity.
  assert (Hlab : Dataset.labels (Examples.dataset [5; 6; 7]%nat) !! 1%nat
                 = Some 6%nat) by reflexivity.
  destruct (getitem_returns_the_pair Examples.load_any (fun _ (x : Z) => x)
              (fun _ => Features.float32) (Examples.dataset [5; 6; 7]%nat)
              1 "b.wav" Examples.four_samples 6%nat Hf Hl Hlab)
    as [Hpos Hneg].
  split; [exact Hf|]. split.
  - etransitivity; [exact Hpos|]. symmetry. exact (Hneg eq_refl).
  - eexists. exact Hpos.
Defined.

(** X13 on a 3-D input: rejected. *)
Lemma forward_shape_witness :
  length ([1; 16; 64]%nat : Shape.t) <> 4%nat
  /\ Model.forward false 8 [1; 16; 64]%nat = None
  /\ Model.forward false 8 [4; 1; 16; 130]%nat
     = Some ([4; 8], [4; 8; 8])%nat.
Proof.
  assert (Hl : length ([1; 16; 64]%nat : Shape.t) <> 4%nat)
    by (vm_compute; lia).
  split; [exact Hl|]. split.
  - exact (proj2 (forward_shape false 8) [1; 16; 64]%nat Hl).
  - rewrite (proj1 (forward_shape false 8)). reflexivity.
Defined.

(** X14 on the spectrogram of the code's comment, 128 by 130. *)
Lemma default_spectrogram_is_rejected_witness :
  (16 <= 130)%nat
  /\ Model.sequential false Model.conv_layers [4; 1; 128; 130]%nat
     = Some [4; 128; 8; 8]%nat
  /\ Model.forward false 8 [4; 1; 128; 130]%nat = None.
Proof.
  assert (Hw : (16 <= 130)%nat) by lia.
  destruct (default_spectrogram_is_rejected false 8 4 130) as [Hnone Hconv].
  split; [exact Hw|]. split; [exact (Hconv Hw)|exact Hnone].
Defined.

(** X15 on the first block of the model and a batch of four
    spectrograms, and on a block without output channels. *)
Lemma conv_block_shape_witness :
  (1 <= 1)%nat /\ (1 <= 4)%nat
  /\ Model.conv_block_forward true (Model.conv_block 1 16) [4; 1; 16; 130]%nat
     = Some [4; 16; 16; 130]%nat
  /\ Model.conv_block_forward true (Model.conv_block 1 0) [4; 1; 16; 130]%nat
     = None.
Proof.
  assert (Hc : (1 <= 1)%nat) by lia.
  assert (Hn : (1 <= 4)%nat) by lia.
  split; [exact Hc|]. split; [exact Hn|]. split.
  - rewrite (proj1 (conv_block_shape true 1 16 4 1 16 130 Hc Hn)).
    reflexivity.
  - rewrite (proj1 (conv_block_shape true 1 0 4 1 16 130 Hc Hn)).
    reflexivity.
Defined.

(** X16 on a 2-D input: rejected. *)
Lemma attention_weights_are_square_witness :
  length ([9; 256]%nat : Shape.t) <> 3%nat
  /\ Model.attention_forward 256 [9; 256]%nat = None.
Proof.
  assert (Hl : length ([9; 256]%nat : Shape.t) <> 3%nat)
    by (vm_compute; lia).
  split; [exact Hl|].
  exact (proj2 (attention_weights_are_square 256) [9; 256]%nat Hl).
Defined.

(** X17 on a runner where everything succeeds and [requirements.txt] is
    missing: the warning is in the log, and so is the banner. *)
Lemma banner_exactly_on_success_witness :
  Workflow.job_ok Examples.runner Workflow.validate = true
  /\ snd (WorkflowLog.run_job Examples.runner Workflow.validate)
     = ["Verifying project structure..."; "✓ src directory found";
        "⚠️ requirements.txt not found"; WorkflowLog.banner].
Proof.
  assert (Hok : Workflow.job_ok Examples.runner Workflow.validate = true)
    by reflexivity.
  split; [exact Hok|].
  destruct (banner_exactly_on_success Examples.runner) as (_ & _ & Hlog & _).
  exact (Hlog Hok).
Defined.
